(** * topology_cacher: resource indexing and project/allocation join

    A shallow embedding of [src/topology_cacher.py] and the properties of
    its resource indexer, allocation joiner and document fetcher.

    Layout:
    - [PyStr]: the string operations the code uses ([str.strip], [in]);
    - [Dict]: Python's insertion-ordered [dict] with string keys;
    - [ET]: the part of [xml.etree.ElementTree] the code reads;
    - the monad [M] (mutable object, log, exceptions) and the embedding of
      [TopologyData], loop by loop;
    - reference functions: total readings of the two documents and the
      loops as folds;
    - sample documents and a test double for the collaborators;
    - proofs: the code computes the folds whenever it returns; it returns
      exactly when every text it reads is there; rebuilding does not look
      at the previous tables;
    - the properties, by component. *)

From Stdlib Require Import String Ascii List Bool Arith ZArith Lia.
Import ListNotations.
Open Scope string_scope.
Open Scope list_scope.
Open Scope nat_scope.

(** ** Strings *)

Module PyStr.

(** [str.isspace] on one character.  Characters are Stdlib's 8-bit
    [ascii], so these are the white-space code points below 256:
    TAB..CR, FS..US, SPACE, NEL and NBSP. *)
Definition isspace (c : ascii) : bool :=
  let n := nat_of_ascii c in
  ((9 <=? n) && (n <=? 13)) || ((28 <=? n) && (n <=? 32))
  || (n =? 133) || (n =? 160).

Fixpoint lstrip (s : string) : string :=
  match s with
  | EmptyString => EmptyString
  | String c s' => if isspace c then lstrip s' else s
  end.

Fixpoint rstrip (s : string) : string :=
  match s with
  | EmptyString => EmptyString
  | String c s' =>
      match rstrip s' with
      | EmptyString => if isspace c then EmptyString else String c EmptyString
      | t => String c t
      end
  end.

(** [s.strip()] *)
Definition strip (s : string) : string := rstrip (lstrip s).

(** Truthiness of a [str]: [not s] holds exactly for the empty string. *)
Definition truthy (s : string) : bool :=
  match s with EmptyString => false | _ => true end.

(** [x in l] for a list of strings. *)
Definition mem (x : string) (l : list string) : bool :=
  existsb (String.eqb x) l.

(** [sub in s] for two strings. *)
Fixpoint contains (sub s : string) : bool :=
  String.prefix sub s
  || match s with
     | EmptyString => false
     | String _ s' => contains sub s'
     end.

End PyStr.

(** ** Dictionaries *)

Module Dict.

(** A Python [dict] keyed by [str]: entries in insertion order, one per
    key.  Assigning to a key that is present replaces the value in place;
    assigning to a new key appends an entry. *)
Definition dict (V : Type) : Type := list (string * V).

Definition empty {V} : dict V := [].

(** [d.get(k)] *)
Fixpoint get {V} (k : string) (d : dict V) : option V :=
  match d with
  | [] => None
  | (k', v) :: d' => if String.eqb k k' then Some v else get k d'
  end.

(** [d[k] = v] *)
Fixpoint set {V} (k : string) (v : V) (d : dict V) : dict V :=
  match d with
  | [] => [(k, v)]
  | (k', v') :: d' =>
      if String.eqb k k' then (k', v) :: d' else (k', v') :: set k v d'
  end.

Definition keys {V} (d : dict V) : list string := map fst d.

(** The dictionary after [d[key x] = val x] for each [x] of [l] in turn. *)
Definition fill {X V} (key : X -> string) (val : X -> V) (l : list X)
    (d : dict V) : dict V :=
  fold_left (fun d x => set (key x) (val x) d) l d.

End Dict.

Abbreviation dict := Dict.dict.

(** ** XML elements *)

Module ET.

(** An [ET.Element] as the code reads it: the tag, the text before the
    first child ([None] when the element has no character data there, as
    for [<Name/>] and [<Name></Name>]) and the child elements in document
    order.  Attributes and tail text are never read by the functions
    below. *)
#[warnings="-register-all"]
Inductive Element : Type :=
| Elem (tag : string) (text : option string) (children : list Element).

Definition tag (e : Element) : string :=
  match e with Elem t _ _ => t end.
Definition text (e : Element) : option string :=
  match e with Elem _ t _ => t end.
Definition children (e : Element) : list Element :=
  match e with Elem _ _ c => c end.

(** [bool(element)] is [len(element) != 0]: the element has children. *)
Definition truthy (e : Element) : bool :=
  match children e with [] => false | _ => true end.

(** One step [/tag] of ElementPath: the children with that tag of every
    element selected so far. *)
Definition child (t : string) (result : list Element) : list Element :=
  flat_map (fun elem => filter (fun e => String.eqb (tag e) t) (children elem))
           result.

(** [elem.findall("./t1/t2/...")]; the path is the list of its tags. *)
Definition findall (elem : Element) (path : list string) : list Element :=
  fold_left (fun result t => child t result) path [elem].

(** [elem.find(path)]: the first match or [None]. *)
Definition find (elem : Element) (path : list string) : option Element :=
  hd_error (findall elem path).

End ET.

Abbreviation Element := ET.Element.
Abbreviation Elem := ET.Elem.

(** ** Exceptions *)

(** What a collaborator raises: an exception of a library class.  The
    [except] clauses of [_get_data] tell three classes apart,
    [EnvironmentError] (an alias of [OSError]; [URLError], [HTTPError] and
    the socket timeouts are subclasses), [ParseError] and
    [UnicodeDecodeError].  [OtherException cls] is an exception of any
    other class, given by the name of the class: [urlopen] raises
    [ValueError] for a URL of unknown type, [response.read] raises
    [http.client.IncompleteRead], [ET.fromstring] raises [LookupError]
    for an unknown encoding.  [DataError] is this module's own class, which
    no library raises. *)
Inductive library_exception : Type :=
| EnvironmentError
| ParseError
| UnicodeDecodeError
| OtherException (cls : string).

(** What a method of the module raises: its own exceptions, and the
    exceptions of the collaborators that no [except] clause catches, which
    pass through unchanged. *)
Inductive exn : Type :=
| AttributeError
| KeyError (k : string)
| DataError (msg : string)
| Uncaught (e : library_exception).

Inductive outcome (A : Type) : Type :=
| Ret (a : A)
| Raise (e : exn).
Arguments Ret {A} a.
Arguments Raise {A} e.

(** ** The data model *)

Module ResourceInfo.

(** [namedtuple("ResourceInfo", "group_name name fqdn service_ids tags")] *)
Record t : Type := make {
  group_name : string;
  name : string;
  fqdn : string;
  service_ids : list string;
  tags : list string
}.

Definition SERVICE_ID_CE : string := "1".
Definition SERVICE_ID_SCHEDD : string := "109".

Definition is_ce (self : t) : bool :=
  PyStr.mem SERVICE_ID_CE (service_ids self).

Definition is_schedd (self : t) : bool :=
  PyStr.mem SERVICE_ID_SCHEDD (service_ids self).

End ResourceInfo.

Record TopologyData : Type := {
  topology_base : string;
  resinfo_table : list ResourceInfo.t;
  grouped_resinfo : dict (list ResourceInfo.t);
  resinfo_by_name : dict ResourceInfo.t;
  resinfo_by_fqdn : dict ResourceInfo.t;
  projects : option Element;
  resources : option Element
}.

(** The dictionaries [get_project_resource_allocations] builds. *)
Record SubmitResource : Type := {
  sr_fqdn : string;
  sr_group_name : string;
  sr_name : string
}.

Record ComputeEntrypoint : Type := {
  ce_fqdn : string;
  ce_name : string
}.

Record ExecuteResourceGroup : Type := {
  ces : list ComputeEntrypoint;
  erg_group_name : string;
  local_allocation_id : string
}.

Record Allocation : Type := {
  type_ : string;
  submit_resources : list SubmitResource;
  execute_resource_groups : list ExecuteResourceGroup
}.

(** A call [log.warning(msg, *args)]. *)
Record LogRecord : Type := Warning {
  log_msg : string;
  log_args : list string
}.

(** The collaborators: the transport ([urlopen(url)] followed by
    [response.read()]), the XML parser and the XML serializer.  The
    transport and the parser either deliver or raise an exception of any
    library class. *)
Record Env : Type := {
  urlopen_read : string -> library_exception + list Byte.byte;
  ET_fromstring : list Byte.byte -> library_exception + Element;
  ET_tostring : Element -> string
}.

(** ** The monad: mutable object, log, exceptions *)

Record World : Type := {
  self : TopologyData;
  log : list LogRecord
}.

(** A computation runs in a world and leaves a world, also when it raises:
    what was mutated before the exception stays mutated. *)
Definition M (A : Type) : Type := World -> outcome A * World.

Definition ret {A} (a : A) : M A := fun w => (Ret a, w).

Definition bind {A B} (m : M A) (f : A -> M B) : M B :=
  fun w =>
    match m w with
    | (Ret a, w') => f a w'
    | (Raise e, w') => (Raise e, w')
    end.

Definition raise {A} (e : exn) : M A := fun w => (Raise e, w).

Definition lift {A} (o : outcome A) : M A := fun w => (o, w).

Declare Scope py_scope.
Delimit Scope py_scope with py.
Notation "x <- m ;; k" := (bind m (fun x => k))
  (at level 61, m at next level, right associativity) : py_scope.
Notation "m ;; k" := (bind m (fun _ => k))
  (at level 61, right associativity) : py_scope.
Open Scope py_scope.

Definition gets {A} (f : TopologyData -> A) : M A :=
  fun w => (Ret (f (self w)), w).

Definition modify (f : TopologyData -> TopologyData) : M unit :=
  fun w => (Ret tt, {| self := f (self w); log := log w |}).

Definition warning (msg : string) (args : list string) : M unit :=
  fun w => (Ret tt, {| self := self w; log := log w ++ [Warning msg args] |}).

(** [for x in xs: body], with the loop's local variables as [acc];
    [continue] is the body returning early. *)
Fixpoint for_each {X B} (xs : list X) (acc : B) (body : B -> X -> M B) : M B :=
  match xs with
  | [] => ret acc
  | x :: xs' => acc' <- body acc x ;; for_each xs' acc' body
  end.

(** Attribute assignments [self.f = v]. *)
Definition set_resinfo_table v (s : TopologyData) : TopologyData :=
  {| topology_base := topology_base s; resinfo_table := v;
     grouped_resinfo := grouped_resinfo s;
     resinfo_by_name := resinfo_by_name s;
     resinfo_by_fqdn := resinfo_by_fqdn s;
     projects := projects s; resources := resources s |}.
Definition set_grouped_resinfo v (s : TopologyData) : TopologyData :=
  {| topology_base := topology_base s; resinfo_table := resinfo_table s;
     grouped_resinfo := v;
     resinfo_by_name := resinfo_by_name s;
     resinfo_by_fqdn := resinfo_by_fqdn s;
     projects := projects s; resources := resources s |}.
Definition set_resinfo_by_name v (s : TopologyData) : TopologyData :=
  {| topology_base := topology_base s; resinfo_table := resinfo_table s;
     grouped_resinfo := grouped_resinfo s;
     resinfo_by_name := v;
     resinfo_by_fqdn := resinfo_by_fqdn s;
     projects := projects s; resources := resources s |}.
Definition set_resinfo_by_fqdn v (s : TopologyData) : TopologyData :=
  {| topology_base := topology_base s; resinfo_table := resinfo_table s;
     grouped_resinfo := grouped_resinfo s;
     resinfo_by_name := resinfo_by_name s;
     resinfo_by_fqdn := v;
     projects := projects s; resources := resources s |}.
Definition set_projects v (s : TopologyData) : TopologyData :=
  {| topology_base := topology_base s; resinfo_table := resinfo_table s;
     grouped_resinfo := grouped_resinfo s;
     resinfo_by_name := resinfo_by_name s;
     resinfo_by_fqdn := resinfo_by_fqdn s;
     projects := v; resources := resources s |}.
Definition set_resources v (s : TopologyData) : TopologyData :=
  {| topology_base := topology_base s; resinfo_table := resinfo_table s;
     grouped_resinfo := grouped_resinfo s;
     resinfo_by_name := resinfo_by_name s;
     resinfo_by_fqdn := resinfo_by_fqdn s;
     projects := projects s; resources := v |}.

(** ** Module-level helpers of the source *)

(** [getattr(element, "text", "").strip()]: the default [""] is used only
    when the attribute is missing, that is when [element] is [None]; an
    element whose [text] is [None] yields [None], and [None.strip()] raises
    [AttributeError]. *)
Definition safe_element_text (element : option Element) : outcome string :=
  match element with
  | None => Ret (PyStr.strip "")
  | Some e =>
      match ET.text e with
      | Some s => Ret (PyStr.strip s)
      | None => Raise AttributeError
      end
  end.

(** [filter(None, map(safe_element_text, l))], forced by [list(...)]: the
    first element whose text raises aborts the whole list. *)
Fixpoint filter_map_text (l : list Element) : outcome (list string) :=
  match l with
  | [] => Ret []
  | e :: l' =>
      match safe_element_text (Some e) with
      | Raise x => Raise x
      | Ret s =>
          match filter_map_text l' with
          | Raise x => Raise x
          | Ret ss => Ret (if PyStr.truthy s then s :: ss else ss)
          end
      end
  end.

Definition findall_nonempty (elt : Element) (path : list string)
  : outcome (list string) :=
  filter_map_text (ET.findall elt path).

Definition elem2str (env : Env) (element : Element) : string :=
  ET_tostring env element.

(** ** [TopologyData] *)

Definition TOPOLOGY : string := "https://topology.opensciencegrid.org".

(** [_get_data]: the three [raise DataError(...)] sites and the return.
    The first [try] catches [EnvironmentError] only and the second
    [ParseError] and [UnicodeDecodeError] only; an exception of another
    class leaves [_get_data] as it was raised.  The cause attached by
    [raise ... from err] is not kept. *)
Definition _get_data (env : Env) (endpoint : string) : M Element :=
  base <- gets topology_base ;;
  match urlopen_read env (base ++ endpoint)%string with
  | inl EnvironmentError =>
      raise (DataError ("Topology query to " ++ endpoint ++ " failed"))
  | inl err => raise (Uncaught err)
  | inr xml_bytes =>
      match xml_bytes with
      | [] =>
          raise (DataError ("Topology query to " ++ endpoint ++ " returned no data"))
      | _ :: _ =>
          match ET_fromstring env xml_bytes with
          | inl ParseError | inl UnicodeDecodeError =>
              raise (DataError
                       ("Topology query to " ++ endpoint ++ " couldn't be parsed"))
          | inl err => raise (Uncaught err)
          | inr element => ret element
          end
      end
  end.

Definition update_projects (env : Env) : M unit :=
  element <- _get_data env "/miscproject/xml" ;;
  modify (set_projects (Some element)).

(** [self.grouped_resinfo[group_name].append(resinfo)]: the subscript
    raises [KeyError] for an absent key; the list it returns is the object
    stored in the dictionary, so the append is an update of that entry. *)
Definition grouped_resinfo_append (group_name : string) (resinfo : ResourceInfo.t)
  : M unit :=
  grouped <- gets grouped_resinfo ;;
  match Dict.get group_name grouped with
  | None => raise (KeyError group_name)
  | Some l => modify (set_grouped_resinfo (Dict.set group_name (l ++ [resinfo]) grouped))
  end.

(** The body of [for eResource in eResourceGroup.findall("./Resources/Resource")]. *)
Definition update_resources_resource (env : Env) (group_name : string)
    (eResource : Element) : M unit :=
  resource_name <- lift (safe_element_text (ET.find eResource ["Name"])) ;;
  fqdn <- lift (safe_element_text (ET.find eResource ["FQDN"])) ;;
  service_ids <- lift (findall_nonempty eResource ["Services"; "Service"; "ID"]) ;;
  if negb (PyStr.truthy resource_name) || negb (PyStr.truthy fqdn)
     || match service_ids with [] => true | _ => false end
  then
    warning "Skipping malformed Resource: %s" [elem2str env eResource]
  else
    tags <- lift (findall_nonempty eResource ["Tags"; "Tag"]) ;;
    let resinfo :=
      ResourceInfo.make group_name resource_name fqdn service_ids tags in
    table <- gets resinfo_table ;;
    modify (set_resinfo_table (table ++ [resinfo])) ;;
    grouped_resinfo_append group_name resinfo ;;
    by_name <- gets resinfo_by_name ;;
    modify (set_resinfo_by_name (Dict.set resource_name resinfo by_name)) ;;
    by_fqdn <- gets resinfo_by_fqdn ;;
    modify (set_resinfo_by_fqdn (Dict.set fqdn resinfo by_fqdn)).

(** The body of [for eResourceGroup in self.resources.findall("./ResourceGroup")]. *)
Definition update_resources_group (env : Env) (eResourceGroup : Element) : M unit :=
  group_name <- lift (safe_element_text (ET.find eResourceGroup ["GroupName"])) ;;
  if negb (PyStr.truthy group_name) then
    warning "Skipping malformed ResourceGroup: %s" [elem2str env eResourceGroup]
  else
    grouped <- gets grouped_resinfo ;;
    modify (set_grouped_resinfo (Dict.set group_name [] grouped)) ;;
    for_each (ET.findall eResourceGroup ["Resources"; "Resource"]) tt
      (fun _ => update_resources_resource env group_name).

Definition update_resources (env : Env) : M unit :=
  element <- _get_data env "/rgsummary/xml" ;;
  modify (set_resources (Some element)) ;;
  modify (set_resinfo_table []) ;;
  modify (set_grouped_resinfo Dict.empty) ;;
  modify (set_resinfo_by_name Dict.empty) ;;
  modify (set_resinfo_by_fqdn Dict.empty) ;;
  (* Build tables and indices for easier lookup *)
  resources_ <- gets resources ;;
  match resources_ with
  | None => raise AttributeError
  | Some root =>
      for_each (ET.findall root ["ResourceGroup"]) tt
        (fun _ => update_resources_group env)
  end.

(** [TopologyData(topology_base)]: the constructor fills a fresh object;
    whatever [self] held before is gone. *)
Definition __init__ (env : Env) (topology_base_ : string) : M unit :=
  let topology_base_ :=
    if negb (PyStr.contains "://" topology_base_)
    then ("https://" ++ topology_base_)%string else topology_base_ in
  modify (fun _ =>
    {| topology_base := topology_base_;
       resinfo_table := [];
       grouped_resinfo := Dict.empty;
       resinfo_by_name := Dict.empty;
       resinfo_by_fqdn := Dict.empty;
       projects := None;
       resources := None |}) ;;
  update_projects env ;;
  update_resources env.

(** [ret[project_name]] and the local [allocations] name one list object
    from the assignment [ret[project_name] = allocations = []] to the end
    of that project's loop, so [allocations.append(allocation)] is an
    update of that entry of [ret]. *)
Definition allocations_append (project_name : string) (allocation : Allocation)
    (ret_ : dict (list Allocation)) : dict (list Allocation) :=
  match Dict.get project_name ret_ with
  | Some allocations => Dict.set project_name (allocations ++ [allocation]) ret_
  | None => ret_
  end.

(** The loop over [(type_, "Type")], [(eExecuteResourceGroup_list, ...)],
    [(eSubmitResource_list, ...)], each pair given by the truth value of
    its variable; the result is [bad_ra]. *)
Definition allocation_check (env : Env) (eResourceAllocation : Element)
    (vars : list (bool * string)) : M bool :=
  for_each vars false (fun bad_ra '(var, name) =>
    if negb var then
      warning "ResourceAllocation has a missing or empty %s: %s"
              [name; elem2str env eResourceAllocation] ;;
      ret true
    else ret bad_ra).

(** The body of [for eSubmitResource in eSubmitResource_list];
    [acc] is [allocation["submit_resources"]]. *)
Definition allocation_submit_resource (env : Env) (acc : list SubmitResource)
    (eSubmitResource : Element) : M (list SubmitResource) :=
  key <- lift (safe_element_text (Some eSubmitResource)) ;;
  by_name <- gets resinfo_by_name ;;
  match Dict.get key by_name with
  | None =>
      warning "Skipping missing or malformed SubmitResource: %s"
              [elem2str env eSubmitResource] ;;
      ret acc
  | Some resinfo =>
      ret (acc ++ [ {| sr_fqdn := ResourceInfo.fqdn resinfo;
                       sr_group_name := ResourceInfo.group_name resinfo;
                       sr_name := ResourceInfo.name resinfo |} ])
  end.

(** The body of [for eExecuteResourceGroup in eExecuteResourceGroup_list];
    [acc] is [allocation["execute_resource_groups"]]. *)
Definition allocation_execute_group (env : Env) (acc : list ExecuteResourceGroup)
    (eExecuteResourceGroup : Element) : M (list ExecuteResourceGroup) :=
  group_name <-
    lift (safe_element_text (ET.find eExecuteResourceGroup ["GroupName"])) ;;
  local_allocation_id_ <-
    lift (safe_element_text (ET.find eExecuteResourceGroup ["LocalAllocationID"])) ;;
  if negb (PyStr.truthy group_name) || negb (PyStr.truthy local_allocation_id_)
  then
    warning "Skipping malformed ExecuteResourceGroup: %s"
            [elem2str env eExecuteResourceGroup] ;;
    ret acc
  else
    grouped <- gets grouped_resinfo ;;
    match Dict.get group_name grouped with
    | None | Some [] =>
        warning "Skipping missing or empty ExecuteResourceGroup %s" [group_name] ;;
        ret acc
    | Some resinfo_list =>
        let ces_ :=
          map (fun x => {| ce_fqdn := ResourceInfo.fqdn x;
                           ce_name := ResourceInfo.name x |})
              (filter ResourceInfo.is_ce resinfo_list) in
        ret (acc ++ [ {| ces := ces_;
                         erg_group_name := group_name;
                         local_allocation_id := local_allocation_id_ |} ])
    end.

(** The body of [for eResourceAllocation in eProject.findall(...)];
    [ret_] is the dictionary [ret]. *)
Definition project_allocation (env : Env) (project_name : string)
    (ret_ : dict (list Allocation)) (eResourceAllocation : Element)
  : M (dict (list Allocation)) :=
  (* Get ResourceAllocation elements and verify they're nonempty *)
  type__ <- lift (safe_element_text (ET.find eResourceAllocation ["Type"])) ;;
  let eExecuteResourceGroup_list :=
    ET.findall eResourceAllocation
      ["ExecuteResourceGroups"; "ExecuteResourceGroup"] in
  let eSubmitResource_list :=
    ET.findall eResourceAllocation ["SubmitResources"; "SubmitResource"] in
  bad_ra <-
    allocation_check env eResourceAllocation
      [ (PyStr.truthy type__, "Type");
        (match eExecuteResourceGroup_list with [] => false | _ => true end,
         "ExecuteResourceGroups");
        (match eSubmitResource_list with [] => false | _ => true end,
         "SubmitResources") ] ;;
  if (bad_ra : bool) then ret ret_ else
  (* Transform the list of SubmitResource elements *)
  submit_resources_ <-
    for_each eSubmitResource_list [] (allocation_submit_resource env) ;;
  (* Transform the list of ExecuteResourceGroup elements *)
  execute_resource_groups_ <-
    for_each eExecuteResourceGroup_list [] (allocation_execute_group env) ;;
  (* Done with this allocation *)
  ret (allocations_append project_name
         {| type_ := type__;
            submit_resources := submit_resources_;
            execute_resource_groups := execute_resource_groups_ |}
         ret_).

(** The body of [for eProject in self.projects.findall("./Project")]. *)
Definition project_body (env : Env) (ret_ : dict (list Allocation))
    (eProject : Element) : M (dict (list Allocation)) :=
  project_name <- lift (safe_element_text (ET.find eProject ["Name"])) ;;
  if negb (PyStr.truthy project_name) then
    warning "Project has a missing or empty Name: %s" [elem2str env eProject] ;;
    ret ret_
  else
    for_each (ET.findall eProject ["ResourceAllocations"; "ResourceAllocation"])
      (Dict.set project_name [] ret_)
      (project_allocation env project_name).

Definition get_project_resource_allocations (env : Env)
  : M (dict (list Allocation)) :=
  projects_ <- gets projects ;;
  resources_ <- gets resources ;;
  match projects_, resources_ with
  | Some eProjects, Some eResources =>
      if negb (ET.truthy eProjects) || negb (ET.truthy eResources) then
        ret Dict.empty
      else
        for_each (ET.findall eProjects ["Project"]) Dict.empty (project_body env)
  | _, _ => ret Dict.empty
  end.

(** ** Reference functions

    Total readings of the two documents, used to state what the loops
    above compute.  They agree with the code wherever the code returns
    (an element without text reads as the empty string here, where
    [safe_element_text] raises). *)

Definition element_text (element : option Element) : string :=
  match element with
  | Some e => match ET.text e with Some s => PyStr.strip s | None => "" end
  | None => ""
  end.

Definition nonempty_texts (elt : Element) (path : list string) : list string :=
  filter PyStr.truthy (map (fun e => element_text (Some e)) (ET.findall elt path)).

(** *** The resource document *)

Definition resource_groups (root : Element) : list Element :=
  ET.findall root ["ResourceGroup"].

Definition group_name_of (eResourceGroup : Element) : string :=
  element_text (ET.find eResourceGroup ["GroupName"]).

Definition named_group (eResourceGroup : Element) : bool :=
  PyStr.truthy (group_name_of eResourceGroup).

Definition resources_of (eResourceGroup : Element) : list Element :=
  ET.findall eResourceGroup ["Resources"; "Resource"].

Definition resource_name_of (eResource : Element) : string :=
  element_text (ET.find eResource ["Name"]).

Definition fqdn_of (eResource : Element) : string :=
  element_text (ET.find eResource ["FQDN"]).

Definition service_ids_of (eResource : Element) : list string :=
  nonempty_texts eResource ["Services"; "Service"; "ID"].

Definition tags_of (eResource : Element) : list string :=
  nonempty_texts eResource ["Tags"; "Tag"].

(** Name, FQDN and service-id list all non-empty after trimming. *)
Definition well_formed (eResource : Element) : bool :=
  PyStr.truthy (resource_name_of eResource)
  && PyStr.truthy (fqdn_of eResource)
  && match service_ids_of eResource with [] => false | _ => true end.

Definition record_of (group_name : string) (eResource : Element) : ResourceInfo.t :=
  ResourceInfo.make group_name (resource_name_of eResource) (fqdn_of eResource)
                    (service_ids_of eResource) (tags_of eResource).

(** The records of a group's well-formed resources, in document order. *)
Definition group_records (eResourceGroup : Element) : list ResourceInfo.t :=
  map (record_of (group_name_of eResourceGroup))
      (filter well_formed (resources_of eResourceGroup)).

(** The records of all named groups, in document order. *)
Definition document_records (root : Element) : list ResourceInfo.t :=
  flat_map group_records (filter named_group (resource_groups root)).

(** A dictionary filled by assigning [d[key x] = x] for each [x] in turn. *)
Definition index_by (key : ResourceInfo.t -> string) (l : list ResourceInfo.t)
    (d : dict ResourceInfo.t) : dict ResourceInfo.t :=
  Dict.fill key (fun r => r) l d.

(** A dictionary filled by assigning each named group its record list. *)
Definition register_groups (gs : list Element) (d : dict (list ResourceInfo.t))
  : dict (list ResourceInfo.t) :=
  Dict.fill group_name_of group_records (filter named_group gs) d.

(** The element, when there is one, has text. *)
Definition has_text (element : option Element) : bool :=
  match element with
  | Some e => match ET.text e with Some _ => true | None => false end
  | None => true
  end.

Definition all_have_text (elt : Element) (path : list string) : bool :=
  forallb (fun e => has_text (Some e)) (ET.findall elt path).

(** Every text [update_resources] reads of a resource, a group, the
    document is there.  The tags are read only of a well-formed resource,
    the resources only of a named group. *)
Definition readable_resource (eResource : Element) : bool :=
  has_text (ET.find eResource ["Name"])
  && has_text (ET.find eResource ["FQDN"])
  && all_have_text eResource ["Services"; "Service"; "ID"]
  && (if well_formed eResource then all_have_text eResource ["Tags"; "Tag"]
      else true).

Definition readable_group (eResourceGroup : Element) : bool :=
  has_text (ET.find eResourceGroup ["GroupName"])
  && (if named_group eResourceGroup
      then forallb readable_resource (resources_of eResourceGroup)
      else true).

Definition readable_resources (root : Element) : bool :=
  forallb readable_group (resource_groups root).

(** The resource loops as folds over the object. *)
Definition insert_record (s : TopologyData) (r : ResourceInfo.t) : TopologyData :=
  let s1 := set_resinfo_table (resinfo_table s ++ [r]) s in
  let s2 :=
    match Dict.get (ResourceInfo.group_name r) (grouped_resinfo s1) with
    | Some l =>
        set_grouped_resinfo
          (Dict.set (ResourceInfo.group_name r) (l ++ [r]) (grouped_resinfo s1)) s1
    | None => s1
    end in
  let s3 :=
    set_resinfo_by_name (Dict.set (ResourceInfo.name r) r (resinfo_by_name s2)) s2 in
  set_resinfo_by_fqdn (Dict.set (ResourceInfo.fqdn r) r (resinfo_by_fqdn s3)) s3.

Definition index_resource (group_name : string) (s : TopologyData)
    (eResource : Element) : TopologyData :=
  if well_formed eResource then insert_record s (record_of group_name eResource) else s.

Definition index_group (s : TopologyData) (eResourceGroup : Element) : TopologyData :=
  if named_group eResourceGroup then
    fold_left (index_resource (group_name_of eResourceGroup))
              (resources_of eResourceGroup)
              (set_grouped_resinfo
                 (Dict.set (group_name_of eResourceGroup) [] (grouped_resinfo s)) s)
  else s.

(** The element [x] of [l] is not followed by one with the same [key]. *)
Definition last_named {X} (key : X -> string) (l : list X) (x : X) : Prop :=
  exists l1 l2, l = l1 ++ x :: l2 /\ forall x', In x' l2 -> key x' <> key x.

(** Every entry of the table and of the three indices. *)
Definition indexed (s : TopologyData) (r : ResourceInfo.t) : Prop :=
  In r (resinfo_table s)
  \/ (exists g l, Dict.get g (grouped_resinfo s) = Some l /\ In r l)
  \/ (exists k, Dict.get k (resinfo_by_name s) = Some r)
  \/ (exists k, Dict.get k (resinfo_by_fqdn s) = Some r).

(** [r] is the record of a well-formed resource of a named group. *)
Definition from_well_formed (root : Element) (r : ResourceInfo.t) : Prop :=
  exists g e,
    In g (resource_groups root) /\ named_group g = true
    /\ In e (resources_of g) /\ well_formed e = true
    /\ r = record_of (group_name_of g) e.

(** The table and the three indices. *)
Definition indices (s : TopologyData) :=
  (resinfo_table s, grouped_resinfo s, resinfo_by_name s, resinfo_by_fqdn s).

(** Two objects hold the same document, table and indices. *)
Definition same_tables (w1 w2 : World) : Prop :=
  resources (self w1) = resources (self w2)
  /\ indices (self w1) = indices (self w2).

(** A computation that cannot tell two such objects apart: it ends the
    same way in both and leaves them alike. *)
Definition agrees {A} (m : M A) : Prop :=
  forall w1 w2, same_tables w1 w2 ->
    fst (m w1) = fst (m w2) /\ same_tables (snd (m w1)) (snd (m w2)).

(** A computation that leaves the base URL of the object as it was. *)
Definition keeps_base {A} (m : M A) : Prop :=
  forall w, topology_base (self (snd (m w))) = topology_base (self w).

(** Run in [w], the computation returns and establishes [I] when [ok]
    holds, and raises [AttributeError] when it does not. *)
Definition decided {A} (ok : bool) (I : World -> Prop) (m : M A) (w : World)
  : Prop :=
  if ok then exists a w', m w = (Ret a, w') /\ I w'
  else exists w', m w = (Raise AttributeError, w').

(** Every group with a non-empty name is listed under its name with the
    records of its well-formed resources. *)
Definition every_named_group_listed (root : Element) (s : TopologyData) : Prop :=
  forall g, In g (resource_groups root) -> named_group g = true ->
    Dict.get (group_name_of g) (grouped_resinfo s) = Some (group_records g).

(** *** The project document *)

Definition project_elements (eProjects : Element) : list Element :=
  ET.findall eProjects ["Project"].

Definition project_name_of (eProject : Element) : string :=
  element_text (ET.find eProject ["Name"]).

Definition named_project (eProject : Element) : bool :=
  PyStr.truthy (project_name_of eProject).

Definition allocation_elements (eProject : Element) : list Element :=
  ET.findall eProject ["ResourceAllocations"; "ResourceAllocation"].

Definition allocation_type (eResourceAllocation : Element) : string :=
  element_text (ET.find eResourceAllocation ["Type"]).

Definition execute_group_refs (eResourceAllocation : Element) : list Element :=
  ET.findall eResourceAllocation ["ExecuteResourceGroups"; "ExecuteResourceGroup"].

Definition submit_refs (eResourceAllocation : Element) : list Element :=
  ET.findall eResourceAllocation ["SubmitResources"; "SubmitResource"].

(** The presence check: type, execute-group list and submit list are all
    non-empty. *)
Definition complete (eResourceAllocation : Element) : bool :=
  PyStr.truthy (allocation_type eResourceAllocation)
  && match execute_group_refs eResourceAllocation with [] => false | _ => true end
  && match submit_refs eResourceAllocation with [] => false | _ => true end.

Definition submit_view (resinfo : ResourceInfo.t) : SubmitResource :=
  {| sr_fqdn := ResourceInfo.fqdn resinfo;
     sr_group_name := ResourceInfo.group_name resinfo;
     sr_name := ResourceInfo.name resinfo |}.

Definition ce_view (x : ResourceInfo.t) : ComputeEntrypoint :=
  {| ce_fqdn := ResourceInfo.fqdn x; ce_name := ResourceInfo.name x |}.

(** A submit-resource reference resolves to at most one entry. *)
Definition resolve_submit (s : TopologyData) (eSubmitResource : Element)
  : list SubmitResource :=
  match Dict.get (element_text (Some eSubmitResource)) (resinfo_by_name s) with
  | Some resinfo => [submit_view resinfo]
  | None => []
  end.

(** An execute-resource-group reference resolves to at most one entry. *)
Definition resolve_group (s : TopologyData) (eExecuteResourceGroup : Element)
  : list ExecuteResourceGroup :=
  let group_name := element_text (ET.find eExecuteResourceGroup ["GroupName"]) in
  let id := element_text (ET.find eExecuteResourceGroup ["LocalAllocationID"]) in
  if PyStr.truthy group_name && PyStr.truthy id then
    match Dict.get group_name (grouped_resinfo s) with
    | None | Some [] => []
    | Some resinfo_list =>
        [ {| ces := map ce_view (filter ResourceInfo.is_ce resinfo_list);
             erg_group_name := group_name;
             local_allocation_id := id |} ]
    end
  else [].

Definition allocation_of (s : TopologyData) (eResourceAllocation : Element)
  : Allocation :=
  {| type_ := allocation_type eResourceAllocation;
     submit_resources :=
       flat_map (resolve_submit s) (submit_refs eResourceAllocation);
     execute_resource_groups :=
       flat_map (resolve_group s) (execute_group_refs eResourceAllocation) |}.

(** The records of a project's complete allocations, in document order. *)
Definition allocations_of (s : TopologyData) (eProject : Element)
  : list Allocation :=
  map (allocation_of s) (filter complete (allocation_elements eProject)).

(** A dictionary filled by assigning each named project its allocations. *)
Definition join_projects (s : TopologyData) (ps : list Element)
    (d : dict (list Allocation)) : dict (list Allocation) :=
  Dict.fill project_name_of (allocations_of s) (filter named_project ps) d.

(** Every text [get_project_resource_allocations] reads of an
    allocation, a project, the document is there.  The references are read
    only of a complete allocation, the allocations only of a named
    project. *)
Definition readable_execute_group (eExecuteResourceGroup : Element) : bool :=
  has_text (ET.find eExecuteResourceGroup ["GroupName"])
  && has_text (ET.find eExecuteResourceGroup ["LocalAllocationID"]).

Definition readable_allocation (eResourceAllocation : Element) : bool :=
  has_text (ET.find eResourceAllocation ["Type"])
  && (if complete eResourceAllocation
      then forallb (fun e => has_text (Some e)) (submit_refs eResourceAllocation)
           && forallb readable_execute_group (execute_group_refs eResourceAllocation)
      else true).

Definition readable_project (eProject : Element) : bool :=
  has_text (ET.find eProject ["Name"])
  && (if named_project eProject
      then forallb readable_allocation (allocation_elements eProject)
      else true).

Definition readable_projects (eProjects : Element) : bool :=
  forallb readable_project (project_elements eProjects).

(** The project loops as folds over the dictionary [ret]. *)
Definition join_allocation (s : TopologyData) (project_name : string)
    (d : dict (list Allocation)) (eResourceAllocation : Element)
  : dict (list Allocation) :=
  if complete eResourceAllocation
  then allocations_append project_name (allocation_of s eResourceAllocation) d
  else d.

Definition join_project (s : TopologyData) (d : dict (list Allocation))
    (eProject : Element) : dict (list Allocation) :=
  if named_project eProject then
    fold_left (join_allocation s (project_name_of eProject))
              (allocation_elements eProject)
              (Dict.set (project_name_of eProject) [] d)
  else d.

(** The allocation record [a] is in the output. *)
Definition emitted (out : dict (list Allocation)) (a : Allocation) : Prop :=
  exists n l, Dict.get n out = Some l /\ In a l.

(** Every complete allocation element of the project document has its
    record in the output. *)
Definition every_complete_allocation_emitted (s : TopologyData)
    (eProjects : Element) (out : dict (list Allocation)) : Prop :=
  forall p a,
    In p (project_elements eProjects) -> In a (allocation_elements p) ->
    complete a = true -> emitted out (allocation_of s a).

(** No submit-resource reference of the allocation resolves. *)
Definition unresolvable (s : TopologyData) (eResourceAllocation : Element) : Prop :=
  forall e, In e (submit_refs eResourceAllocation) ->
    Dict.get (element_text (Some e)) (resinfo_by_name s) = None.

(** Every complete allocation whose submit-resource names are all
    unresolvable is in the output, with no submit resources. *)
Definition every_unresolvable_allocation_kept (s : TopologyData)
    (eProjects : Element) (out : dict (list Allocation)) : Prop :=
  forall p a,
    In p (project_elements eProjects) -> In a (allocation_elements p) ->
    complete a = true -> unresolvable s a ->
    exists r, emitted out r /\ type_ r = allocation_type a
              /\ submit_resources r = [].

(** Of two projects with one non-empty name the later one's allocations
    are the entry of that name. *)
Definition later_project_wins (s : TopologyData) (eProjects : Element)
    (out : dict (list Allocation)) : Prop :=
  forall ps1 p1 ps2 p2 ps3,
    project_elements eProjects = ps1 ++ p1 :: ps2 ++ p2 :: ps3 ->
    named_project p2 = true ->
    project_name_of p1 = project_name_of p2 ->
    (forall p, In p ps3 -> project_name_of p <> project_name_of p2) ->
    Dict.get (project_name_of p2) out = Some (allocations_of s p2).

(** *** The fetcher *)

(** [sub] occurs in [s]. *)
Definition occurs_in (sub s : string) : Prop :=
  exists pre post, s = (pre ++ sub ++ post)%string.

(** The transport raises [EnvironmentError], the class the first [except]
    clause names. *)
Definition fetch_failed (env : Env) (url : string) : Prop :=
  urlopen_read env url = inl EnvironmentError.

Definition body_empty (env : Env) (url : string) : Prop :=
  urlopen_read env url = inr [].

(** The parser raises [ParseError] or [UnicodeDecodeError], the classes the
    second [except] clause names. *)
Definition body_unparsable (env : Env) (url : string) : Prop :=
  exists b err, urlopen_read env url = inr b /\ b <> []
                /\ ET_fromstring env b = inl err
                /\ (err = ParseError \/ err = UnicodeDecodeError).

(** The transport raises, whatever the class. *)
Definition fetch_raises (env : Env) (url : string) : Prop :=
  exists err, urlopen_read env url = inl err.

(** The parser raises on the fetched body, whatever the class. *)
Definition parse_raises (env : Env) (url : string) : Prop :=
  exists b err, urlopen_read env url = inr b /\ b <> []
                /\ ET_fromstring env b = inl err.

(** Every failure of the transport, every empty body and every failure of
    the parser ends in a [DataError] that names the endpoint, and there is
    a parsed root in every other case. *)
Definition every_failure_is_a_DataError (env : Env) (endpoint : string)
    (w : World) : Prop :=
  let url := (topology_base (self w) ++ endpoint)%string in
  (fetch_raises env url \/ body_empty env url \/ parse_raises env url ->
   exists msg, fst (_get_data env endpoint w) = Raise (DataError msg)
               /\ occurs_in endpoint msg)
  /\ (~ (fetch_raises env url \/ body_empty env url \/ parse_raises env url) ->
      exists root, fst (_get_data env endpoint w) = Ret root).

(** What [_get_data] raises is a [DataError] or an exception of a
    collaborator that no [except] clause names. *)
Definition from_the_fetch (env : Env) (url : string) (e : exn) : Prop :=
  (exists msg, e = DataError msg)
  \/ (exists err,
        e = Uncaught err
        /\ (urlopen_read env url = inl err /\ err <> EnvironmentError
            \/ exists b, urlopen_read env url = inr b
                         /\ ET_fromstring env b = inl err
                         /\ err <> ParseError /\ err <> UnicodeDecodeError)).

(** ** Sample documents and a test double for the collaborators *)

(** A transport and parser that deliver [eProjects] at
    [/miscproject/xml] and [eResources] at every other endpoint. *)
Definition serving (eProjects eResources : Element) : Env :=
  {| urlopen_read := fun url =>
       if PyStr.contains "/miscproject/xml" url
       then inr [Byte.x50] else inr [Byte.x52];
     ET_fromstring := fun b =>
       match b with
       | [Byte.x50] => inr eProjects
       | _ => inr eResources
       end;
     ET_tostring := fun e => ("<" ++ ET.tag e ++ ">")%string |}.

(** A transport that is down. *)
Definition unreachable : Env :=
  {| urlopen_read := fun _ => inl EnvironmentError;
     ET_fromstring := fun _ => inl ParseError;
     ET_tostring := fun e => ET.tag e |}.

(** A transport and a parser that answer every call alike. *)
Definition answering (response : library_exception + list Byte.byte)
    (parsed : library_exception + Element) : Env :=
  {| urlopen_read := fun _ => response;
     ET_fromstring := fun _ => parsed;
     ET_tostring := fun e => ET.tag e |}.

(** The server answers with nothing. *)
Definition empty_response : Env :=
  answering (inr []) (inl ParseError).

(** The body is not well-formed XML. *)
Definition malformed_body : Env :=
  answering (inr [Byte.x3c]) (inl ParseError).

(** The connection closes before the whole body is read: [response.read]
    raises [http.client.IncompleteRead], which is no [OSError]. *)
Definition truncated_response : Env :=
  answering (inl (OtherException "IncompleteRead")) (inl ParseError).

(** The XML declaration names an encoding Python does not know:
    [ET.fromstring] raises [LookupError]. *)
Definition unknown_encoding : Env :=
  answering (inr [Byte.x3c]) (inl (OtherException "LookupError")).

(** An object whose tables are empty and whose documents are not loaded. *)
Definition blank : TopologyData :=
  {| topology_base := TOPOLOGY;
     resinfo_table := [];
     grouped_resinfo := Dict.empty;
     resinfo_by_name := Dict.empty;
     resinfo_by_fqdn := Dict.empty;
     projects := None;
     resources := None |}.

Definition pristine : World := {| self := blank; log := [] |}.

(** [<t>s</t>] *)
Definition leaf (t s : string) : Element := Elem t (Some s) [].

(** [<t>...children...</t>] *)
Definition node (t : string) (cs : list Element) : Element := Elem t None cs.

Definition resource (name fqdn : string) (ids : list string) : Element :=
  node "Resource"
    [ leaf "Name" name; leaf "FQDN" fqdn;
      node "Services" (map (fun i => node "Service" [leaf "ID" i]) ids) ].

Definition resource_group (name : string) (rs : list Element) : Element :=
  node "ResourceGroup" [leaf "GroupName" name; node "Resources" rs].

Definition allocation (ty : string) (groups : list (string * string))
    (submit : list string) : Element :=
  node "ResourceAllocation"
    [ leaf "Type" ty;
      node "ExecuteResourceGroups"
        (map (fun g => node "ExecuteResourceGroup"
                         [leaf "GroupName" (fst g); leaf "LocalAllocationID" (snd g)])
             groups);
      node "SubmitResources" (map (leaf "SubmitResource") submit) ].

Definition project (name : string) (allocs : list Element) : Element :=
  node "Project" [leaf "Name" name; node "ResourceAllocations" allocs].

(** A project element without a [Name]. *)
Definition nameless_project (allocs : list Element) : Element :=
  node "Project" [node "ResourceAllocations" allocs].

Definition ce1 : Element := resource "ce1.example.net" "ce1.example.net" ["1"].
Definition ap1 : Element := resource "ap1" "ap1.example.net" ["109"].
Definition ce2 : Element := resource "ce2" "ce2.example.net" ["1"; "109"].

(** A resource without an FQDN element. *)
Definition no_fqdn : Element :=
  node "Resource" [leaf "Name" "broken"; node "Services" [node "Service" [leaf "ID" "1"]]].

(** The resource document of the specification's example, with a
    Schedd-only resource, a second compute entrypoint and a malformed
    resource added to the group. *)
Definition rg_example : Element :=
  node "ResourceSummary" [resource_group "GroupA" [ce1; no_fqdn; ap1; ce2]].

(** [<ResourceSummary><ResourceGroup><GroupName/></ResourceGroup></ResourceSummary>] *)
Definition rg_empty_group_name : Element :=
  node "ResourceSummary" [node "ResourceGroup" [node "GroupName" []]].

(** Two groups named [GroupA]; only the first has resources. *)
Definition rg_one_name_twice : Element :=
  node "ResourceSummary" [resource_group "GroupA" [ce1]; resource_group "GroupA" []].

(** Two resources named [ce1.example.net] with different FQDNs. *)
Definition rg_duplicate_resource : Element :=
  node "ResourceSummary"
    [ resource_group "GroupA" [ce1];
      resource_group "GroupB" [resource "ce1.example.net" "other.example.net" ["109"]] ].

(** [<ResourceSummary/>] *)
Definition rg_no_children : Element := node "ResourceSummary" [].

Definition hosted : Element :=
  allocation "Hosted Compute" [("GroupA", "1")] ["ce1.example.net"].

(** A complete allocation none of whose submit resources resolves. *)
Definition unknown_submit : Element :=
  allocation "Other" [("GroupA", "2")] ["nowhere"; "nobody"].

(** An allocation without submit resources. *)
Definition no_submit : Element := allocation "Other" [("GroupA", "3")] [].

(** The project document of the specification's example, with two more
    allocations. *)
Definition pj_example : Element :=
  node "Projects" [project "ProjA" [hosted; no_submit; unknown_submit]].

Definition pj_nameless : Element :=
  node "Projects" [nameless_project [unknown_submit]].

(** Two projects named [ProjA]; only the first has allocations. *)
Definition pj_one_name_twice : Element :=
  node "Projects" [project "ProjA" [unknown_submit]; project "ProjA" []].

(** Two projects named [ProjA], each with an allocation. *)
Definition pj_both_allocated : Element :=
  node "Projects" [project "ProjA" [unknown_submit]; project "ProjA" [hosted]].

(** The object [TopologyData()] constructs from the two documents. *)
Definition loaded (eProjects eResources : Element) : World :=
  snd (__init__ (serving eProjects eResources) TOPOLOGY pristine).

(** What [get_project_resource_allocations] returns on that object. *)
Definition joined (eProjects eResources : Element) : dict (list Allocation) :=
  match fst (get_project_resource_allocations (serving eProjects eResources)
               (loaded eProjects eResources)) with
  | Ret out => out
  | Raise _ => Dict.empty
  end.

(** ** The rest of the module *)

(** [max(minimum, min(maximum, value))] on Python integers. *)
Definition between (value minimum maximum : Z) : Z :=
  Z.max minimum (Z.min maximum value).

(** [logging.DEBUG], [logging.WARNING] and [logging.CRITICAL]. *)
Definition logging_DEBUG : Z := 10.
Definition logging_WARNING : Z := 30.
Definition logging_CRITICAL : Z := 50.

(** The level [main] passes to [log.setLevel]; [quiet] and [verbose] are
    the counts of [-q] and [-v]. *)
Definition main_log_level (quiet verbose : Z) : Z :=
  between (logging_WARNING + 10 * (quiet - verbose)) logging_DEBUG logging_CRITICAL.

(** A value of a field dictionary: a string or a list of strings. *)
Inductive field_value : Type :=
| StrValue (s : string)
| ListValue (l : list string).

(** [x._asdict()]: the fields of the named tuple by name, in field order. *)
Definition _asdict (x : ResourceInfo.t) : dict field_value :=
  [ ("group_name", StrValue (ResourceInfo.group_name x));
    ("name", StrValue (ResourceInfo.name x));
    ("fqdn", StrValue (ResourceInfo.fqdn x));
    ("service_ids", ListValue (ResourceInfo.service_ids x));
    ("tags", ListValue (ResourceInfo.tags x)) ].

(** The dictionary [get_resource_info_lookups] returns, by its three keys. *)
Record Lookups : Type := {
  resource_lists_by_group : dict (list (dict field_value));
  resources_by_name : dict (dict field_value);
  resources_by_fqdn : dict (dict field_value)
}.

(** [get_resource_info_lookups]: the loop over [grouped_resinfo.items()]
    and the two dictionary comprehensions assign entry by entry. *)
Definition get_resource_info_lookups : M Lookups :=
  grouped <- gets grouped_resinfo ;;
  let resource_lists_by_group_ :=
    fold_left (fun d '(group, resinfo_list) =>
                 Dict.set group (map _asdict resinfo_list) d)
              grouped Dict.empty in
  by_name <- gets resinfo_by_name ;;
  let resources_by_name_ :=
    fold_left (fun d '(k, v) => Dict.set k (_asdict v) d) by_name Dict.empty in
  by_fqdn <- gets resinfo_by_fqdn ;;
  let resources_by_fqdn_ :=
    fold_left (fun d '(k, v) => Dict.set k (_asdict v) d) by_fqdn Dict.empty in
  ret {| resource_lists_by_group := resource_lists_by_group_;
         resources_by_name := resources_by_name_;
         resources_by_fqdn := resources_by_fqdn_ |}.

(** Reading a field dictionary back into a record. *)
Definition from_asdict (d : dict field_value) : option ResourceInfo.t :=
  match Dict.get "group_name" d, Dict.get "name" d, Dict.get "fqdn" d,
        Dict.get "service_ids" d, Dict.get "tags" d with
  | Some (StrValue g), Some (StrValue n), Some (StrValue f),
    Some (ListValue ids), Some (ListValue ts) =>
      Some (ResourceInfo.make g n f ids ts)
  | _, _, _, _, _ => None
  end.

(** A computation that leaves a field of the object as it was, however it
    ends. *)
Definition keeps {A B} (field : TopologyData -> B) (m : M A) : Prop :=
  forall w, field (self (snd (m w))) = field (self w).

(** The warnings [update_resources] logs for a resource and for a group. *)
Definition resource_warnings (env : Env) (eResource : Element) : list LogRecord :=
  if well_formed eResource then []
  else [Warning "Skipping malformed Resource: %s" [elem2str env eResource]].

Definition group_warnings (env : Env) (eResourceGroup : Element) : list LogRecord :=
  if named_group eResourceGroup
  then flat_map (resource_warnings env) (resources_of eResourceGroup)
  else [Warning "Skipping malformed ResourceGroup: %s" [elem2str env eResourceGroup]].

(** The string has no white space at either end. *)
Definition trimmed (s : string) : Prop :=
  PyStr.lstrip s = s /\ PyStr.rstrip s = s.

(** A project document in which an allocation has an empty [Type]
    element. *)
Definition pj_empty_type : Element :=
  node "Projects"
    [ node "Project"
        [ leaf "Name" "ProjA";
          node "ResourceAllocations"
            [ node "ResourceAllocation" [node "Type" []] ] ] ].

(** * Proofs *)

(** ** Dictionaries *)

Section DictFacts.
Context {V : Type}.
Implicit Types (d : dict V) (k : string) (v : V).

Lemma get_set_eq k v d : Dict.get k (Dict.set k v d) = Some v.
Proof.
  induction d as [|[k' v'] d IH]; simpl.
  - now rewrite String.eqb_refl.
  - destruct (String.eqb k k') eqn:E; simpl; rewrite E; auto.
Qed.

Lemma get_set_ne k k' v d :
  k <> k' -> Dict.get k (Dict.set k' v d) = Dict.get k d.
Proof.
  intros Hne. induction d as [|[k0 v0] d IH]; simpl.
  - apply String.eqb_neq in Hne. now rewrite Hne.
  - destruct (String.eqb k' k0) eqn:E; simpl.
    + apply String.eqb_eq in E. subst k0.
      apply String.eqb_neq in Hne. now rewrite Hne.
    + now rewrite IH.
Qed.

Lemma set_set k v v' d : Dict.set k v (Dict.set k v' d) = Dict.set k v d.
Proof.
  induction d as [|[k0 v0] d IH]; simpl.
  - now rewrite String.eqb_refl.
  - destruct (String.eqb k k0) eqn:E; simpl; rewrite E; [reflexivity|].
    now rewrite IH.
Qed.

Lemma in_keys_set k k' v d :
  In k (Dict.keys (Dict.set k' v d)) <-> k = k' \/ In k (Dict.keys d).
Proof.
  unfold Dict.keys. induction d as [|[k0 v0] d IH]; simpl.
  - intuition.
  - destruct (String.eqb k' k0) eqn:E; simpl.
    + apply String.eqb_eq in E. subst k0. intuition.
    + rewrite IH. intuition.
Qed.

Lemma keys_set_NoDup k v d :
  NoDup (Dict.keys d) -> NoDup (Dict.keys (Dict.set k v d)).
Proof.
  unfold Dict.keys. induction d as [|[k0 v0] d IH]; simpl; intros H.
  - constructor; [intros []|constructor].
  - inversion H as [|? ? Hnin Hnd]; subst.
    destruct (String.eqb k k0) eqn:E; simpl.
    + now constructor.
    + constructor; [|now apply IH].
      intros Hin. apply (in_keys_set k0 k v d) in Hin.
      destruct Hin as [->|Hin]; [|now apply Hnin].
      now rewrite String.eqb_refl in E.
Qed.

(** Filling a dictionary from a list: keys stay distinct, every key
    comes from the list or was there before, and the last element with a
    key provides its value. *)
Section Fill.
Context {X : Type} (key : X -> string) (val : X -> V).

Local Abbreviation fill := (Dict.fill key val).

Lemma fill_app l1 l2 d : fill (l1 ++ l2) d = fill l2 (fill l1 d).
Proof. apply fold_left_app. Qed.

Lemma fill_cons x l d : fill (x :: l) d = fill l (Dict.set (key x) (val x) d).
Proof. reflexivity. Qed.

Lemma fill_NoDup l : forall d, NoDup (Dict.keys d) -> NoDup (Dict.keys (fill l d)).
Proof.
  induction l as [|x l IH]; simpl; intros d H; [assumption|].
  apply IH. now apply keys_set_NoDup.
Qed.

Lemma in_keys_fill k l : forall d,
  In k (Dict.keys (fill l d)) <-> (exists x, In x l /\ key x = k) \/ In k (Dict.keys d).
Proof.
  induction l as [|x l IH]; simpl; intros d.
  - split; [auto|]. intros [[x [[] _]]|H]; assumption.
  - rewrite IH, in_keys_set. split.
    + intros [[y [Hy E]]|[->|H]]; eauto.
    + intros [[y [[->|Hy] E]]|H]; eauto.
Qed.

Lemma get_fill_other k l : forall d,
  (forall x, In x l -> key x <> k) -> Dict.get k (fill l d) = Dict.get k d.
Proof.
  induction l as [|x l IH]; simpl; intros d H; [reflexivity|].
  rewrite IH by auto. apply get_set_ne. intros ->. now apply (H x); auto.
Qed.

Lemma get_fill_last l1 x l2 d :
  (forall x', In x' l2 -> key x' <> key x) ->
  Dict.get (key x) (fill (l1 ++ x :: l2) d) = Some (val x).
Proof.
  intros H. rewrite fill_app, fill_cons.
  rewrite get_fill_other by assumption. apply get_set_eq.
Qed.

(** Every value of the filled dictionary was there before or comes
    from an element of the list, under that element's key. *)
Lemma get_fill_inv k v l : forall d,
  Dict.get k (fill l d) = Some v ->
  Dict.get k d = Some v \/ exists x, In x l /\ key x = k /\ val x = v.
Proof.
  induction l as [|x l IH]; simpl; intros d H; [now left|].
  apply IH in H. destruct H as [H|[y [Hy [E1 E2]]]]; [|right; eauto].
  destruct (string_dec k (key x)) as [->|Hne].
  - rewrite get_set_eq in H. injection H as <-. right. eauto.
  - rewrite get_set_ne in H by assumption. now left.
Qed.
End Fill.

End DictFacts.

(** ** The monad *)

Lemma bind_Ret {A B} (m : M A) (f : A -> M B) w b w' :
  bind m f w = (Ret b, w') ->
  exists a w1, m w = (Ret a, w1) /\ f a w1 = (Ret b, w').
Proof.
  unfold bind. destruct (m w) as [[a|e] w1]; intros H; [eauto|discriminate].
Qed.

Lemma lift_Ret {A} (o : outcome A) w a w' :
  lift o w = (Ret a, w') -> o = Ret a /\ w' = w.
Proof. unfold lift. intros H. injection H as -> ->. auto. Qed.

Lemma ret_Ret {A} (a b : A) w w' : ret a w = (Ret b, w') -> b = a /\ w' = w.
Proof. unfold ret. intros H. injection H as -> ->. auto. Qed.

Lemma gets_Ret {A} (f : TopologyData -> A) w a w' :
  gets f w = (Ret a, w') -> a = f (self w) /\ w' = w.
Proof. unfold gets. intros H. injection H as <- <-. auto. Qed.

Lemma modify_Ret f w u w' :
  modify f w = (Ret u, w') -> self w' = f (self w) /\ log w' = log w.
Proof. unfold modify. intros H. injection H as _ <-. auto. Qed.

Lemma warning_Ret msg args w u w' :
  warning msg args w = (Ret u, w') -> self w' = self w.
Proof. unfold warning. intros H. injection H as _ <-. auto. Qed.

(** Decompose a run [H : m w = (Ret _, _)] along the binds of [m]. *)
Ltac run_step H :=
  lazymatch type of H with
  | bind _ _ _ = (Ret _, _) =>
      let a := fresh "a" in
      let w := fresh "w" in
      let H1 := fresh "R" in
      apply bind_Ret in H; destruct H as (a & w & H1 & H);
      run_step H1
  | lift _ _ = (Ret _, _) =>
      let E := fresh "E" in
      apply lift_Ret in H; destruct H as [E ->]
  | ret _ _ = (Ret _, _) =>
      let E := fresh "E" in
      apply ret_Ret in H; destruct H as [E ->]; try subst
  | gets _ _ = (Ret _, _) =>
      let E := fresh "E" in
      apply gets_Ret in H; destruct H as [E ->]; try subst
  | modify _ _ = (Ret _, _) =>
      let E := fresh "E" in
      apply modify_Ret in H; destruct H as [E _]
  | warning _ _ _ = (Ret _, _) => apply warning_Ret in H
  | raise _ _ = (Ret _, _) => discriminate H
  | _ => idtac
  end.

Ltac run H := repeat (run_step H; cbv beta in H).

(** Replace every intermediate object by what the run says it is. *)
Ltac chain :=
  repeat match goal with
         | E : self ?x = _ |- _ => is_var x; rewrite E in *; clear E
         end.

(** A loop whose body acts on the object as [step] does. *)
Lemma for_each_object {X} (body : X -> M unit)
    (step : TopologyData -> X -> TopologyData) (xs : list X) :
  (forall x w u w', In x xs -> body x w = (Ret u, w') -> self w' = step (self w) x) ->
  forall w u w',
    for_each xs tt (fun _ => body) w = (Ret u, w') ->
    self w' = fold_left step xs (self w).
Proof.
  induction xs as [|x xs IH]; intros Hbody w u w' H; simpl in H.
  - apply ret_Ret in H. destruct H as [_ ->]. reflexivity.
  - apply bind_Ret in H. destruct H as ([] & w1 & H1 & H).
    simpl. apply Hbody in H1; [|now left]. rewrite <- H1.
    eapply IH; [|exact H]. intros; eapply Hbody; eauto. now right.
Qed.

(** A loop that leaves the object alone and whose body updates the loop's
    variables as [step] does. *)
Lemma for_each_local {X B} (body : B -> X -> M B) (step : B -> X -> B)
    (s : TopologyData) (xs : list X) :
  (forall x acc w acc' w',
      In x xs -> self w = s -> body acc x w = (Ret acc', w') ->
      self w' = s /\ acc' = step acc x) ->
  forall acc w acc' w',
    self w = s -> for_each xs acc body w = (Ret acc', w') ->
    self w' = s /\ acc' = fold_left step xs acc.
Proof.
  induction xs as [|x xs IH]; intros Hbody acc w acc' w' Hs H; simpl in H.
  - apply ret_Ret in H. destruct H as [-> ->]. auto.
  - apply bind_Ret in H. destruct H as (a & w1 & H1 & H).
    simpl. apply Hbody in H1; [|now left|assumption]. destruct H1 as [Hs1 ->].
    eapply IH; [|exact Hs1|exact H]. intros; eapply Hbody; eauto. now right.
Qed.

(** ** The helpers *)

Lemma safe_element_text_Ret element s :
  safe_element_text element = Ret s -> s = element_text element.
Proof.
  unfold safe_element_text, element_text.
  destruct element as [e|]; [destruct (ET.text e)|]; intros H;
    now inversion H.
Qed.

Lemma filter_map_text_Ret l : forall ss,
  filter_map_text l = Ret ss ->
  ss = filter PyStr.truthy (map (fun e => element_text (Some e)) l).
Proof.
  induction l as [|[tg [t|] cs] l IH]; simpl; intros ss H.
  - now inversion H.
  - destruct (filter_map_text l) as [ss'|]; [|discriminate].
    inversion H; subst.
    rewrite (IH ss' eq_refl). now destruct (PyStr.truthy (PyStr.strip t)).
  - discriminate.
Qed.

Lemma findall_nonempty_Ret elt path ss :
  findall_nonempty elt path = Ret ss -> ss = nonempty_texts elt path.
Proof. apply filter_map_text_Ret. Qed.

(** A root with a child of some tag has children. *)
Lemma findall_child_truthy root t :
  ET.findall root [t] <> [] -> ET.truthy root = true.
Proof.
  unfold ET.findall, ET.truthy, ET.child. simpl.
  destruct (ET.children root); [intros H; now elim H|reflexivity].
Qed.

(** ** The resource indexer computes the folds *)

Lemma grouped_resinfo_append_Ret g r w u w' :
  grouped_resinfo_append g r w = (Ret u, w') ->
  exists l,
    Dict.get g (grouped_resinfo (self w)) = Some l
    /\ self w' = set_grouped_resinfo
                   (Dict.set g (l ++ [r]) (grouped_resinfo (self w))) (self w).
Proof.
  intros H. unfold grouped_resinfo_append in H. run H.
  destruct (Dict.get g (grouped_resinfo (self w))) as [l|]; run H.
  exists l. auto.
Qed.

Lemma update_resources_resource_run env g e w u w' :
  update_resources_resource env g e w = (Ret u, w') ->
  self w' = index_resource g (self w) e.
Proof.
  intros H. unfold update_resources_resource in H. run H.
  apply safe_element_text_Ret in E, E0. apply findall_nonempty_Ret in E1.
  unfold index_resource, well_formed.
  fold (resource_name_of e) in E. fold (fqdn_of e) in E0.
  fold (service_ids_of e) in E1.
  rewrite <- E, <- E0, <- E1.
  destruct (PyStr.truthy a); simpl in H; [|now run H].
  destruct (PyStr.truthy a0); simpl in H; [|now run H].
  destruct a1 as [|i ids]; simpl in H; [now run H|].
  run H.
  match goal with
  | R : grouped_resinfo_append _ _ _ = _ |- _ =>
      apply grouped_resinfo_append_Ret in R; destruct R as (l & Hl & R)
  end.
  repeat match goal with
         | E : findall_nonempty _ _ = Ret _ |- _ =>
             apply findall_nonempty_Ret in E; fold (tags_of e) in E; subst
         end.
  chain. unfold insert_record, record_of. simpl in *. rewrite <- E1, Hl. reflexivity.
Qed.

Lemma update_resources_group_run env g w u w' :
  update_resources_group env g w = (Ret u, w') ->
  self w' = index_group (self w) g.
Proof.
  intros H. unfold update_resources_group in H. run H.
  apply safe_element_text_Ret in E. fold (group_name_of g) in E.
  unfold index_group, named_group. rewrite <- E.
  destruct (PyStr.truthy a); simpl in H; [|now run H].
  run H.
  eapply for_each_object in H;
    [|intros x v u' v' _ Hx; eapply update_resources_resource_run, Hx].
  rewrite H. chain. reflexivity.
Qed.

Lemma _get_data_world env endpoint w o w' :
  _get_data env endpoint w = (o, w') -> w' = w.
Proof.
  unfold _get_data, bind, gets, raise, ret. simpl.
  destruct (urlopen_read env _) as [[]|[|b bs]]; try (intros H; now inversion H).
  destruct (ET_fromstring env _) as [[]|el]; intros H; now inversion H.
Qed.

(** [_get_data] run: the outcome by what the transport and the parser
    do; the world stays. *)
Lemma _get_data_run env endpoint w :
  _get_data env endpoint w
  = (match urlopen_read env (topology_base (self w) ++ endpoint)%string with
     | inl EnvironmentError =>
         Raise (DataError ("Topology query to " ++ endpoint ++ " failed"))
     | inl err => Raise (Uncaught err)
     | inr [] =>
         Raise (DataError ("Topology query to " ++ endpoint ++ " returned no data"))
     | inr (b :: bs) =>
         match ET_fromstring env (b :: bs) with
         | inl ParseError | inl UnicodeDecodeError =>
             Raise (DataError
                      ("Topology query to " ++ endpoint ++ " couldn't be parsed"))
         | inl err => Raise (Uncaught err)
         | inr root => Ret root
         end
     end, w).
Proof.
  unfold _get_data, bind, gets, raise, ret. cbn [self fst snd].
  destruct (urlopen_read env _) as [[]|[|b bs]]; try reflexivity.
  destruct (ET_fromstring env (b :: bs)) as [[]|root]; reflexivity.
Qed.

Lemma _get_data_parsed env endpoint w b root :
  urlopen_read env (topology_base (self w) ++ endpoint)%string = inr b ->
  b <> [] -> ET_fromstring env b = inr root ->
  _get_data env endpoint w = (Ret root, w).
Proof.
  intros Hu Hne Hp. rewrite _get_data_run, Hu.
  destruct b as [|b bs]; [now elim Hne|]. now rewrite Hp.
Qed.

Lemma _get_data_fetch_uncaught env endpoint w err :
  urlopen_read env (topology_base (self w) ++ endpoint)%string = inl err ->
  err <> EnvironmentError ->
  _get_data env endpoint w = (Raise (Uncaught err), w).
Proof.
  intros Hu Hne. rewrite _get_data_run, Hu.
  destruct err; [now elim Hne|reflexivity..].
Qed.

Lemma _get_data_parse_uncaught env endpoint w b err :
  urlopen_read env (topology_base (self w) ++ endpoint)%string = inr b ->
  b <> [] -> ET_fromstring env b = inl err ->
  err <> ParseError -> err <> UnicodeDecodeError ->
  _get_data env endpoint w = (Raise (Uncaught err), w).
Proof.
  intros Hu Hne Hp H1 H2. rewrite _get_data_run, Hu.
  destruct b as [|b bs]; [now elim Hne|]. rewrite Hp.
  destruct err; [reflexivity|now elim H1|now elim H2|reflexivity].
Qed.

(** A [DataError] comes from one of the three [raise] sites, and its
    message holds the endpoint. *)
Lemma _get_data_DataError env endpoint w msg :
  fst (_get_data env endpoint w) = Raise (DataError msg) ->
  (fetch_failed env (topology_base (self w) ++ endpoint)%string
   \/ body_empty env (topology_base (self w) ++ endpoint)%string
   \/ body_unparsable env (topology_base (self w) ++ endpoint)%string)
  /\ occurs_in endpoint msg.
Proof.
  unfold fetch_failed, body_empty, body_unparsable.
  rewrite _get_data_run. cbn [fst].
  destruct (urlopen_read env _) as [err|[|b bs]] eqn:Eu.
  - destruct err; try discriminate. intros H. injection H as <-.
    split; [now left|]. now exists "Topology query to ", " failed".
  - intros H. injection H as <-.
    split; [right; now left|]. now exists "Topology query to ", " returned no data".
  - destruct (ET_fromstring env (b :: bs)) as [err|root] eqn:Ep; [|discriminate].
    destruct err; try discriminate; intros H; injection H as <-.
    + split; [|now exists "Topology query to ", " couldn't be parsed"].
      right; right. exists (b :: bs), ParseError.
      repeat split; [discriminate|assumption|now left].
    + split; [|now exists "Topology query to ", " couldn't be parsed"].
      right; right. exists (b :: bs), UnicodeDecodeError.
      repeat split; [discriminate|assumption|now right].
Qed.

(** The object before the loops of [update_resources]: the document is
    stored, the table and the indices are empty. *)
Lemma update_resources_Ret env w u w' :
  update_resources env w = (Ret u, w') ->
  exists root,
    _get_data env "/rgsummary/xml" w = (Ret root, w)
    /\ self w' =
       fold_left index_group (resource_groups root)
         (set_resinfo_by_fqdn Dict.empty
            (set_resinfo_by_name Dict.empty
               (set_grouped_resinfo Dict.empty
                  (set_resinfo_table []
                     (set_resources (Some root) (self w)))))).
Proof.
  intros H. unfold update_resources in H.
  apply bind_Ret in H. destruct H as (root & w0 & Hget & H).
  pose proof (_get_data_world _ _ _ _ _ Hget) as ->.
  exists root. split; [assumption|].
  run H.
  match type of H with
  | match ?x with _ => _ end _ = _ => destruct x as [root'|] eqn:Eroot
  end; [|discriminate].
  eapply for_each_object in H;
    [|intros x v u' v' _ Hx; eapply update_resources_group_run, Hx].
  rewrite H. clear H. chain. simpl in Eroot. injection Eroot as <-. reflexivity.
Qed.

(** ** What the folds leave in the table and the indices *)

Lemma set_get_same {V} k (v : V) d : Dict.get k d = Some v -> Dict.set k v d = d.
Proof.
  induction d as [|[k0 v0] d IH]; simpl; [discriminate|].
  destruct (String.eqb k k0) eqn:E; intros H.
  - now injection H as ->.
  - now rewrite IH.
Qed.

Lemma index_resources_fields g rs : forall s l,
  Dict.get g (grouped_resinfo s) = Some l ->
  let s' := fold_left (index_resource g) rs s in
  let recs := map (record_of g) (filter well_formed rs) in
  resinfo_table s' = resinfo_table s ++ recs
  /\ grouped_resinfo s' = Dict.set g (l ++ recs) (grouped_resinfo s)
  /\ resinfo_by_name s' = index_by ResourceInfo.name recs (resinfo_by_name s)
  /\ resinfo_by_fqdn s' = index_by ResourceInfo.fqdn recs (resinfo_by_fqdn s)
  /\ topology_base s' = topology_base s
  /\ projects s' = projects s
  /\ resources s' = resources s.
Proof.
  induction rs as [|e rs IH]; intros s l Hl; simpl.
  - rewrite !app_nil_r, (set_get_same _ _ _ Hl). repeat split.
  - assert (Hstep : index_resource g s e
                    = if well_formed e then insert_record s (record_of g e) else s)
      by reflexivity.
    rewrite Hstep. clear Hstep. destruct (well_formed e) eqn:Ewf; simpl.
    + set (r := record_of g e).
      assert (Hl' : Dict.get g (grouped_resinfo (insert_record s r)) = Some (l ++ [r])).
      { unfold insert_record. simpl. rewrite Hl. simpl. apply get_set_eq. }
      destruct (IH _ _ Hl') as (Ht & Hg & Hn & Hf & Hb & Hp & Hr).
      rewrite Ht, Hg, Hn, Hf, Hb, Hp, Hr. unfold insert_record. simpl. rewrite Hl. simpl.
      rewrite set_set, <- !app_assoc. repeat split.
    + now apply IH.
Qed.

Lemma index_groups_fields gs : forall s,
  let s' := fold_left index_group gs s in
  let recs := flat_map group_records (filter named_group gs) in
  resinfo_table s' = resinfo_table s ++ recs
  /\ grouped_resinfo s' = register_groups gs (grouped_resinfo s)
  /\ resinfo_by_name s' = index_by ResourceInfo.name recs (resinfo_by_name s)
  /\ resinfo_by_fqdn s' = index_by ResourceInfo.fqdn recs (resinfo_by_fqdn s)
  /\ topology_base s' = topology_base s
  /\ projects s' = projects s
  /\ resources s' = resources s.
Proof.
  induction gs as [|g gs IH]; intros s; simpl.
  - rewrite app_nil_r. repeat split.
  - set (s0 := set_grouped_resinfo
                 (Dict.set (group_name_of g) [] (grouped_resinfo s)) s).
    assert (Hstep : index_group s g
                    = if named_group g
                      then fold_left (index_resource (group_name_of g))
                                     (resources_of g) s0
                      else s)
      by reflexivity.
    rewrite Hstep. clear Hstep. unfold register_groups. simpl.
    destruct (named_group g) eqn:Eg; simpl; [|apply IH].
    assert (H0 : Dict.get (group_name_of g) (grouped_resinfo s0) = Some [])
      by apply get_set_eq.
    destruct (index_resources_fields (group_name_of g) (resources_of g) s0 [] H0)
      as (Ht & Hg & Hn & Hf & Hb & Hp & Hr).
    destruct (IH (fold_left (index_resource (group_name_of g)) (resources_of g) s0))
      as (Ht' & Hg' & Hn' & Hf' & Hb' & Hp' & Hr').
    rewrite Ht', Hg', Hn', Hf', Hb', Hp', Hr', Ht, Hg, Hn, Hf, Hb, Hp, Hr.
    unfold s0, index_by, register_groups, group_records. simpl.
    rewrite set_set, <- app_assoc, !fill_app. repeat split.
Qed.

(** After [update_resources] has returned, the stored document decides
    the table and the three indices. *)
Lemma update_resources_indices env w u w' :
  update_resources env w = (Ret u, w') ->
  exists root,
    _get_data env "/rgsummary/xml" w = (Ret root, w)
    /\ resources (self w') = Some root
    /\ resinfo_table (self w') = document_records root
    /\ grouped_resinfo (self w') = register_groups (resource_groups root) Dict.empty
    /\ resinfo_by_name (self w')
       = index_by ResourceInfo.name (document_records root) Dict.empty
    /\ resinfo_by_fqdn (self w')
       = index_by ResourceInfo.fqdn (document_records root) Dict.empty.
Proof.
  intros H. apply update_resources_Ret in H. destruct H as (root & Hget & H).
  exists root. split; [assumption|].
  rewrite H.
  match goal with
  | |- context [fold_left index_group ?gs ?s] =>
      destruct (index_groups_fields gs s) as (Ht & Hg & Hn & Hf & _ & _ & Hr)
  end.
  rewrite Ht, Hg, Hn, Hf, Hr. simpl. repeat split.
Qed.

(** ** The allocation joiner computes the folds *)

Lemma fold_left_flat_map {X Y} (f : X -> list Y) xs : forall acc,
  fold_left (fun acc x => acc ++ f x) xs acc = acc ++ flat_map f xs.
Proof.
  induction xs as [|x xs IH]; intros acc; simpl.
  - now rewrite app_nil_r.
  - now rewrite IH, app_assoc.
Qed.

Lemma allocation_check_Ret env a v1 n1 v2 n2 v3 n3 w b w' :
  allocation_check env a [(v1, n1); (v2, n2); (v3, n3)] w = (Ret b, w') ->
  self w' = self w /\ b = negb (v1 && v2 && v3).
Proof.
  unfold allocation_check. intros H.
  eapply (for_each_local _
            (fun bad (p : bool * string) => if negb (fst p) then true else bad)
            (self w)) in H; [|clear H|reflexivity].
  - destruct H as [Hs ->]. split; [assumption|]. now destruct v1, v2, v3.
  - intros [var name] acc v acc' v' _ Hv Hrun. simpl.
    destruct var; simpl in Hrun; run Hrun; subst; auto.
    split; [congruence|reflexivity].
Qed.

Lemma allocation_submit_resource_run env s acc e w acc' w' :
  self w = s ->
  allocation_submit_resource env acc e w = (Ret acc', w') ->
  self w' = s /\ acc' = acc ++ resolve_submit s e.
Proof.
  intros <- H. unfold allocation_submit_resource in H. run H.
  apply safe_element_text_Ret in E. subst a.
  unfold resolve_submit.
  destruct (Dict.get _ _) as [resinfo|]; run H; subst.
  - auto.
  - rewrite app_nil_r. auto.
Qed.

Lemma allocation_execute_group_run env s acc e w acc' w' :
  self w = s ->
  allocation_execute_group env acc e w = (Ret acc', w') ->
  self w' = s /\ acc' = acc ++ resolve_group s e.
Proof.
  intros <- H. unfold allocation_execute_group in H. run H.
  apply safe_element_text_Ret in E, E0. subst a a0.
  unfold resolve_group.
  destruct (PyStr.truthy _); simpl in *;
    [destruct (PyStr.truthy _); simpl in *|].
  - run H. destruct (Dict.get _ _) as [[|x l]|]; run H; subst;
      rewrite ?app_nil_r; auto.
  - run H. subst. rewrite app_nil_r. auto.
  - run H. subst. rewrite app_nil_r. auto.
Qed.

Lemma project_allocation_run env s n d a w d' w' :
  self w = s ->
  project_allocation env n d a w = (Ret d', w') ->
  self w' = s /\ d' = join_allocation s n d a.
Proof.
  intros <- H. unfold project_allocation in H. run H.
  apply safe_element_text_Ret in E. fold (allocation_type a) in E. subst.
  match goal with
  | R : allocation_check _ _ _ _ = _ |- _ =>
      apply allocation_check_Ret in R; destruct R as [Hs0 ->]
  end.
  fold (execute_group_refs a) in *. fold (submit_refs a) in *.
  unfold join_allocation, complete.
  destruct (_ && _ && _); simpl in H.
  - run H.
    match goal with
    | R : for_each (submit_refs a) _ _ _ = _ |- _ =>
        eapply (for_each_local _ (fun acc e => acc ++ resolve_submit (self w) e)
                  (self w)) in R;
        [destruct R as [Hs1 ->]
        |intros; eapply allocation_submit_resource_run; eauto
        |assumption]
    end.
    match goal with
    | R : for_each (execute_group_refs a) _ _ _ = _ |- _ =>
        eapply (for_each_local _ (fun acc e => acc ++ resolve_group (self w) e)
                  (self w)) in R;
        [destruct R as [Hs2 ->]
        |intros; eapply allocation_execute_group_run; eauto
        |assumption]
    end.
    rewrite !fold_left_flat_map. simpl. split; [assumption|reflexivity].
  - run H. subst. auto.
Qed.

Lemma project_body_run env s d p w d' w' :
  self w = s ->
  project_body env d p w = (Ret d', w') ->
  self w' = s /\ d' = join_project s d p.
Proof.
  intros <- H. unfold project_body in H. run H.
  apply safe_element_text_Ret in E. fold (project_name_of p) in E. subst a.
  unfold join_project, named_project.
  destruct (PyStr.truthy _); simpl in H.
  - eapply (for_each_local _ (join_allocation (self w) (project_name_of p))
              (self w)) in H;
      [exact H|intros; eapply project_allocation_run; eauto|reflexivity].
  - run H. subst. split; [congruence|reflexivity].
Qed.

Lemma join_allocations_get s n allocs : forall d l,
  Dict.get n d = Some l ->
  fold_left (join_allocation s n) allocs d
  = Dict.set n (l ++ map (allocation_of s) (filter complete allocs)) d.
Proof.
  induction allocs as [|a allocs IH]; intros d l Hl; simpl.
  - now rewrite app_nil_r, (set_get_same _ _ _ Hl).
  - unfold join_allocation at 2. destruct (complete a); simpl.
    + unfold allocations_append. rewrite Hl.
      rewrite (IH _ (l ++ [allocation_of s a])) by apply get_set_eq.
      now rewrite set_set, <- app_assoc.
    + now apply IH.
Qed.

Lemma join_projects_fold s ps : forall d,
  fold_left (join_project s) ps d = join_projects s ps d.
Proof.
  induction ps as [|p ps IH]; intros d; simpl; [reflexivity|].
  unfold join_project at 2, join_projects. simpl.
  destruct (named_project p); simpl; [|apply IH].
  rewrite (join_allocations_get s _ _ _ []) by apply get_set_eq.
  rewrite set_set. simpl. apply IH.
Qed.

(** When both documents are loaded and have children, the dictionary
    returned is the one filled project by project; the object is not
    touched. *)
Lemma get_project_resource_allocations_Ret env w out w' eProjects eResources :
  get_project_resource_allocations env w = (Ret out, w') ->
  projects (self w) = Some eProjects ->
  resources (self w) = Some eResources ->
  ET.truthy eProjects = true ->
  ET.truthy eResources = true ->
  self w' = self w
  /\ out = join_projects (self w) (project_elements eProjects) Dict.empty.
Proof.
  intros H Hp Hr Tp Tr. unfold get_project_resource_allocations in H. run H.
  rewrite Hp, Hr, Tp, Tr in H. simpl in H.
  eapply (for_each_local _ (join_project (self w)) (self w)) in H;
    [|intros; eapply project_body_run; eauto|reflexivity].
  destruct H as [Hs ->]. split; [assumption|]. apply join_projects_fold.
Qed.

(** ** Rebuilding does not look at the previous tables *)

Lemma agrees_ret {A} (a : A) : agrees (ret a).
Proof. intros w1 w2 H. simpl. auto. Qed.

Lemma agrees_lift {A} (o : outcome A) : agrees (lift o).
Proof. intros w1 w2 H. simpl. auto. Qed.

Lemma agrees_warning msg args : agrees (warning msg args).
Proof. intros w1 w2 H. simpl. split; [reflexivity|exact H]. Qed.

Lemma agrees_bind {A B} (m : M A) (f : A -> M B) :
  agrees m -> (forall a, agrees (f a)) -> agrees (bind m f).
Proof.
  intros Hm Hf w1 w2 H. unfold bind.
  destruct (Hm w1 w2 H) as [Ho Hw].
  destruct (m w1) as [[a1|e1] v1], (m w2) as [[a2|e2] v2]; simpl in *;
    try discriminate.
  - injection Ho as ->. now apply Hf.
  - injection Ho as ->. auto.
Qed.

Lemma agrees_for_each {X B} (body : B -> X -> M B) xs :
  (forall acc x, agrees (body acc x)) -> forall acc, agrees (for_each xs acc body).
Proof.
  intros Hbody. induction xs as [|x xs IH]; intros acc; simpl.
  - apply agrees_ret.
  - apply agrees_bind; [apply Hbody|intros a; apply IH].
Qed.

Ltac same_tables_fields :=
  unfold same_tables, indices; simpl;
  intros; repeat match goal with
                 | H : _ /\ _ |- _ => destruct H
                 | H : (_, _) = (_, _) |- _ => injection H as ? ? ? ?
                 end; subst; repeat split; congruence.

(** Reading one of the tables. *)
Lemma agrees_gets {A} (field : TopologyData -> A) :
  (forall w1 w2, same_tables w1 w2 -> field (self w1) = field (self w2)) ->
  agrees (gets field).
Proof.
  intros Hread w1 w2 H. unfold gets. simpl.
  rewrite (Hread w1 w2 H). auto.
Qed.

(** Writing one of the tables. *)
Lemma agrees_modify (f : TopologyData -> TopologyData) :
  (forall w1 w2, same_tables w1 w2 ->
     same_tables {| self := f (self w1); log := log w1 |}
                 {| self := f (self w2); log := log w2 |}) ->
  agrees (modify f).
Proof.
  intros Hwrite w1 w2 H. unfold modify. simpl. split; [reflexivity|].
  now apply Hwrite.
Qed.

Ltac agrees_step :=
  first
    [ apply agrees_lift
    | apply agrees_warning
    | apply agrees_ret
    | apply agrees_gets; same_tables_fields
    | apply agrees_modify; same_tables_fields ].

Lemma agrees_grouped_resinfo_append g r : agrees (grouped_resinfo_append g r).
Proof.
  unfold grouped_resinfo_append.
  apply agrees_bind; [agrees_step|intros grouped].
  destruct (Dict.get g grouped); [agrees_step|].
  intros w1 w2 H. simpl. auto.
Qed.

Lemma agrees_update_resources_resource env g e :
  agrees (update_resources_resource env g e).
Proof.
  unfold update_resources_resource.
  repeat (apply agrees_bind; [agrees_step|intros ?]).
  destruct (_ || _); [agrees_step|].
  repeat (apply agrees_bind;
          [first [agrees_step|apply agrees_grouped_resinfo_append]|intros ?]).
  agrees_step.
Qed.

Lemma agrees_update_resources_group env g : agrees (update_resources_group env g).
Proof.
  unfold update_resources_group.
  apply agrees_bind; [agrees_step|intros name].
  destruct (negb _); [agrees_step|].
  repeat (apply agrees_bind; [agrees_step|intros ?]).
  apply agrees_for_each. intros _ e.
  apply agrees_update_resources_resource.
Qed.

(** The object when the loops of [update_resources] start. *)
Lemma update_resources_fetched env w root :
  _get_data env "/rgsummary/xml" w = (Ret root, w) ->
  update_resources env w
  = for_each (resource_groups root) tt (fun _ => update_resources_group env)
      {| self :=
           set_resinfo_by_fqdn Dict.empty
             (set_resinfo_by_name Dict.empty
                (set_grouped_resinfo Dict.empty
                   (set_resinfo_table []
                      (set_resources (Some root) (self w)))));
         log := log w |}.
Proof.
  intros H. unfold update_resources.
  change (bind ?m ?f w) with (match m w with
                              | (Ret a, w') => f a w'
                              | (Raise e, w') => (Raise e, w')
                              end).
  rewrite H. reflexivity.
Qed.

Lemma update_resources_failed env w e :
  _get_data env "/rgsummary/xml" w = (Raise e, w) ->
  update_resources env w = (Raise e, w).
Proof.
  intros H. unfold update_resources.
  change (bind ?m ?f w) with (match m w with
                              | (Ret a, w') => f a w'
                              | (Raise e, w') => (Raise e, w')
                              end).
  rewrite H. reflexivity.
Qed.

(** Once the document is fetched, [update_resources] ends the same way
    and leaves the same tables whatever the object held before. *)
Lemma update_resources_fresh env w1 w2 root :
  _get_data env "/rgsummary/xml" w1 = (Ret root, w1) ->
  _get_data env "/rgsummary/xml" w2 = (Ret root, w2) ->
  fst (update_resources env w1) = fst (update_resources env w2)
  /\ same_tables (snd (update_resources env w1)) (snd (update_resources env w2)).
Proof.
  intros H1 H2.
  rewrite (update_resources_fetched _ _ _ H1), (update_resources_fetched _ _ _ H2).
  apply (agrees_for_each (fun _ => update_resources_group env)).
  - intros _ g. apply agrees_update_resources_group.
  - unfold same_tables, indices. simpl. auto.
Qed.

(** ** The base URL is never reassigned *)

Lemma keeps_base_bind {A B} (m : M A) (f : A -> M B) :
  keeps_base m -> (forall a, keeps_base (f a)) -> keeps_base (bind m f).
Proof.
  intros Hm Hf w. unfold bind. specialize (Hm w).
  destruct (m w) as [[a|e] v]; simpl in *; [|assumption].
  now rewrite Hf.
Qed.

Lemma keeps_base_for_each {X B} (body : B -> X -> M B) xs :
  (forall acc x, keeps_base (body acc x)) ->
  forall acc, keeps_base (for_each xs acc body).
Proof.
  intros Hbody. induction xs as [|x xs IH]; intros acc; simpl.
  - intros w. reflexivity.
  - apply keeps_base_bind; [apply Hbody|intros a; apply IH].
Qed.

Lemma keeps_base_get_data env endpoint : keeps_base (_get_data env endpoint).
Proof.
  intros w. destruct (_get_data env endpoint w) as [o v] eqn:E.
  now rewrite (_get_data_world _ _ _ _ _ E).
Qed.

Lemma keeps_base_update_resources env : keeps_base (update_resources env).
Proof.
  unfold update_resources.
  apply keeps_base_bind; [apply keeps_base_get_data|intros root].
  repeat (apply keeps_base_bind; [intros w; reflexivity|intros ?]).
  match goal with
  | |- keeps_base (match ?x with _ => _ end) => destruct x
  end; [|intros w; reflexivity].
  apply keeps_base_for_each. intros _ g. unfold update_resources_group.
  apply keeps_base_bind; [intros w; reflexivity|intros name].
  destruct (negb _); [intros w; reflexivity|].
  repeat (apply keeps_base_bind; [intros w; reflexivity|intros ?]).
  apply keeps_base_for_each. intros _ r. unfold update_resources_resource.
  repeat (apply keeps_base_bind; [intros w; reflexivity|intros ?]).
  destruct (_ || _); [intros w; reflexivity|].
  repeat (apply keeps_base_bind; [intros w; reflexivity|intros ?]).
  apply keeps_base_bind.
  { unfold grouped_resinfo_append.
    apply keeps_base_bind; [intros w; reflexivity|intros grouped].
    destruct (Dict.get _ _); intros w; reflexivity. }
  intros _.
  repeat (apply keeps_base_bind; [intros w; reflexivity|intros ?]).
  intros w; reflexivity.
Qed.

(** What [_get_data] does depends on the object through its base URL
    only. *)
Lemma _get_data_base env endpoint w1 w2 :
  topology_base (self w1) = topology_base (self w2) ->
  fst (_get_data env endpoint w1) = fst (_get_data env endpoint w2).
Proof.
  intros H. unfold _get_data, bind, gets, raise, ret. simpl. rewrite H.
  destruct (urlopen_read env _) as [[]|[|b bs]]; try reflexivity.
  destruct (ET_fromstring env _) as [[]|el]; reflexivity.
Qed.

Lemma _get_data_cases env endpoint w :
  (exists root, _get_data env endpoint w = (Ret root, w))
  \/ (exists e, _get_data env endpoint w = (Raise e, w)).
Proof.
  destruct (_get_data env endpoint w) as [[root|e] v] eqn:E;
    rewrite (_get_data_world _ _ _ _ _ E) in *; eauto.
Qed.

(** ** When the calls return *)

Lemma safe_element_text_has_text element :
  safe_element_text element
  = if has_text element then Ret (element_text element) else Raise AttributeError.
Proof.
  destruct element as [[tg [t|] cs]|]; reflexivity.
Qed.

Lemma filter_map_text_have_text l :
  filter_map_text l
  = if forallb (fun e => has_text (Some e)) l
    then Ret (filter PyStr.truthy (map (fun e => element_text (Some e)) l))
    else Raise AttributeError.
Proof.
  induction l as [|[tg [t|] cs] l IH]; simpl; [reflexivity| |reflexivity].
  rewrite IH. destruct (forallb _ l); [|reflexivity].
  now destruct (PyStr.truthy (PyStr.strip t)).
Qed.

Lemma findall_nonempty_have_text elt path :
  findall_nonempty elt path
  = if all_have_text elt path then Ret (nonempty_texts elt path)
    else Raise AttributeError.
Proof. apply filter_map_text_have_text. Qed.

Lemma for_each_decided {X B} (I : World -> Prop) (ok : X -> bool)
    (body : B -> X -> M B) xs :
  (forall x acc w, In x xs -> I w -> decided (ok x) I (body acc x) w) ->
  forall acc w, I w -> decided (forallb ok xs) I (for_each xs acc body) w.
Proof.
  induction xs as [|x xs IH]; intros Hbody acc w Hw; simpl.
  - exists acc, w. auto.
  - pose proof (Hbody x acc w (or_introl eq_refl) Hw) as Hx.
    unfold decided in *. unfold bind. destruct (ok x); simpl.
    + destruct Hx as (acc1 & w1 & -> & Hw1).
      apply IH; [|assumption]. intros; apply Hbody; auto. now right.
    + destruct Hx as (w1 & ->). eauto.
Qed.

(** The run returned, and [I] holds of the world it left. *)
Ltac returned := eexists _, _; split; [reflexivity|simpl; eauto].

Lemma update_resources_resource_decided env g e w :
  (exists l, Dict.get g (grouped_resinfo (self w)) = Some l) ->
  decided (readable_resource e)
          (fun w' => exists l, Dict.get g (grouped_resinfo (self w')) = Some l)
          (update_resources_resource env g e) w.
Proof.
  intros (l & Hl).
  unfold update_resources_resource, readable_resource, well_formed, decided.
  unfold bind, lift.
  rewrite !safe_element_text_has_text, !findall_nonempty_have_text.
  fold (resource_name_of e). fold (fqdn_of e). fold (service_ids_of e).
  destruct (has_text (ET.find e ["Name"])); simpl; [|eauto].
  destruct (has_text (ET.find e ["FQDN"])); simpl; [|eauto].
  destruct (all_have_text e ["Services"; "Service"; "ID"]); simpl; [|eauto].
  destruct (PyStr.truthy (resource_name_of e)); simpl; [|returned].
  destruct (PyStr.truthy (fqdn_of e)); simpl; [|returned].
  destruct (service_ids_of e) as [|i ids]; simpl; [returned|].
  destruct (all_have_text e ["Tags"; "Tag"]); simpl; [|eauto].
  unfold grouped_resinfo_append, bind, gets, modify. simpl. rewrite Hl. simpl.
  eexists _, _. split; [reflexivity|]. simpl. rewrite get_set_eq. eauto.
Qed.

Lemma update_resources_group_decided env g w :
  decided (readable_group g) (fun _ => True) (update_resources_group env g) w.
Proof.
  unfold update_resources_group, readable_group, named_group.
  unfold bind at 1. unfold lift. rewrite safe_element_text_has_text.
  fold (group_name_of g).
  destruct (has_text (ET.find g ["GroupName"])); simpl; [|unfold decided; eauto].
  destruct (PyStr.truthy (group_name_of g)); simpl; [|unfold decided; returned].
  set (w0 := {| self := set_grouped_resinfo
                          (Dict.set (group_name_of g) [] (grouped_resinfo (self w)))
                          (self w);
                log := log w |}).
  pose proof (for_each_decided
                (fun w' => exists l,
                     Dict.get (group_name_of g) (grouped_resinfo (self w')) = Some l)
                readable_resource
                (fun _ => update_resources_resource env (group_name_of g))
                (resources_of g)
                (fun x acc v _ Hv => update_resources_resource_decided env _ x v Hv)
                tt w0) as Hloop.
  assert (H0 : exists l,
             Dict.get (group_name_of g) (grouped_resinfo (self w0)) = Some l).
  { exists []. apply get_set_eq. }
  specialize (Hloop H0). unfold decided in *.
  change ((grouped <- gets grouped_resinfo ;;
           modify (set_grouped_resinfo (Dict.set (group_name_of g) [] grouped)) ;;
           for_each (ET.findall g ["Resources"; "Resource"]) tt
             (fun _ => update_resources_resource env (group_name_of g))) w)
    with (for_each (resources_of g) tt
            (fun _ => update_resources_resource env (group_name_of g)) w0).
  destruct (forallb readable_resource (resources_of g)).
  - destruct Hloop as (a & w' & Hrun & _). exists a, w'. auto.
  - exact Hloop.
Qed.

(** Once the document is fetched, [update_resources] returns when every
    text it reads is there, and raises [AttributeError] when one is
    missing. *)
Lemma update_resources_decided env w root :
  _get_data env "/rgsummary/xml" w = (Ret root, w) ->
  decided (readable_resources root) (fun _ => True) (update_resources env) w.
Proof.
  intros H. unfold decided. rewrite (update_resources_fetched _ _ _ H).
  apply (for_each_decided (fun _ => True) readable_group
           (fun _ => update_resources_group env)); [|exact I].
  intros g acc v _ _. apply update_resources_group_decided.
Qed.

Lemma allocation_check_returns env a vars w :
  exists b w', allocation_check env a vars w = (Ret b, w') /\ self w' = self w.
Proof.
  unfold allocation_check.
  assert (Hloop : forall b0 w0, exists b w',
             for_each vars b0
               (fun bad_ra '(var, name) =>
                  if negb var then
                    warning "ResourceAllocation has a missing or empty %s: %s"
                            [name; elem2str env a] ;;
                    ret true
                  else ret bad_ra) w0 = (Ret b, w')
             /\ self w' = self w0).
  { induction vars as [|[var name] vars IH]; intros b0 w0; simpl.
    - eexists _, _. split; reflexivity.
    - unfold bind. destruct var; simpl.
      + apply IH.
      + match goal with
        | |- context [for_each vars ?b1 _ ?w1] =>
            destruct (IH b1 w1) as (b' & w' & Hrun & Hs)
        end.
        exists b', w'. split; [exact Hrun|exact Hs]. }
  apply Hloop.
Qed.

Lemma allocation_submit_resource_decided env acc e w :
  decided (has_text (Some e)) (fun _ => True)
          (allocation_submit_resource env acc e) w.
Proof.
  unfold allocation_submit_resource, decided, bind, lift, gets.
  rewrite safe_element_text_has_text.
  destruct (has_text (Some e)); simpl; [|eauto].
  destruct (Dict.get _ _); returned.
Qed.

Lemma allocation_execute_group_decided env acc e w :
  decided (readable_execute_group e) (fun _ => True)
          (allocation_execute_group env acc e) w.
Proof.
  unfold allocation_execute_group, readable_execute_group, decided, bind, lift, gets.
  rewrite !safe_element_text_has_text.
  destruct (has_text (ET.find e ["GroupName"])); simpl; [|eauto].
  destruct (has_text (ET.find e ["LocalAllocationID"])); simpl; [|eauto].
  destruct (negb _ || negb _); simpl; [returned|].
  destruct (Dict.get _ _) as [[|x l]|]; returned.
Qed.

Lemma project_allocation_checked env n d a w :
  has_text (ET.find a ["Type"]) = true ->
  exists w1,
    project_allocation env n d a w
    = if complete a then
        (submit_resources_ <-
           for_each (submit_refs a) [] (allocation_submit_resource env) ;;
         execute_resource_groups_ <-
           for_each (execute_group_refs a) [] (allocation_execute_group env) ;;
         ret (allocations_append n
                {| type_ := allocation_type a;
                   submit_resources := submit_resources_;
                   execute_resource_groups := execute_resource_groups_ |}
                d)) w1
      else (Ret d, w1).
Proof.
  intros Ht. unfold project_allocation, complete.
  unfold bind at 1. unfold lift. rewrite safe_element_text_has_text, Ht.
  fold (allocation_type a). fold (execute_group_refs a). fold (submit_refs a).
  cbv zeta. unfold bind at 1.
  match goal with
  | |- context [allocation_check env a ?vars w] =>
      destruct (allocation_check_returns env a vars w) as (b & w1 & Hrun & _);
      pose proof Hrun as Hb;
      apply allocation_check_Ret in Hb; destruct Hb as [_ ->];
      rewrite Hrun
  end.
  exists w1. now destruct (_ && _ && _).
Qed.

Lemma project_allocation_decided env n d a w :
  decided (readable_allocation a) (fun _ => True) (project_allocation env n d a) w.
Proof.
  unfold readable_allocation, decided.
  destruct (has_text (ET.find a ["Type"])) eqn:Ht; simpl.
  - destruct (project_allocation_checked env n d a w Ht) as (w1 & ->).
    destruct (complete a); [|eauto].
    pose proof (for_each_decided (fun _ => True) (fun e => has_text (Some e))
                  (allocation_submit_resource env) (submit_refs a)
                  (fun e acc v _ _ => allocation_submit_resource_decided env acc e v)
                  [] w1 I) as Hsub.
    unfold decided in Hsub. unfold bind at 1 3.
    destruct (forallb _ (submit_refs a)); simpl.
    + destruct Hsub as (subs & w2 & -> & _).
      pose proof (for_each_decided (fun _ => True) readable_execute_group
                    (allocation_execute_group env) (execute_group_refs a)
                    (fun e acc v _ _ => allocation_execute_group_decided env acc e v)
                    [] w2 I) as Hex.
      unfold decided in Hex. unfold bind.
      destruct (forallb _ (execute_group_refs a)).
      * destruct Hex as (exs & w3 & -> & _). returned.
      * destruct Hex as (w3 & ->). eauto.
    + destruct Hsub as (w2 & ->). eauto.
  - unfold project_allocation. unfold bind at 1. unfold lift.
    rewrite safe_element_text_has_text, Ht. eauto.
Qed.

Lemma project_body_decided env d p w :
  decided (readable_project p) (fun _ => True) (project_body env d p) w.
Proof.
  unfold project_body, readable_project, named_project.
  unfold bind at 1. unfold lift. rewrite safe_element_text_has_text.
  fold (project_name_of p).
  destruct (has_text (ET.find p ["Name"])); simpl; [|unfold decided; eauto].
  destruct (PyStr.truthy (project_name_of p)); simpl; [|unfold decided; returned].
  apply (for_each_decided (fun _ => True) readable_allocation); [|exact I].
  intros a acc v _ _. apply project_allocation_decided.
Qed.

(** With both documents loaded and not childless,
    [get_project_resource_allocations] returns when every text it reads is
    there, and raises [AttributeError] when one is missing. *)
Lemma get_project_resource_allocations_decided env w eProjects eResources :
  projects (self w) = Some eProjects ->
  resources (self w) = Some eResources ->
  ET.truthy eProjects = true ->
  ET.truthy eResources = true ->
  decided (readable_projects eProjects) (fun _ => True)
          (get_project_resource_allocations env) w.
Proof.
  intros Hp Hr Tp Tr.
  assert (E : get_project_resource_allocations env w
              = for_each (project_elements eProjects) Dict.empty (project_body env) w).
  { unfold get_project_resource_allocations, bind, gets. simpl.
    now rewrite Hp, Hr, Tp, Tr. }
  unfold decided. rewrite E.
  apply (for_each_decided (fun _ => True) readable_project); [|exact I].
  intros p acc v _ _. apply project_body_decided.
Qed.

(** ** Last occurrences and what the joiner returns *)

Lemma last_named_filter {X} (key : X -> string) (f : X -> bool) l x :
  last_named key l x -> f x = true -> last_named key (filter f l) x.
Proof.
  intros (l1 & l2 & -> & Hl2) Hx.
  exists (filter f l1), (filter f l2). split.
  - rewrite filter_app. simpl. now rewrite Hx.
  - intros x' Hin. apply filter_In in Hin. now apply Hl2.
Qed.

Lemma get_fill_last_named {X V} (key : X -> string) (val : X -> V) l x d :
  last_named key l x -> Dict.get (key x) (Dict.fill key val l d) = Some (val x).
Proof.
  intros (l1 & l2 & -> & Hl2). now apply get_fill_last.
Qed.

Lemma in_document_records root r :
  In r (document_records root) -> from_well_formed root r.
Proof.
  unfold document_records, from_well_formed. intros H.
  apply in_flat_map in H. destruct H as (g & Hg & Hr).
  apply filter_In in Hg. destruct Hg as [Hg Hn].
  unfold group_records in Hr. apply in_map_iff in Hr.
  destruct Hr as (e & <- & He). apply filter_In in He. destruct He as [He Hwf].
  exists g, e. auto.
Qed.

Lemma from_well_formed_fields root r :
  from_well_formed root r ->
  ResourceInfo.name r <> "" /\ ResourceInfo.fqdn r <> ""
  /\ ResourceInfo.service_ids r <> [].
Proof.
  intros (g & e & _ & _ & _ & Hwf & ->). unfold well_formed in Hwf.
  apply andb_prop in Hwf. destruct Hwf as [Hwf Hs].
  apply andb_prop in Hwf. destruct Hwf as [Hn Hf].
  unfold record_of. simpl. repeat split.
  - intros E. rewrite E in Hn. discriminate.
  - intros E. rewrite E in Hf. discriminate.
  - intros E. rewrite E in Hs. discriminate.
Qed.

Lemma last_named_nonempty {X} (key : X -> string) l x : last_named key l x -> l <> [].
Proof. intros (l1 & l2 & -> & _). now destruct l1. Qed.

(** The entry of the last project with a name, and the keys. *)
Lemma join_last_project env w out w' eProjects eResources p :
  get_project_resource_allocations env w = (Ret out, w') ->
  projects (self w) = Some eProjects ->
  resources (self w) = Some eResources ->
  ET.truthy eResources = true ->
  last_named project_name_of (project_elements eProjects) p ->
  named_project p = true ->
  Dict.get (project_name_of p) out = Some (allocations_of (self w) p)
  /\ NoDup (Dict.keys out).
Proof.
  intros H Hp Hr Tr Hlast Hnamed.
  assert (Tp : ET.truthy eProjects = true).
  { eapply findall_child_truthy, last_named_nonempty, Hlast. }
  destruct (get_project_resource_allocations_Ret _ _ _ _ _ _ H Hp Hr Tp Tr)
    as [_ ->].
  unfold join_projects. split.
  - apply (get_fill_last_named project_name_of (allocations_of (self w))).
    now apply last_named_filter.
  - apply fill_NoDup. constructor.
Qed.

(** Either nothing is returned or the dictionary filled from the loaded
    project document. *)
Lemma get_project_resource_allocations_cases env w out w' :
  get_project_resource_allocations env w = (Ret out, w') ->
  out = Dict.empty
  \/ exists eProjects,
       out = join_projects (self w) (project_elements eProjects) Dict.empty.
Proof.
  intros H.
  destruct (projects (self w)) as [eProjects|] eqn:Hp;
    [destruct (resources (self w)) as [eResources|] eqn:Hr|].
  - destruct (ET.truthy eProjects) eqn:Tp; [destruct (ET.truthy eResources) eqn:Tr|].
    + right. exists eProjects.
      now destruct (get_project_resource_allocations_Ret _ _ _ _ _ _ H Hp Hr Tp Tr).
    + left. unfold get_project_resource_allocations in H. run H.
      rewrite Hp, Hr, Tp, Tr in H. simpl in H. now run H.
    + left. unfold get_project_resource_allocations in H. run H.
      rewrite Hp, Hr, Tp in H. simpl in H. now run H.
  - left. unfold get_project_resource_allocations in H. run H.
    rewrite Hp, Hr in H. now run H.
  - left. unfold get_project_resource_allocations in H. run H.
    rewrite Hp in H. now run H.
Qed.

Lemma join_loaded_cases env w :
  (exists eProjects eResources,
      projects (self w) = Some eProjects /\ resources (self w) = Some eResources
      /\ ET.truthy eProjects = true /\ ET.truthy eResources = true)
  \/ get_project_resource_allocations env w = (Ret Dict.empty, w).
Proof.
  unfold get_project_resource_allocations, bind, gets, ret. simpl.
  destruct (projects (self w)) as [eProjects|]; [|now right].
  destruct (resources (self w)) as [eResources|]; [|now right].
  destruct (ET.truthy eProjects) eqn:Tp; [|now right].
  destruct (ET.truthy eResources) eqn:Tr; [|now right].
  left. exists eProjects, eResources. auto.
Qed.

(** Each entry of a returned dictionary is the list of the records of a
    named project element of the loaded document with that name. *)
Lemma join_entry_origin env w out w' n l :
  get_project_resource_allocations env w = (Ret out, w') ->
  Dict.get n out = Some l ->
  exists eProjects p,
    projects (self w) = Some eProjects
    /\ In p (project_elements eProjects) /\ named_project p = true
    /\ project_name_of p = n /\ l = allocations_of (self w) p.
Proof.
  intros H Hn.
  destruct (join_loaded_cases env w)
    as [(eProjects & eResources & Hp & Hr & Tp & Tr)|E].
  - destruct (get_project_resource_allocations_Ret _ _ _ _ _ _ H Hp Hr Tp Tr)
      as [_ ->].
    unfold join_projects in Hn. apply get_fill_inv in Hn.
    destruct Hn as [Hn|(p & Hin & Hk & Hv)]; [discriminate|].
    apply filter_In in Hin. destruct Hin as [Hin Hnamed].
    exists eProjects, p. auto 6.
  - rewrite E in H. injection H as <- _. discriminate.
Qed.

Lemma complete_false a :
  complete a = false
  <-> allocation_type a = "" \/ execute_group_refs a = [] \/ submit_refs a = [].
Proof.
  unfold complete.
  destruct (allocation_type a) as [|c t]; simpl; [split; auto|].
  destruct (execute_group_refs a) as [|e es]; simpl; [split; auto|].
  destruct (submit_refs a) as [|x xs]; simpl; [split; auto|].
  split; [discriminate|]. intros [H|[H|H]]; discriminate.
Qed.

Lemma is_ce_iff x :
  ResourceInfo.is_ce x = true <-> In "1" (ResourceInfo.service_ids x).
Proof.
  unfold ResourceInfo.is_ce, PyStr.mem, ResourceInfo.SERVICE_ID_CE.
  rewrite existsb_exists. split.
  - intros (i & Hi & E). apply String.eqb_eq in E. now subst.
  - intros H. exists "1". split; [assumption|reflexivity].
Qed.

(** ** The joiner on the sample documents *)

Lemma loaded_example_returns :
  get_project_resource_allocations (serving pj_example rg_example)
    (loaded pj_example rg_example)
  = (Ret (joined pj_example rg_example),
     snd (get_project_resource_allocations (serving pj_example rg_example)
            (loaded pj_example rg_example))).
Proof. vm_compute; reflexivity. Qed.

Lemma loaded_both_allocated_returns :
  get_project_resource_allocations (serving pj_both_allocated rg_example)
    (loaded pj_both_allocated rg_example)
  = (Ret (joined pj_both_allocated rg_example),
     snd (get_project_resource_allocations (serving pj_both_allocated rg_example)
            (loaded pj_both_allocated rg_example))).
Proof. vm_compute; reflexivity. Qed.

Lemma unknown_submit_unresolvable eProjects :
  unresolvable (self (loaded eProjects rg_example)) unknown_submit.
Proof.
  intros e He. vm_compute in He. destruct He as [<-|[<-|[]]]; vm_compute; reflexivity.
Qed.

(** * The properties *)

(** ** Fetcher *)

(** C8, as amended: [_get_data] raises [DataError], with a message that
    contains the endpoint, in exactly three cases: the transport raises
    [EnvironmentError], the body is empty, the parser raises [ParseError]
    or [UnicodeDecodeError].  It returns the parsed root when the body is
    not empty and the parser returns.  An exception of another class, of
    the transport or of the parser, passes through as it was raised.  The
    object and the log stay as they were in every case. *)
Theorem C8_get_data_raises_in_three_cases env endpoint w :
  let url := (topology_base (self w) ++ endpoint)%string in
  (fetch_failed env url ->
   _get_data env endpoint w
   = (Raise (DataError ("Topology query to " ++ endpoint ++ " failed")), w))
  /\ (body_empty env url ->
      _get_data env endpoint w
      = (Raise (DataError ("Topology query to " ++ endpoint ++ " returned no data")),
         w))
  /\ (body_unparsable env url ->
      _get_data env endpoint w
      = (Raise (DataError ("Topology query to " ++ endpoint ++ " couldn't be parsed")),
         w))
  /\ (forall b root,
        urlopen_read env url = inr b -> b <> [] -> ET_fromstring env b = inr root ->
        _get_data env endpoint w = (Ret root, w))
  /\ (forall err,
        urlopen_read env url = inl err -> err <> EnvironmentError ->
        _get_data env endpoint w = (Raise (Uncaught err), w))
  /\ (forall b err,
        urlopen_read env url = inr b -> b <> [] -> ET_fromstring env b = inl err ->
        err <> ParseError -> err <> UnicodeDecodeError ->
        _get_data env endpoint w = (Raise (Uncaught err), w))
  /\ (forall msg, fst (_get_data env endpoint w) = Raise (DataError msg) ->
        (fetch_failed env url \/ body_empty env url \/ body_unparsable env url)
        /\ occurs_in endpoint msg).
Proof.
  intros url. subst url.
  split; [|split; [|split; [|split; [|split; [|split]]]]].
  - unfold fetch_failed. intros H. now rewrite _get_data_run, H.
  - unfold body_empty. intros H. now rewrite _get_data_run, H.
  - intros (b & err & Hu & Hne & Hp & Hc). rewrite _get_data_run, Hu.
    destruct b as [|b bs]; [now elim Hne|]. rewrite Hp.
    now destruct Hc as [-> | ->].
  - apply _get_data_parsed.
  - apply _get_data_fetch_uncaught.
  - apply _get_data_parse_uncaught.
  - apply _get_data_DataError.
Qed.

(** C8 on a transport that is down, on an empty answer, on a body that is
    not XML, on the example document, on a connection that closes early and
    on a body in an unknown encoding. *)
Lemma C8_get_data_witness :
  (fetch_failed unreachable (TOPOLOGY ++ "/rgsummary/xml")
   /\ _get_data unreachable "/rgsummary/xml" pristine
      = (Raise (DataError "Topology query to /rgsummary/xml failed"), pristine))
  /\ (body_empty empty_response (TOPOLOGY ++ "/rgsummary/xml")
      /\ _get_data empty_response "/rgsummary/xml" pristine
         = (Raise (DataError "Topology query to /rgsummary/xml returned no data"),
            pristine))
  /\ (body_unparsable malformed_body (TOPOLOGY ++ "/rgsummary/xml")
      /\ _get_data malformed_body "/rgsummary/xml" pristine
         = (Raise (DataError "Topology query to /rgsummary/xml couldn't be parsed"),
            pristine))
  /\ _get_data (serving pj_example rg_example) "/rgsummary/xml" pristine
     = (Ret rg_example, pristine)
  /\ _get_data truncated_response "/rgsummary/xml" pristine
     = (Raise (Uncaught (OtherException "IncompleteRead")), pristine)
  /\ _get_data unknown_encoding "/rgsummary/xml" pristine
     = (Raise (Uncaught (OtherException "LookupError")), pristine).
Proof.
  pose proof (C8_get_data_raises_in_three_cases unreachable "/rgsummary/xml" pristine)
    as (Hdown & _).
  pose proof (C8_get_data_raises_in_three_cases empty_response "/rgsummary/xml"
                pristine) as (_ & Hempty & _).
  pose proof (C8_get_data_raises_in_three_cases malformed_body "/rgsummary/xml"
                pristine) as (_ & _ & Hmalformed & _).
  pose proof (C8_get_data_raises_in_three_cases (serving pj_example rg_example)
                "/rgsummary/xml" pristine) as (_ & _ & _ & Hserved & _).
  pose proof (C8_get_data_raises_in_three_cases truncated_response "/rgsummary/xml"
                pristine) as (_ & _ & _ & _ & Htruncated & _).
  pose proof (C8_get_data_raises_in_three_cases unknown_encoding "/rgsummary/xml"
                pristine) as (_ & _ & _ & _ & _ & Hencoding & _).
  assert (Hm : body_unparsable malformed_body (TOPOLOGY ++ "/rgsummary/xml")).
  { exists [Byte.x3c], ParseError.
    repeat split; [discriminate|now left]. }
  split; [split; [reflexivity|apply Hdown; reflexivity]|].
  split; [split; [reflexivity|apply Hempty; reflexivity]|].
  split; [split; [exact Hm|apply Hmalformed; exact Hm]|].
  split; [apply (Hserved [Byte.x52]); [reflexivity|discriminate|reflexivity]|].
  split; [apply Htruncated; [reflexivity|discriminate]|].
  apply (Hencoding [Byte.x3c]); [reflexivity|discriminate|reflexivity|discriminate..].
Defined.

(** C8 as stated fails: a failure of the transport or of the parser is
    wrapped only when its class is one the [except] clauses name.  When
    the connection closes early ([IncompleteRead]) and when the body names
    an unknown encoding ([LookupError]) the fetch raises that exception,
    not a [DataError], and returns nothing. *)
Lemma C8_counterexample_uncaught_exception_classes :
  (fetch_raises truncated_response (TOPOLOGY ++ "/rgsummary/xml")
   /\ _get_data truncated_response "/rgsummary/xml" pristine
      = (Raise (Uncaught (OtherException "IncompleteRead")), pristine)
   /\ ~ every_failure_is_a_DataError truncated_response "/rgsummary/xml" pristine)
  /\ (parse_raises unknown_encoding (TOPOLOGY ++ "/rgsummary/xml")
      /\ _get_data unknown_encoding "/rgsummary/xml" pristine
         = (Raise (Uncaught (OtherException "LookupError")), pristine)
      /\ ~ every_failure_is_a_DataError unknown_encoding "/rgsummary/xml" pristine).
Proof.
  assert (Ht : fetch_raises truncated_response (TOPOLOGY ++ "/rgsummary/xml")).
  { now exists (OtherException "IncompleteRead"). }
  assert (Hu : parse_raises unknown_encoding (TOPOLOGY ++ "/rgsummary/xml")).
  { exists [Byte.x3c], (OtherException "LookupError").
    repeat split. discriminate. }
  split; (split; [assumption|]); (split; [reflexivity|]); intros [H _].
  - destruct H as (msg & H & _); [now left|]. discriminate.
  - destruct H as (msg & H & _); [right; now right|]. discriminate.
Qed.

(** ** Resource indexer *)

(** C1: indexing is claimed never to raise for malformed sub-elements.
    It does: a [GroupName] element without text (as in
    [<ResourceGroup><GroupName/></ResourceGroup>]) makes
    [safe_element_text] raise [AttributeError], and [update_resources]
    ends with that exception instead of skipping the group with a
    warning: the log stays empty and no index is built. *)
Theorem C1_empty_group_name_raises :
  safe_element_text (ET.find (node "ResourceGroup" [node "GroupName" []]) ["GroupName"])
  = Raise AttributeError
  /\ fst (update_resources (serving pj_example rg_empty_group_name) pristine)
     = Raise AttributeError
  /\ log (snd (update_resources (serving pj_example rg_empty_group_name) pristine))
     = [].
Proof. split; [|split]; vm_compute; reflexivity. Qed.

(** C2, as amended: after [update_resources] has returned, a group with
    a non-empty name that no later group of the document repeats is listed
    under its name with exactly the records of its well-formed resources,
    in document order; and every entry of the table and of the three
    indices is the record of a well-formed resource of a named group, so
    that a malformed resource is in none of them. *)
Theorem C2_last_group_of_a_name_is_listed env w u w' root g :
  update_resources env w = (Ret u, w') ->
  resources (self w') = Some root ->
  last_named group_name_of (resource_groups root) g ->
  named_group g = true ->
  Dict.get (group_name_of g) (grouped_resinfo (self w'))
  = Some (map (record_of (group_name_of g)) (filter well_formed (resources_of g)))
  /\ forall r, indexed (self w') r ->
       from_well_formed root r
       /\ ResourceInfo.name r <> "" /\ ResourceInfo.fqdn r <> ""
       /\ ResourceInfo.service_ids r <> [].
Proof.
  intros H Hroot Hlast Hnamed.
  apply update_resources_indices in H.
  destruct H as (root' & _ & Hroot' & Ht & Hg & Hn & Hf).
  rewrite Hroot in Hroot'. injection Hroot' as <-.
  split.
  - rewrite Hg. unfold register_groups.
    apply (get_fill_last_named group_name_of group_records).
    now apply last_named_filter.
  - assert (Hfrom : forall r, indexed (self w') r -> from_well_formed root r).
    { intros r [Hr|[(k & l & Hk & Hr)|[(k & Hr)|(k & Hr)]]].
      + rewrite Ht in Hr. now apply in_document_records.
      + rewrite Hg in Hk. unfold register_groups in Hk.
        apply get_fill_inv in Hk. destruct Hk as [Hk|(g' & Hg' & _ & <-)];
          [discriminate|].
        apply filter_In in Hg'. destruct Hg' as [Hg' Hn'].
        unfold group_records in Hr. apply in_map_iff in Hr.
        destruct Hr as (e & <- & He). apply filter_In in He.
        destruct He as [He Hwf]. exists g', e. auto.
      + rewrite Hn in Hr. unfold index_by in Hr. apply get_fill_inv in Hr.
        destruct Hr as [Hr|(r' & Hr' & _ & ->)]; [discriminate|].
        now apply in_document_records.
      + rewrite Hf in Hr. unfold index_by in Hr. apply get_fill_inv in Hr.
        destruct Hr as [Hr|(r' & Hr' & _ & ->)]; [discriminate|].
        now apply in_document_records. }
    intros r Hr. split; [now apply Hfrom|].
    eapply from_well_formed_fields, Hfrom, Hr.
Qed.

(** C2 on the example document: [GroupA] lists the three well-formed
    resources; the resource without FQDN is gone. *)
Lemma C2_last_group_witness :
  Dict.get "GroupA"
    (grouped_resinfo (self (snd (update_resources (serving pj_example rg_example)
                                   pristine))))
  = Some [ ResourceInfo.make "GroupA" "ce1.example.net" "ce1.example.net" ["1"] [];
           ResourceInfo.make "GroupA" "ap1" "ap1.example.net" ["109"] [];
           ResourceInfo.make "GroupA" "ce2" "ce2.example.net" ["1"; "109"] [] ].
Proof.
  refine (proj1 (C2_last_group_of_a_name_is_listed
                   (serving pj_example rg_example) pristine tt
                   (snd (update_resources (serving pj_example rg_example) pristine))
                   rg_example
                   (resource_group "GroupA" [ce1; no_fqdn; ap1; ce2]) _ _ _ _)).
  - vm_compute; reflexivity.
  - vm_compute; reflexivity.
  - exists [], []. split; [vm_compute; reflexivity|intros x' []].
  - vm_compute; reflexivity.
Defined.

(** C2 as stated fails: of two groups named [GroupA] the first has a
    well-formed resource, yet after indexing [GroupA] lists nothing,
    because the second group, which has no resources, reset the entry. *)
Lemma C2_counterexample_group_name_twice :
  update_resources (serving pj_example rg_one_name_twice) pristine
  = (Ret tt, snd (update_resources (serving pj_example rg_one_name_twice) pristine))
  /\ well_formed ce1 = true
  /\ Dict.get "GroupA"
       (grouped_resinfo
          (self (snd (update_resources (serving pj_example rg_one_name_twice)
                        pristine))))
     = Some []
  /\ ~ every_named_group_listed rg_one_name_twice
         (self (snd (update_resources (serving pj_example rg_one_name_twice)
                       pristine))).
Proof.
  split; [vm_compute; reflexivity|].
  split; [vm_compute; reflexivity|].
  split; [vm_compute; reflexivity|].
  intros H. specialize (H (resource_group "GroupA" [ce1])).
  assert (Hin : In (resource_group "GroupA" [ce1]) (resource_groups rg_one_name_twice))
    by (left; reflexivity).
  specialize (H Hin eq_refl). vm_compute in H. discriminate.
Qed.

(** C6: after [update_resources] has returned, the keys of [by_name] are
    pairwise distinct and are exactly the names in the table, the keys of
    [by_fqdn] likewise for the FQDNs; the table holds the admitted records
    in document order; and the entry of a name (an FQDN) is the record of
    the last resource in the table with that name (FQDN). *)
Theorem C6_by_name_and_by_fqdn_last_seen_wins env w u w' :
  update_resources env w = (Ret u, w') ->
  let s := self w' in
  (exists root, resources s = Some root /\ resinfo_table s = document_records root)
  /\ NoDup (Dict.keys (resinfo_by_name s))
  /\ NoDup (Dict.keys (resinfo_by_fqdn s))
  /\ (forall k, In k (Dict.keys (resinfo_by_name s))
                <-> exists r, In r (resinfo_table s) /\ ResourceInfo.name r = k)
  /\ (forall k, In k (Dict.keys (resinfo_by_fqdn s))
                <-> exists r, In r (resinfo_table s) /\ ResourceInfo.fqdn r = k)
  /\ (forall r, last_named ResourceInfo.name (resinfo_table s) r ->
                Dict.get (ResourceInfo.name r) (resinfo_by_name s) = Some r)
  /\ (forall r, last_named ResourceInfo.fqdn (resinfo_table s) r ->
                Dict.get (ResourceInfo.fqdn r) (resinfo_by_fqdn s) = Some r).
Proof.
  intros H s. subst s. apply update_resources_indices in H.
  destruct H as (root & _ & Hroot & Ht & _ & Hn & Hf).
  rewrite Hn, Hf, Ht. unfold index_by.
  split; [exists root; auto|].
  split; [apply fill_NoDup; constructor|].
  split; [apply fill_NoDup; constructor|].
  split; [|split; [|split]].
  - intros k. rewrite in_keys_fill. simpl. intuition.
  - intros k. rewrite in_keys_fill. simpl. intuition.
  - intros r Hr.
    apply (get_fill_last_named ResourceInfo.name (fun r => r)). exact Hr.
  - intros r Hr.
    apply (get_fill_last_named ResourceInfo.fqdn (fun r => r)). exact Hr.
Qed.

(** C6 on a document with two resources of one name: one entry for the
    name, holding the second resource. *)
Lemma C6_last_seen_witness :
  Dict.keys (resinfo_by_name
               (self (snd (update_resources
                             (serving pj_example rg_duplicate_resource) pristine))))
  = ["ce1.example.net"]
  /\ Dict.get "ce1.example.net"
       (resinfo_by_name
          (self (snd (update_resources
                        (serving pj_example rg_duplicate_resource) pristine))))
     = Some (ResourceInfo.make "GroupB" "ce1.example.net" "other.example.net"
                               ["109"] []).
Proof.
  split; [vm_compute; reflexivity|].
  refine (proj1 (proj2 (proj2 (proj2 (proj2 (proj2
            (C6_by_name_and_by_fqdn_last_seen_wins
               (serving pj_example rg_duplicate_resource) pristine tt
               (snd (update_resources (serving pj_example rg_duplicate_resource)
                       pristine)) _))))))
            (ResourceInfo.make "GroupB" "ce1.example.net" "other.example.net"
                               ["109"] []) _).
  - vm_compute; reflexivity.
  - exists [ResourceInfo.make "GroupA" "ce1.example.net" "ce1.example.net" ["1"] []], [].
    split; [vm_compute; reflexivity|intros r' []].
Defined.

(** C7: rebuilding is idempotent and keeps nothing stale.  Running
    [update_resources] again on the object it left, with the same
    collaborators, ends the same way with the same table and indices; once
    a document is fetched, the outcome, the table and the indices do not
    depend on what the object held before; and when the call returns they
    are the ones the fetched document alone determines. *)
Theorem C7_rebuild_is_idempotent_and_fresh env :
  (forall w,
      let once := update_resources env w in
      let twice := update_resources env (snd once) in
      fst twice = fst once /\ indices (self (snd twice)) = indices (self (snd once)))
  /\ (forall w1 w2 root,
         _get_data env "/rgsummary/xml" w1 = (Ret root, w1) ->
         _get_data env "/rgsummary/xml" w2 = (Ret root, w2) ->
         fst (update_resources env w1) = fst (update_resources env w2)
         /\ indices (self (snd (update_resources env w1)))
            = indices (self (snd (update_resources env w2))))
  /\ (forall w u w',
         update_resources env w = (Ret u, w') ->
         exists root,
           _get_data env "/rgsummary/xml" w = (Ret root, w)
           /\ indices (self w')
              = (document_records root,
                 register_groups (resource_groups root) Dict.empty,
                 index_by ResourceInfo.name (document_records root) Dict.empty,
                 index_by ResourceInfo.fqdn (document_records root) Dict.empty)).
Proof.
  split; [|split].
  - intros w once twice. subst once twice.
    destruct (_get_data_cases env "/rgsummary/xml" w) as [[root H]|[e H]].
    + assert (H' : _get_data env "/rgsummary/xml" (snd (update_resources env w))
                   = (Ret root, snd (update_resources env w))).
      { pose proof (_get_data_base env "/rgsummary/xml"
                      (snd (update_resources env w)) w
                      (keeps_base_update_resources env w)) as Hb.
        rewrite H in Hb. simpl in Hb.
        destruct (_get_data env "/rgsummary/xml" (snd (update_resources env w)))
          as [o v] eqn:E.
        rewrite (_get_data_world _ _ _ _ _ E) in *. simpl in Hb. now subst. }
      destruct (update_resources_fresh env _ _ root H' H) as [Ho [_ Hi]]. auto.
    + rewrite (update_resources_failed _ _ _ H). simpl.
      rewrite (update_resources_failed _ _ _ H). auto.
  - intros w1 w2 root H1 H2.
    destruct (update_resources_fresh env _ _ root H1 H2) as [Ho [_ Hi]]. auto.
  - intros w u w' H. apply update_resources_indices in H.
    destruct H as (root & Hget & _ & Ht & Hg & Hn & Hf).
    exists root. split; [assumption|]. unfold indices. now rewrite Ht, Hg, Hn, Hf.
Qed.

(** The second run of C7 at work: an object that indexed a document with
    two groups of one name is rebuilt from the example document, and holds
    what a blank object holds after indexing the example document. *)
Lemma C7_rebuild_witness :
  _get_data (serving pj_example rg_example) "/rgsummary/xml"
            (loaded pj_example rg_one_name_twice)
  = (Ret rg_example, loaded pj_example rg_one_name_twice)
  /\ _get_data (serving pj_example rg_example) "/rgsummary/xml" pristine
     = (Ret rg_example, pristine)
  /\ indices (self (snd (update_resources (serving pj_example rg_example)
                           (loaded pj_example rg_one_name_twice))))
     = indices (self (snd (update_resources (serving pj_example rg_example)
                             pristine))).
Proof.
  split; [vm_compute; reflexivity|]. split; [vm_compute; reflexivity|].
  apply (proj1 (proj2 (C7_rebuild_is_idempotent_and_fresh
                         (serving pj_example rg_example)))
           (loaded pj_example rg_one_name_twice) pristine rg_example);
    vm_compute; reflexivity.
Defined.

(** ** Allocation joiner *)

(** C3, as amended: whenever the call returns, every entry of the output
    is, for a project element of that name, the list of the records of its
    allocation elements whose type, execute-group list and submit list are
    all non-empty, in document order; so every record of the output is the
    record of an allocation element with all three, and an allocation
    element that lacks one of the three leaves no record.  An allocation
    element with all three has its record in the output when the resource
    document has children and its project has a non-empty name that no
    later project repeats. *)
Theorem C3_incomplete_allocations_are_left_out env w out w' :
  get_project_resource_allocations env w = (Ret out, w') ->
  (forall n l,
      Dict.get n out = Some l ->
      exists eProjects p,
        projects (self w) = Some eProjects
        /\ In p (project_elements eProjects) /\ project_name_of p = n
        /\ l = map (allocation_of (self w))
                   (filter complete (allocation_elements p)))
  /\ (forall r,
        emitted out r ->
        exists eProjects p a,
          projects (self w) = Some eProjects
          /\ In p (project_elements eProjects) /\ In a (allocation_elements p)
          /\ allocation_type a <> "" /\ execute_group_refs a <> []
          /\ submit_refs a <> []
          /\ r = allocation_of (self w) a)
  /\ (forall eProjects eResources p,
        projects (self w) = Some eProjects ->
        resources (self w) = Some eResources ->
        ET.truthy eResources = true ->
        last_named project_name_of (project_elements eProjects) p ->
        named_project p = true ->
        Dict.get (project_name_of p) out
        = Some (map (allocation_of (self w))
                    (filter complete (allocation_elements p)))
        /\ forall a, In a (allocation_elements p) -> complete a = true ->
                     emitted out (allocation_of (self w) a)).
Proof.
  intros H. split; [|split].
  - intros n l Hn.
    destruct (join_entry_origin _ _ _ _ _ _ H Hn)
      as (eProjects & p & Hp & Hin & _ & Hname & ->).
    exists eProjects, p. auto.
  - intros r (n & l & Hn & Hr).
    destruct (join_entry_origin _ _ _ _ _ _ H Hn)
      as (eProjects & p & Hp & Hin & _ & _ & ->).
    unfold allocations_of in Hr. apply in_map_iff in Hr.
    destruct Hr as (a & <- & Ha). apply filter_In in Ha. destruct Ha as [Ha Hc].
    exists eProjects, p, a.
    assert (Hthree : allocation_type a <> "" /\ execute_group_refs a <> []
                     /\ submit_refs a <> []).
    { repeat split; intros E;
        assert (Hf : complete a = false) by (apply complete_false; auto);
        rewrite Hf in Hc; discriminate. }
    destruct Hthree as (H1 & H2 & H3). auto 10.
  - intros eProjects eResources p Hp Hr Tr Hlast Hnamed.
    destruct (join_last_project _ _ _ _ _ _ _ H Hp Hr Tr Hlast Hnamed) as [Hget _].
    split; [exact Hget|].
    intros a Ha Hc. eexists _, _. split; [exact Hget|].
    unfold allocations_of. apply in_map, filter_In. auto.
Qed.

(** C3 on the example: of the three allocation elements of [ProjA] the
    one without submit resources leaves no record, and every record of the
    output is the record of an allocation element with a type, execute
    groups and submit resources. *)
Lemma C3_incomplete_allocations_witness :
  (forall r,
      emitted (joined pj_example rg_example) r ->
      exists eProjects p a,
        projects (self (loaded pj_example rg_example)) = Some eProjects
        /\ In p (project_elements eProjects) /\ In a (allocation_elements p)
        /\ allocation_type a <> "" /\ execute_group_refs a <> []
        /\ submit_refs a <> []
        /\ r = allocation_of (self (loaded pj_example rg_example)) a)
  /\ Dict.get (project_name_of (project "ProjA" [hosted; no_submit; unknown_submit]))
       (joined pj_example rg_example)
     = Some (map (allocation_of (self (loaded pj_example rg_example)))
                 (filter complete
                    (allocation_elements
                       (project "ProjA" [hosted; no_submit; unknown_submit]))))
  /\ filter complete
       (allocation_elements (project "ProjA" [hosted; no_submit; unknown_submit]))
     = [hosted; unknown_submit].
Proof.
  pose proof (C3_incomplete_allocations_are_left_out
                (serving pj_example rg_example)
                (loaded pj_example rg_example)
                (joined pj_example rg_example) _
                loaded_example_returns) as (_ & Hrecords & Hlast).
  split; [exact Hrecords|]. split; [|vm_compute; reflexivity].
  refine (proj1 (Hlast pj_example rg_example
                   (project "ProjA" [hosted; no_submit; unknown_submit])
                   _ _ _ _ _)).
  - vm_compute; reflexivity.
  - vm_compute; reflexivity.
  - vm_compute; reflexivity.
  - exists [], []. split; [vm_compute; reflexivity|intros x' []].
  - vm_compute; reflexivity.
Defined.

(** C3 as stated fails in three ways, each by a guard of the code: a
    complete allocation is not in the output when its project has no name,
    when a later project has the same name, and when the root of the
    resource document has no children. *)
Lemma C3_counterexample_complete_allocation_not_emitted :
  (fst (get_project_resource_allocations (serving pj_nameless rg_example)
          (loaded pj_nameless rg_example)) = Ret []
   /\ ~ every_complete_allocation_emitted
          (self (loaded pj_nameless rg_example)) pj_nameless [])
  /\ (fst (get_project_resource_allocations (serving pj_one_name_twice rg_example)
             (loaded pj_one_name_twice rg_example)) = Ret [("ProjA", [])]
      /\ ~ every_complete_allocation_emitted
             (self (loaded pj_one_name_twice rg_example)) pj_one_name_twice
             [("ProjA", [])])
  /\ (fst (get_project_resource_allocations (serving pj_example rg_no_children)
             (loaded pj_example rg_no_children)) = Ret []
      /\ ~ every_complete_allocation_emitted
             (self (loaded pj_example rg_no_children)) pj_example []).
Proof.
  split; [|split]; (split; [vm_compute; reflexivity|]); intros H.
  - destruct (H (nameless_project [unknown_submit]) unknown_submit)
      as (n & l & Hget & _); try (vm_compute; auto; fail).
    discriminate.
  - destruct (H (project "ProjA" [unknown_submit]) unknown_submit)
      as (n & l & Hget & Hin); try (vm_compute; auto; fail).
    simpl in Hget. destruct (String.eqb n "ProjA"); [|discriminate].
    injection Hget as <-. destruct Hin.
  - destruct (H (project "ProjA" [hosted; no_submit; unknown_submit]) hosted)
      as (n & l & Hget & _); try (vm_compute; auto; fail).
    discriminate.
Qed.

(** C4, as amended: under the same conditions, the record of a complete
    allocation of such a project is in the entry, and its submit resources
    are the views of the references that resolve in [by_name], in document
    order; a reference that does not resolve contributes nothing, and when
    none resolves the record is there with no submit resources. *)
Theorem C4_unresolved_submit_references_are_dropped
    env w out w' eProjects eResources p a :
  get_project_resource_allocations env w = (Ret out, w') ->
  projects (self w) = Some eProjects ->
  resources (self w) = Some eResources ->
  ET.truthy eResources = true ->
  last_named project_name_of (project_elements eProjects) p ->
  named_project p = true ->
  In a (allocation_elements p) ->
  complete a = true ->
  exists l r,
    Dict.get (project_name_of p) out = Some l /\ In r l
    /\ type_ r = allocation_type a
    /\ submit_resources r = flat_map (resolve_submit (self w)) (submit_refs a)
    /\ (forall e,
          resolve_submit (self w) e
          = match Dict.get (element_text (Some e)) (resinfo_by_name (self w)) with
            | Some resinfo => [submit_view resinfo]
            | None => []
            end)
    /\ (unresolvable (self w) a -> submit_resources r = []).
Proof.
  intros H Hp Hr Tr Hlast Hnamed Ha Hc.
  destruct (join_last_project _ _ _ _ _ _ _ H Hp Hr Tr Hlast Hnamed) as [Hget _].
  exists (allocations_of (self w) p), (allocation_of (self w) a).
  split; [exact Hget|].
  split; [unfold allocations_of; apply in_map, filter_In; auto|].
  split; [reflexivity|]. split; [reflexivity|]. split; [reflexivity|].
  unfold unresolvable. cbn [allocation_of submit_resources].
  generalize (submit_refs a).
  intros refs Hun. induction refs as [|e refs IH]; [reflexivity|].
  cbn [flat_map]. unfold resolve_submit at 1.
  rewrite (Hun e (or_introl eq_refl)).
  apply IH. intros e' He'. apply Hun. right. exact He'.
Qed.

(** C4 on the example: the allocation whose two submit resources are
    unknown is in the entry of [ProjA], with no submit resources. *)
Lemma C4_unresolved_submit_witness :
  exists l r,
    Dict.get (project_name_of (project "ProjA" [hosted; no_submit; unknown_submit]))
             (joined pj_example rg_example) = Some l
    /\ In r l
    /\ type_ r = "Other"
    /\ submit_resources r = [].
Proof.
  destruct (C4_unresolved_submit_references_are_dropped
              (serving pj_example rg_example)
              (loaded pj_example rg_example)
              (joined pj_example rg_example) _
              pj_example rg_example
              (project "ProjA" [hosted; no_submit; unknown_submit])
              unknown_submit
              loaded_example_returns
              ltac:(vm_compute; reflexivity)
              ltac:(vm_compute; reflexivity)
              ltac:(vm_compute; reflexivity)
              (ex_intro _ [] (ex_intro _ []
                 (conj eq_refl (fun x' (f : In x' []) => match f with end))))
              ltac:(vm_compute; reflexivity)
              ltac:(vm_compute; auto)
              ltac:(vm_compute; reflexivity))
    as (l & r & Hget & Hin & Hty & _ & _ & Hnone).
  exists l, r. split; [exact Hget|]. split; [exact Hin|].
  split; [exact Hty|]. apply Hnone, unknown_submit_unresolvable.
Defined.

(** C4 as stated fails in the same three ways: a complete allocation
    with only unknown submit resources is not in the output when its
    project has no name, when a later project has the same name, and when
    the root of the resource document has no children. *)
Lemma C4_counterexample_unresolvable_allocation_not_kept :
  (fst (get_project_resource_allocations (serving pj_nameless rg_example)
          (loaded pj_nameless rg_example)) = Ret []
   /\ ~ every_unresolvable_allocation_kept
          (self (loaded pj_nameless rg_example)) pj_nameless [])
  /\ (fst (get_project_resource_allocations (serving pj_one_name_twice rg_example)
             (loaded pj_one_name_twice rg_example)) = Ret [("ProjA", [])]
      /\ ~ every_unresolvable_allocation_kept
             (self (loaded pj_one_name_twice rg_example)) pj_one_name_twice
             [("ProjA", [])])
  /\ (fst (get_project_resource_allocations (serving pj_example rg_no_children)
             (loaded pj_example rg_no_children)) = Ret []
      /\ ~ every_unresolvable_allocation_kept
             (self (loaded pj_example rg_no_children)) pj_example []).
Proof.
  split; [|split]; (split; [vm_compute; reflexivity|]); intros H.
  - destruct (H (nameless_project [unknown_submit]) unknown_submit)
      as (r & (n & l & Hget & _) & _);
      try (vm_compute; auto; fail); [apply unknown_submit_unresolvable|].
    discriminate.
  - destruct (H (project "ProjA" [unknown_submit]) unknown_submit)
      as (r & (n & l & Hget & Hin) & _);
      try (vm_compute; auto; fail); [apply unknown_submit_unresolvable|].
    simpl in Hget. destruct (String.eqb n "ProjA"); [|discriminate].
    injection Hget as <-. destruct Hin.
  - destruct (H (project "ProjA" [hosted; no_submit; unknown_submit]) unknown_submit)
      as (r & (n & l & Hget & _) & _); try (vm_compute; auto; fail).
    discriminate.
Qed.

(** C5: every execute-resource-group entry of the output names a group
    of [by_group], and its [ces] are the [{fqdn, name}] views of exactly
    those resources of the group whose service ids contain ["1"], in the
    group's order; a resource without service id ["1"], such as a
    Schedd-only one, is not among the resources viewed. *)
Theorem C5_ces_are_the_compute_entrypoints_of_the_group env w out w' n l a g :
  get_project_resource_allocations env w = (Ret out, w') ->
  Dict.get n out = Some l ->
  In a l ->
  In g (execute_resource_groups a) ->
  exists resinfo_list,
    Dict.get (erg_group_name g) (grouped_resinfo (self w)) = Some resinfo_list
    /\ ces g = map ce_view (filter ResourceInfo.is_ce resinfo_list)
    /\ (forall x, In x (filter ResourceInfo.is_ce resinfo_list)
                  <-> In x resinfo_list /\ In "1" (ResourceInfo.service_ids x))
    /\ (forall x, In x resinfo_list ->
                  In "109" (ResourceInfo.service_ids x) ->
                  ~ In "1" (ResourceInfo.service_ids x) ->
                  ~ In x (filter ResourceInfo.is_ce resinfo_list)).
Proof.
  intros H Hn Ha Hg.
  apply get_project_resource_allocations_cases in H.
  destruct H as [->|(eProjects & ->)]; [discriminate|].
  unfold join_projects in Hn. apply get_fill_inv in Hn.
  destruct Hn as [Hn|(p & _ & _ & <-)]; [discriminate|].
  unfold allocations_of in Ha. apply in_map_iff in Ha.
  destruct Ha as (e & <- & _). simpl in Hg.
  apply in_flat_map in Hg. destruct Hg as (ref & _ & Hg).
  unfold resolve_group in Hg.
  destruct (_ && _); [|destruct Hg].
  destruct (Dict.get _ _) as [[|x resinfo_list]|] eqn:Eget;
    [destruct Hg| |destruct Hg].
  destruct Hg as [<-|[]].
  exists (x :: resinfo_list). simpl erg_group_name. simpl ces.
  split; [exact Eget|]. split; [reflexivity|]. split.
  - intros y. rewrite filter_In, is_ce_iff. reflexivity.
  - intros y _ _ Hno Hin. apply filter_In in Hin. destruct Hin as [_ Hin].
    apply is_ce_iff in Hin. contradiction.
Qed.

(** C5 on the example: the execute group [GroupA] of the first allocation
    of [ProjA] has the two compute entrypoints of the group; the Schedd-only
    resource [ap1] is not viewed. *)
Lemma C5_ces_witness :
  exists out l a g resinfo_list,
    Dict.get "ProjA" out = Some l /\ In a l /\ In g (execute_resource_groups a)
    /\ Dict.get (erg_group_name g)
         (grouped_resinfo (self (loaded pj_example rg_example)))
       = Some resinfo_list
    /\ ces g = map ce_view (filter ResourceInfo.is_ce resinfo_list)
    /\ ces g = [ {| ce_fqdn := "ce1.example.net"; ce_name := "ce1.example.net" |};
                 {| ce_fqdn := "ce2.example.net"; ce_name := "ce2" |} ].
Proof.
  pose (g := {| ces := [ {| ce_fqdn := "ce1.example.net";
                            ce_name := "ce1.example.net" |};
                         {| ce_fqdn := "ce2.example.net"; ce_name := "ce2" |} ];
                erg_group_name := "GroupA";
                local_allocation_id := "1" |}).
  pose (a := {| type_ := "Hosted Compute";
                submit_resources :=
                  [ {| sr_fqdn := "ce1.example.net"; sr_group_name := "GroupA";
                       sr_name := "ce1.example.net" |} ];
                execute_resource_groups := [g] |}).
  pose (l := map (allocation_of (self (loaded pj_example rg_example)))
                 [hosted; unknown_submit]).
  assert (Hl : Dict.get "ProjA" (joined pj_example rg_example) = Some l)
    by (vm_compute; reflexivity).
  assert (Ha : In a l) by (vm_compute; auto).
  assert (Hg : In g (execute_resource_groups a)) by (left; reflexivity).
  destruct (C5_ces_are_the_compute_entrypoints_of_the_group
              (serving pj_example rg_example) (loaded pj_example rg_example)
              (joined pj_example rg_example) _ "ProjA" l a g
              loaded_example_returns Hl Ha Hg)
    as (resinfo_list & Hget & Hces & _).
  exists (joined pj_example rg_example), l, a, g, resinfo_list.
  repeat split; assumption || reflexivity.
Defined.

(** C9, as amended: when the resource document has children and the
    call returns, two projects of one non-empty name, the second being the
    last of that name, leave a single entry for the name (the keys of the
    output are pairwise distinct), and it holds the records of the second
    project's allocations only. *)
Theorem C9_later_project_replaces_earlier
    env w out w' eProjects eResources ps1 p1 ps2 p2 ps3 :
  get_project_resource_allocations env w = (Ret out, w') ->
  projects (self w) = Some eProjects ->
  resources (self w) = Some eResources ->
  ET.truthy eResources = true ->
  project_elements eProjects = ps1 ++ p1 :: ps2 ++ p2 :: ps3 ->
  named_project p2 = true ->
  project_name_of p1 = project_name_of p2 ->
  (forall p, In p ps3 -> project_name_of p <> project_name_of p2) ->
  NoDup (Dict.keys out)
  /\ Dict.get (project_name_of p1) out = Some (allocations_of (self w) p2)
  /\ Dict.get (project_name_of p2) out
     = Some (map (allocation_of (self w)) (filter complete (allocation_elements p2))).
Proof.
  intros H Hp Hr Tr Hps Hnamed Hname Hlater.
  assert (Hlast : last_named project_name_of (project_elements eProjects) p2).
  { exists (ps1 ++ p1 :: ps2), ps3. split; [|assumption].
    rewrite Hps, <- app_assoc. reflexivity. }
  destruct (join_last_project _ _ _ _ _ _ _ H Hp Hr Tr Hlast Hnamed) as [Hget Hnd].
  rewrite Hname. auto.
Qed.

(** C9 on two projects named [ProjA], each with one allocation: the entry
    holds the second project's allocation only. *)
Lemma C9_later_project_witness :
  Dict.keys (joined pj_both_allocated rg_example) = ["ProjA"]
  /\ Dict.get (project_name_of (project "ProjA" [hosted]))
       (joined pj_both_allocated rg_example)
     = Some (map (allocation_of (self (loaded pj_both_allocated rg_example)))
                 (filter complete (allocation_elements (project "ProjA" [hosted])))).
Proof.
  split; [vm_compute; reflexivity|].
  refine (proj2 (proj2 (C9_later_project_replaces_earlier
                   (serving pj_both_allocated rg_example)
                   (loaded pj_both_allocated rg_example)
                   (joined pj_both_allocated rg_example) _
                   pj_both_allocated rg_example
                   [] (project "ProjA" [unknown_submit]) []
                   (project "ProjA" [hosted]) []
                   loaded_both_allocated_returns _ _ _ _ _ _ _))).
  - vm_compute; reflexivity.
  - vm_compute; reflexivity.
  - vm_compute; reflexivity.
  - vm_compute; reflexivity.
  - vm_compute; reflexivity.
  - vm_compute; reflexivity.
  - intros p [].
Defined.

(** C9 as stated fails when the root of the resource document has no
    children: the project document has two projects named [ProjA], and the
    output has no entry at all. *)
Lemma C9_counterexample_no_entry_without_resources :
  fst (get_project_resource_allocations (serving pj_both_allocated rg_no_children)
         (loaded pj_both_allocated rg_no_children)) = Ret []
  /\ ~ later_project_wins (self (loaded pj_both_allocated rg_no_children))
         pj_both_allocated [].
Proof.
  split; [vm_compute; reflexivity|]. intros H.
  specialize (H [] (project "ProjA" [unknown_submit]) []
                (project "ProjA" [hosted]) []).
  assert (Hget : Dict.get (project_name_of (project "ProjA" [hosted]))
                   (@nil (string * list Allocation))
                 = Some (allocations_of
                           (self (loaded pj_both_allocated rg_no_children))
                           (project "ProjA" [hosted]))).
  { apply H.
    - vm_compute; reflexivity.
    - vm_compute; reflexivity.
    - vm_compute; reflexivity.
    - intros p []. }
  discriminate.
Qed.

(** C10: when the root of either loaded document has no child element,
    [get_project_resource_allocations] returns the empty dictionary and
    logs nothing, exactly as it does when a document is not loaded. *)
Theorem C10_childless_root_gives_empty_mapping env w eProjects eResources :
  projects (self w) = Some eProjects ->
  resources (self w) = Some eResources ->
  ET.children eProjects = [] \/ ET.children eResources = [] ->
  get_project_resource_allocations env w = (Ret Dict.empty, w)
  /\ forall w0,
       projects (self w0) = None \/ resources (self w0) = None ->
       get_project_resource_allocations env w0 = (Ret Dict.empty, w0).
Proof.
  intros Hp Hr Hc. split.
  - unfold get_project_resource_allocations, bind, gets. simpl.
    rewrite Hp, Hr. unfold ET.truthy.
    destruct Hc as [-> | ->]; simpl.
    + reflexivity.
    + destruct (ET.children eProjects); reflexivity.
  - intros w0 H0.
    unfold get_project_resource_allocations, bind, gets. simpl.
    destruct H0 as [-> | ->]; [reflexivity|].
    destruct (projects (self w0)); reflexivity.
Qed.

(** C10 on an object whose project document is [<Projects/>] while the
    example resource document is indexed. *)
Lemma C10_childless_root_witness :
  resinfo_table (self (loaded (node "Projects" []) rg_example)) <> []
  /\ get_project_resource_allocations (serving (node "Projects" []) rg_example)
       (loaded (node "Projects" []) rg_example)
     = (Ret Dict.empty, loaded (node "Projects" []) rg_example).
Proof.
  split; [vm_compute; discriminate|].
  refine (proj1 (C10_childless_root_gives_empty_mapping
                   (serving (node "Projects" []) rg_example)
                   (loaded (node "Projects" []) rg_example)
                   (node "Projects" []) rg_example _ _ _)).
  - vm_compute; reflexivity.
  - vm_compute; reflexivity.
  - left. reflexivity.
Defined.

(** * Further properties *)

(** ** Clamping and the log level *)

(** X1: [between] clamps: the result is never below [minimum]; with
    [minimum <= maximum] it is never above [maximum], it is [value] when
    [value] lies between the bounds, and the bound that [value] passes
    otherwise. *)
Theorem X1_between_clamps (value minimum maximum : Z) :
  (minimum <= between value minimum maximum)%Z
  /\ ((minimum <= maximum)%Z ->
      (between value minimum maximum <= maximum)%Z
      /\ ((minimum <= value <= maximum)%Z -> between value minimum maximum = value)
      /\ ((value < minimum)%Z -> between value minimum maximum = minimum)
      /\ ((maximum < value)%Z -> between value minimum maximum = maximum)).
Proof. unfold between. lia. Qed.

Lemma X1_between_witness :
  (10 <= 50)%Z /\ (between 70 10 50 <= 50)%Z /\ between 70 10 50 = 50%Z.
Proof.
  split; [lia|].
  destruct (X1_between_clamps 70 10 50) as [_ H].
  destruct (H ltac:(lia)) as (Hle & _ & _ & Hmax).
  split; [exact Hle|]. apply Hmax. lia.
Defined.

(** X2: for any counts of [-q] and [-v], the level [main] sets lies
    between [logging.DEBUG] and [logging.CRITICAL]; it is
    [logging.WARNING] when the counts are equal, moves by ten per flag,
    and stops at [DEBUG] from two more [-v] and at [CRITICAL] from two more
    [-q]. *)
Theorem X2_main_log_level_is_clamped (quiet verbose : Z) :
  (logging_DEBUG <= main_log_level quiet verbose <= logging_CRITICAL)%Z
  /\ (quiet = verbose -> main_log_level quiet verbose = logging_WARNING)
  /\ ((-2 <= quiet - verbose <= 2)%Z ->
      main_log_level quiet verbose
      = (logging_WARNING + 10 * (quiet - verbose))%Z)
  /\ ((verbose - quiet >= 2)%Z -> main_log_level quiet verbose = logging_DEBUG)
  /\ ((quiet - verbose >= 2)%Z -> main_log_level quiet verbose = logging_CRITICAL).
Proof.
  unfold main_log_level, between, logging_DEBUG, logging_WARNING, logging_CRITICAL.
  lia.
Qed.

Lemma X2_main_log_level_witness :
  (3 - 0 >= 2)%Z /\ main_log_level 0 3 = 10%Z.
Proof.
  split; [lia|].
  apply (proj1 (proj2 (proj2 (proj2 (X2_main_log_level_is_clamped 0 3))))). lia.
Defined.

(** ** Trimmed texts *)

Lemma lstrip_head s :
  PyStr.lstrip s = ""
  \/ exists c t, PyStr.lstrip s = String c t /\ PyStr.isspace c = false.
Proof.
  induction s as [|c s IH]; simpl; [now left|].
  destruct (PyStr.isspace c) eqn:E; [exact IH|].
  right. exists c, s. auto.
Qed.

Lemma rstrip_idem s : PyStr.rstrip (PyStr.rstrip s) = PyStr.rstrip s.
Proof.
  induction s as [|c s IH]; simpl; [reflexivity|].
  destruct (PyStr.rstrip s) as [|d t] eqn:E.
  - destruct (PyStr.isspace c) eqn:Ec; simpl; [reflexivity|]. now rewrite Ec.
  - change (PyStr.rstrip (String c (String d t)))
      with (match PyStr.rstrip (String d t) with
            | "" => if PyStr.isspace c then "" else String c ""
            | String x y => String c (String x y)
            end).
    now rewrite IH.
Qed.

Lemma rstrip_keeps_head c t :
  PyStr.isspace c = false -> exists t', PyStr.rstrip (String c t) = String c t'.
Proof.
  intros Ec. simpl. destruct (PyStr.rstrip t) as [|d t'].
  - rewrite Ec. eauto.
  - eauto.
Qed.




Lemma strip_trimmed s : trimmed (PyStr.strip s).
Proof.
  unfold trimmed, PyStr.strip. split; [|apply rstrip_idem].
  destruct (lstrip_head s) as [->|(c & t & -> & Ec)]; [reflexivity|].
  destruct (rstrip_keeps_head c t Ec) as (t' & ->). simpl. now rewrite Ec.
Qed.




(** X4: when [findall_nonempty] returns, its strings are the trimmed
    texts of the matching elements, in document order, with the empty ones
    left out: each is non-empty and trimmed, and there are at most as many
    as matching elements.  It raises [AttributeError] as soon as one
    matching element has no text. *)
Theorem X4_findall_nonempty_texts elt path :
  (forall ss, findall_nonempty elt path = Ret ss ->
     ss = filter PyStr.truthy
            (map (fun e => element_text (Some e)) (ET.findall elt path))
     /\ Forall (fun s => s <> "" /\ trimmed s) ss
     /\ length ss <= length (ET.findall elt path))
  /\ ((exists e, In e (ET.findall elt path) /\ ET.text e = None) ->
      findall_nonempty elt path = Raise AttributeError).
Proof.
  split.
  - intros ss H. apply findall_nonempty_Ret in H. subst ss.
    unfold nonempty_texts. split; [reflexivity|]. split.
    + apply Forall_forall. intros s Hs. apply filter_In in Hs.
      destruct Hs as [Hin Ht]. split; [intros ->; discriminate|].
      apply in_map_iff in Hin. destruct Hin as (e & <- & _).
      unfold element_text. destruct (ET.text e); [apply strip_trimmed|].
      split; reflexivity.
    + rewrite <- (length_map (fun e => element_text (Some e)) (ET.findall elt path)).
      apply filter_length_le.
  - intros (e & He & Ht). rewrite findall_nonempty_have_text.
    unfold all_have_text.
    destruct (forallb _ _) eqn:E; [|reflexivity].
    rewrite forallb_forall in E. specialize (E e He). simpl in E.
    rewrite Ht in E. discriminate.
Qed.

Lemma X4_findall_nonempty_witness :
  findall_nonempty ce2 ["Services"; "Service"; "ID"] = Ret ["1"; "109"]
  /\ Forall (fun s => s <> "" /\ trimmed s) ["1"; "109"].
Proof.
  split; [reflexivity|].
  apply (proj1 (X4_findall_nonempty_texts ce2 ["Services"; "Service"; "ID"])
           ["1"; "109"] eq_refl).
Defined.

(** ** What a call leaves alone *)

Lemma keeps_bind {A B C} (field : TopologyData -> C) (m : M A) (f : A -> M B) :
  keeps field m -> (forall a, keeps field (f a)) -> keeps field (bind m f).
Proof.
  intros Hm Hf w. unfold bind. specialize (Hm w).
  destruct (m w) as [[a|e] v]; simpl in *; [|assumption].
  now rewrite Hf.
Qed.

Lemma keeps_for_each {X B C} (field : TopologyData -> C) (body : B -> X -> M B) xs :
  (forall acc x, keeps field (body acc x)) ->
  forall acc, keeps field (for_each xs acc body).
Proof.
  intros Hbody. induction xs as [|x xs IH]; intros acc; simpl.
  - intros w. reflexivity.
  - apply keeps_bind; [apply Hbody|intros a; apply IH].
Qed.

Lemma keeps_get_data {C} (field : TopologyData -> C) env endpoint :
  keeps field (_get_data env endpoint).
Proof.
  intros w. destruct (_get_data env endpoint w) as [o v] eqn:E.
  now rewrite (_get_data_world _ _ _ _ _ E).
Qed.

(** Binds of reads, pure steps, warnings and returns keep the object. *)
Ltac keeps_object :=
  repeat first
    [ progress (intro; reflexivity)
    | apply keeps_bind; [|intros ?]
    | apply keeps_for_each; intros ? ?
    | match goal with
      | |- keeps _ (if ?b then _ else _) => destruct b
      | |- keeps _ (match ?x with _ => _ end) => destruct x
      | |- keeps _ (let '(_, _) := ?p in _) => destruct p
      end ].

Lemma keeps_object_join env :
  keeps (fun s => s) (get_project_resource_allocations env).
Proof.
  unfold get_project_resource_allocations, project_body, project_allocation,
    allocation_check, allocation_submit_resource, allocation_execute_group.
  keeps_object.
Qed.

Lemma keeps_projects_update_resources env : keeps projects (update_resources env).
Proof.
  unfold update_resources.
  apply keeps_bind; [apply keeps_get_data|intros root].
  unfold update_resources_group, update_resources_resource, grouped_resinfo_append.
  keeps_object.
Qed.

Lemma _get_data_Ret env endpoint w root w' :
  _get_data env endpoint w = (Ret root, w') ->
  exists b,
    urlopen_read env (topology_base (self w) ++ endpoint)%string = inr b
    /\ b <> [] /\ ET_fromstring env b = inr root.
Proof.
  unfold _get_data, bind, gets, raise, ret. simpl.
  destruct (urlopen_read env _) as [[]|[|b bs]]; try discriminate.
  destruct (ET_fromstring env (b :: bs)) as [[]|el] eqn:E; try discriminate.
  intros H. injection H as <- _. exists (b :: bs). repeat split; [discriminate|exact E].
Qed.

Lemma update_projects_cases env w :
  (exists root,
      _get_data env "/miscproject/xml" w = (Ret root, w)
      /\ update_projects env w
         = (Ret tt, {| self := set_projects (Some root) (self w); log := log w |}))
  \/ (exists e,
         _get_data env "/miscproject/xml" w = (Raise e, w)
         /\ update_projects env w = (Raise e, w)).
Proof.
  unfold update_projects, bind.
  destruct (_get_data_cases env "/miscproject/xml" w) as [[root H]|[e H]];
    rewrite H; [left|right]; eauto.
Qed.

(** The object the constructor starts from. *)
Lemma __init___start env b w :
  __init__ env b w
  = (update_projects env ;; update_resources env)
      {| self :=
           {| topology_base :=
                if negb (PyStr.contains "://" b) then ("https://" ++ b)%string else b;
              resinfo_table := [];
              grouped_resinfo := Dict.empty;
              resinfo_by_name := Dict.empty;
              resinfo_by_fqdn := Dict.empty;
              projects := None;
              resources := None |};
         log := log w |}.
Proof. reflexivity. Qed.

Lemma contains_scheme_prefixed b :
  PyStr.contains "://" ("https://" ++ b)%string = true.
Proof. destruct b; vm_compute; reflexivity. Qed.

(** ** The constructor *)

(** X5: however the constructor ends, the base URL of the object is
    the argument when the argument contains ["://"], and the argument with
    ["https://"] put before it otherwise; so it always contains ["://"]. *)
Theorem X5_init_base_url_has_scheme env b w :
  let base := topology_base (self (snd (__init__ env b w))) in
  base = (if PyStr.contains "://" b then b else ("https://" ++ b)%string)
  /\ PyStr.contains "://" base = true.
Proof.
  intros base. subst base. rewrite __init___start.
  match goal with
  | |- context [(_ ;; _) ?w0] => set (w1 := w0)
  end.
  assert (Hbase : topology_base (self (snd ((update_projects env ;;
                                              update_resources env) w1)))
                  = topology_base (self w1)).
  { apply (keeps_bind topology_base).
    - unfold update_projects.
      apply keeps_bind; [apply keeps_get_data|intros root; intros v; reflexivity].
    - intros _. exact (keeps_base_update_resources env). }
  rewrite Hbase. subst w1. simpl.
  destruct (PyStr.contains "://" b) eqn:E; simpl; split; auto.
  apply contains_scheme_prefixed.
Qed.

(** X6: the constructor fetches the project document first.  When that
    transport fails it raises the [DataError] of [/miscproject/xml] and
    leaves an object without documents and with empty tables.  When the
    constructor returns, the object holds the documents parsed from the
    bodies of [base/miscproject/xml] and [base/rgsummary/xml], and its table
    holds the records of the resource document. *)
Theorem X6_init_loads_both_documents env b w :
  let base := if PyStr.contains "://" b then b else ("https://" ++ b)%string in
  (fetch_failed env (base ++ "/miscproject/xml") ->
   __init__ env b w
   = (Raise (DataError "Topology query to /miscproject/xml failed"),
      {| self := {| topology_base := base;
                    resinfo_table := [];
                    grouped_resinfo := Dict.empty;
                    resinfo_by_name := Dict.empty;
                    resinfo_by_fqdn := Dict.empty;
                    projects := None;
                    resources := None |};
         log := log w |}))
  /\ (forall u w',
        __init__ env b w = (Ret u, w') ->
        exists bp eProjects br eResources,
          urlopen_read env (base ++ "/miscproject/xml") = inr bp
          /\ ET_fromstring env bp = inr eProjects
          /\ urlopen_read env (base ++ "/rgsummary/xml") = inr br
          /\ ET_fromstring env br = inr eResources
          /\ projects (self w') = Some eProjects
          /\ resources (self w') = Some eResources
          /\ resinfo_table (self w') = document_records eResources).
Proof.
  intros base.
  assert (Ebase : (if negb (PyStr.contains "://" b) then ("https://" ++ b)%string else b)
                  = base).
  { subst base. now destruct (PyStr.contains "://" b). }
  rewrite __init___start, Ebase.
  match goal with
  | |- context [(_ ;; _) ?w0] => set (w1 := w0)
  end.
  split.
  - intros Hfail. unfold fetch_failed in Hfail.
    unfold bind, update_projects, bind, _get_data, bind, gets, raise. simpl.
    rewrite Hfail. reflexivity.
  - intros u w' H. apply bind_Ret in H. destruct H as ([] & w2 & Hp & Hr).
    destruct (update_projects_cases env w1) as [(eProjects & Hget & Hrun)|(e & _ & Hrun)];
      rewrite Hrun in Hp; [|discriminate].
    injection Hp as <-.
    apply _get_data_Ret in Hget. destruct Hget as (bp & Hbp & _ & Hpp).
    pose proof (keeps_projects_update_resources env
                  {| self := set_projects (Some eProjects) (self w1); log := log w1 |})
      as Hkeep.
    subst w1. cbn [self log] in Hkeep, Hr. rewrite Hr in Hkeep. simpl in Hkeep.
    apply update_resources_indices in Hr.
    destruct Hr as (eResources & Hget & Hres & Ht & _).
    apply _get_data_Ret in Hget. destruct Hget as (br & Hbr & _ & Hpr).
    exists bp, eProjects, br, eResources. simpl in Hbp, Hbr. auto 10.
Qed.

(** X6 on a transport that is down, and on one that delivers the example
    documents. *)
Lemma X6_init_witness :
  (fetch_failed unreachable (TOPOLOGY ++ "/miscproject/xml")
   /\ fst (__init__ unreachable TOPOLOGY pristine)
      = Raise (DataError "Topology query to /miscproject/xml failed"))
  /\ exists bp eProjects br eResources,
       urlopen_read (serving pj_example rg_example) (TOPOLOGY ++ "/miscproject/xml")
       = inr bp
       /\ ET_fromstring (serving pj_example rg_example) bp = inr eProjects
       /\ urlopen_read (serving pj_example rg_example) (TOPOLOGY ++ "/rgsummary/xml")
          = inr br
       /\ ET_fromstring (serving pj_example rg_example) br = inr eResources
       /\ projects (self (loaded pj_example rg_example)) = Some eProjects
       /\ resources (self (loaded pj_example rg_example)) = Some eResources
       /\ resinfo_table (self (loaded pj_example rg_example))
          = document_records eResources.
Proof.
  split.
  - split; [reflexivity|].
    rewrite (proj1 (X6_init_loads_both_documents unreachable TOPOLOGY pristine)
               eq_refl).
    reflexivity.
  - apply (proj2 (X6_init_loads_both_documents
                    (serving pj_example rg_example) TOPOLOGY pristine)
             tt (loaded pj_example rg_example)).
    vm_compute; reflexivity.
Defined.

(** ** Refreshing a document *)

Lemma _get_data_Raise env endpoint w e w' :
  _get_data env endpoint w = (Raise e, w') ->
  from_the_fetch env (topology_base (self w) ++ endpoint)%string e.
Proof.
  rewrite _get_data_run. unfold from_the_fetch.
  destruct (urlopen_read env _) as [err|[|b bs]] eqn:Eu.
  - destruct err; intros H; injection H as <- _; eauto;
      right; eexists; (split; [reflexivity|]); left; (split; [reflexivity|]);
      discriminate.
  - intros H; injection H as <- _; eauto.
  - destruct (ET_fromstring env (b :: bs)) as [err|el] eqn:Ep; [|discriminate].
    destruct err; intros H; injection H as <- _; eauto;
      right; eexists; (split; [reflexivity|]); right; exists (b :: bs);
      repeat split; try assumption; discriminate.
Qed.

(** X7: [update_projects] either returns, having replaced the project
    document by the fetched one and nothing else, or raises what the fetch
    raises, a [DataError] or an uncaught exception of a collaborator, and
    leaves the object and the log as they were. *)
Theorem X7_update_projects_replaces_only_projects env w :
  (exists root,
      _get_data env "/miscproject/xml" w = (Ret root, w)
      /\ update_projects env w
         = (Ret tt,
            {| self := {| topology_base := topology_base (self w);
                          resinfo_table := resinfo_table (self w);
                          grouped_resinfo := grouped_resinfo (self w);
                          resinfo_by_name := resinfo_by_name (self w);
                          resinfo_by_fqdn := resinfo_by_fqdn (self w);
                          projects := Some root;
                          resources := resources (self w) |};
               log := log w |}))
  \/ (exists e,
        _get_data env "/miscproject/xml" w = (Raise e, w)
        /\ update_projects env w = (Raise e, w)
        /\ from_the_fetch env (topology_base (self w) ++ "/miscproject/xml") e).
Proof.
  destruct (update_projects_cases env w) as [(root & Hget & Hrun)|(e & Hget & Hrun)].
  - left. exists root. split; [exact Hget|exact Hrun].
  - right. exists e. split; [exact Hget|]. split; [exact Hrun|].
    eapply _get_data_Raise, Hget.
Qed.

(** X8: [update_resources] raises what the fetch raises, a [DataError]
    or an uncaught exception of a collaborator, or else [AttributeError];
    it never raises [KeyError].  When the exception is of the fetch, the
    object and the log are as they were, so the previous document, table
    and indices stay in place. *)
Theorem X8_update_resources_exceptions env w e :
  fst (update_resources env w) = Raise e ->
  (forall k, e <> KeyError k)
  /\ ((_get_data env "/rgsummary/xml" w = (Raise e, w)
       /\ update_resources env w = (Raise e, w)
       /\ from_the_fetch env (topology_base (self w) ++ "/rgsummary/xml") e)
      \/ (e = AttributeError
          /\ exists root,
               _get_data env "/rgsummary/xml" w = (Ret root, w)
               /\ readable_resources root = false
               /\ resources (self (snd (update_resources env w))) = Some root)).
Proof.
  intros H.
  assert (Hcases :
      (_get_data env "/rgsummary/xml" w = (Raise e, w)
       /\ update_resources env w = (Raise e, w)
       /\ from_the_fetch env (topology_base (self w) ++ "/rgsummary/xml") e)
      \/ (e = AttributeError
          /\ exists root,
               _get_data env "/rgsummary/xml" w = (Ret root, w)
               /\ readable_resources root = false
               /\ resources (self (snd (update_resources env w))) = Some root));
    [|split; [|exact Hcases];
      intros k ->;
      destruct Hcases as [(_ & _ & [(msg & E)|(err & E & _)])|(E & _)];
      discriminate].
  destruct (_get_data_cases env "/rgsummary/xml" w) as [[root Hget]|[e' Hget]].
  - right. pose proof (update_resources_decided env w root Hget) as Hdec.
    unfold decided in Hdec.
    destruct (readable_resources root) eqn:Er.
    + destruct Hdec as (a & w' & Hrun & _). rewrite Hrun in H. discriminate.
    + destruct Hdec as (w' & Hrun). rewrite Hrun in H. simpl in H.
      injection H as <-. split; [reflexivity|]. exists root.
      split; [exact Hget|]. split; [exact Er|].
      rewrite (update_resources_fetched _ _ _ Hget).
      apply (keeps_for_each resources (fun _ => update_resources_group env)).
      intros _ g.
      unfold update_resources_group, update_resources_resource,
        grouped_resinfo_append.
      keeps_object.
  - left. rewrite (update_resources_failed _ _ _ Hget) in *. simpl in H.
    injection H as ->. split; [exact Hget|]. split; [reflexivity|].
    eapply _get_data_Raise, Hget.
Qed.

Lemma X8_update_resources_exceptions_witness :
  fst (update_resources unreachable (loaded pj_example rg_example))
  = Raise (DataError "Topology query to /rgsummary/xml failed")
  /\ update_resources unreachable (loaded pj_example rg_example)
     = (Raise (DataError "Topology query to /rgsummary/xml failed"),
        loaded pj_example rg_example).
Proof.
  assert (H : fst (update_resources unreachable (loaded pj_example rg_example))
              = Raise (DataError "Topology query to /rgsummary/xml failed"))
    by (vm_compute; reflexivity).
  split; [exact H|].
  destruct (X8_update_resources_exceptions unreachable
              (loaded pj_example rg_example) _ H)
    as (_ & [(_ & Hrun & _)|(Habs & _)]); [exact Hrun|discriminate].
Defined.

(** X9: however [update_resources] ends, it leaves the base URL and the
    project document of the object as they were. *)
Theorem X9_update_resources_keeps_projects env w :
  topology_base (self (snd (update_resources env w))) = topology_base (self w)
  /\ projects (self (snd (update_resources env w))) = projects (self w).
Proof.
  split.
  - apply keeps_base_update_resources.
  - apply keeps_projects_update_resources.
Qed.

(** X10: once the resource document is fetched, [update_resources]
    returns exactly when every text it reads is there: the group name of
    each group, and of each named group the name, the FQDN and the service
    ids of every resource and the tags of every well-formed one. *)
Theorem X10_update_resources_returns_iff_readable env w root :
  _get_data env "/rgsummary/xml" w = (Ret root, w) ->
  ((exists w', update_resources env w = (Ret tt, w'))
   <-> readable_resources root = true)
  /\ (readable_resources root = false ->
      fst (update_resources env w) = Raise AttributeError).
Proof.
  intros Hget. pose proof (update_resources_decided env w root Hget) as Hdec.
  unfold decided in Hdec. destruct (readable_resources root).
  - destruct Hdec as ([] & w' & Hrun & _). split; [|discriminate].
    split; [reflexivity|]. intros _. eauto.
  - destruct Hdec as (w' & Hrun). split.
    + split; [|discriminate]. intros (w'' & H). rewrite Hrun in H. discriminate.
    + intros _. now rewrite Hrun.
Qed.

Lemma X10_update_resources_returns_witness :
  readable_resources rg_example = true
  /\ exists w', update_resources (serving pj_example rg_example) pristine = (Ret tt, w').
Proof.
  split; [reflexivity|].
  apply (proj1 (X10_update_resources_returns_iff_readable
                  (serving pj_example rg_example) pristine rg_example
                  ltac:(vm_compute; reflexivity))).
  reflexivity.
Defined.

(** ** The tables and the log after indexing *)

Lemma update_resources_resource_exact env g e w :
  readable_resource e = true ->
  (exists l, Dict.get g (grouped_resinfo (self w)) = Some l) ->
  update_resources_resource env g e w
  = (Ret tt, {| self := index_resource g (self w) e;
                log := log w ++ resource_warnings env e |}).
Proof.
  intros Hr (l & Hl).
  unfold readable_resource in Hr.
  apply andb_prop in Hr. destruct Hr as [Hr Htags].
  apply andb_prop in Hr. destruct Hr as [Hr Hids].
  apply andb_prop in Hr. destruct Hr as [Hname Hfqdn].
  unfold update_resources_resource, index_resource, resource_warnings.
  unfold bind, lift.
  rewrite !safe_element_text_has_text, !findall_nonempty_have_text.
  rewrite Hname, Hfqdn, Hids.
  unfold well_formed in *.
  fold (resource_name_of e). fold (fqdn_of e). fold (service_ids_of e).
  destruct (PyStr.truthy (resource_name_of e)); simpl; [|reflexivity].
  destruct (PyStr.truthy (fqdn_of e)); simpl; [|reflexivity].
  destruct (service_ids_of e) as [|i ids] eqn:Eids; simpl; [reflexivity|].
  simpl in Htags. rewrite Htags.
  unfold grouped_resinfo_append, bind, gets, modify. simpl. rewrite Hl. simpl.
  rewrite app_nil_r. unfold insert_record, record_of. simpl. rewrite Hl.
  fold (tags_of e). rewrite Eids. reflexivity.
Qed.

Lemma index_resource_keeps_group g e s :
  (exists l, Dict.get g (grouped_resinfo s) = Some l) ->
  exists l, Dict.get g (grouped_resinfo (index_resource g s e)) = Some l.
Proof.
  intros (l & Hl). unfold index_resource.
  destruct (well_formed e); [|eauto].
  unfold insert_record, record_of. simpl. rewrite Hl. simpl.
  rewrite get_set_eq. eauto.
Qed.

Lemma for_each_resources_exact env g es : forall w,
  forallb readable_resource es = true ->
  (exists l, Dict.get g (grouped_resinfo (self w)) = Some l) ->
  for_each es tt (fun _ => update_resources_resource env g) w
  = (Ret tt, {| self := fold_left (index_resource g) es (self w);
                log := log w ++ flat_map (resource_warnings env) es |}).
Proof.
  induction es as [|e es IH]; intros w Hok Hg; simpl.
  - rewrite app_nil_r. now destruct w.
  - simpl in Hok. apply andb_prop in Hok. destruct Hok as [He Hes].
    unfold bind. rewrite (update_resources_resource_exact env g e w He Hg).
    rewrite IH; [|assumption|now apply index_resource_keeps_group].
    simpl. now rewrite app_assoc.
Qed.

Lemma update_resources_group_exact env g w :
  readable_group g = true ->
  update_resources_group env g w
  = (Ret tt, {| self := index_group (self w) g;
                log := log w ++ group_warnings env g |}).
Proof.
  intros Hr. unfold readable_group in Hr.
  apply andb_prop in Hr. destruct Hr as [Hname Hres].
  unfold update_resources_group, index_group, group_warnings, named_group in *.
  unfold bind at 1. unfold lift. rewrite safe_element_text_has_text, Hname.
  fold (group_name_of g).
  destruct (PyStr.truthy (group_name_of g)); simpl; [|reflexivity].
  change ((grouped <- gets grouped_resinfo ;;
           modify (set_grouped_resinfo (Dict.set (group_name_of g) [] grouped)) ;;
           for_each (ET.findall g ["Resources"; "Resource"]) tt
             (fun _ => update_resources_resource env (group_name_of g))) w)
    with (for_each (resources_of g) tt
            (fun _ => update_resources_resource env (group_name_of g))
            {| self := set_grouped_resinfo
                         (Dict.set (group_name_of g) [] (grouped_resinfo (self w)))
                         (self w);
               log := log w |}).
  rewrite for_each_resources_exact; [reflexivity|assumption|].
  exists []. apply get_set_eq.
Qed.

Lemma for_each_groups_exact env gs : forall w,
  forallb readable_group gs = true ->
  for_each gs tt (fun _ => update_resources_group env) w
  = (Ret tt, {| self := fold_left index_group gs (self w);
                log := log w ++ flat_map (group_warnings env) gs |}).
Proof.
  induction gs as [|g gs IH]; intros w Hok; simpl.
  - rewrite app_nil_r. now destruct w.
  - simpl in Hok. apply andb_prop in Hok. destruct Hok as [Hg Hgs].
    unfold bind. rewrite (update_resources_group_exact env g w Hg).
    rewrite IH by assumption. simpl. now rewrite app_assoc.
Qed.

(** X11: when [update_resources] has returned it has logged, after what
    the log held, one warning for each group without a name and one for
    each malformed resource of a named group, in document order, and
    nothing else. *)
Theorem X11_update_resources_warnings env w u w' :
  update_resources env w = (Ret u, w') ->
  exists root,
    resources (self w') = Some root
    /\ log w' = log w ++ flat_map (group_warnings env) (resource_groups root)
    /\ length (log w')
       = length (log w)
         + length (filter (fun g => negb (named_group g)) (resource_groups root))
         + length (filter (fun e => negb (well_formed e))
                     (flat_map resources_of
                        (filter named_group (resource_groups root)))).
Proof.
  intros H.
  destruct (update_resources_indices _ _ _ _ H) as (root & Hget & Hres & _).
  exists root. split; [exact Hres|].
  pose proof (update_resources_decided env w root Hget) as Hdec.
  unfold decided in Hdec. destruct (readable_resources root) eqn:Er.
  2:{ destruct Hdec as (w'' & Hrun). rewrite Hrun in H. discriminate. }
  clear Hdec. rewrite (update_resources_fetched _ _ _ Hget) in H.
  unfold readable_resources in Er.
  rewrite (for_each_groups_exact env _ _ Er) in H. injection H as _ <-.
  simpl. split; [reflexivity|].
  rewrite length_app, <- Nat.add_assoc. f_equal.
  generalize (resource_groups root). intros gs.
  induction gs as [|g gs IH]; [reflexivity|].
  simpl. rewrite length_app, IH. unfold group_warnings at 1.
  destruct (named_group g); simpl.
  - rewrite filter_app, length_app.
    assert (Hres' : forall es,
               length (flat_map (resource_warnings env) es)
               = length (filter (fun e => negb (well_formed e)) es)).
    { induction es as [|e es IHes]; [reflexivity|].
      simpl. unfold resource_warnings at 1.
      destruct (well_formed e); simpl; now rewrite IHes. }
    rewrite Hres'. lia.
  - lia.
Qed.

Lemma X11_update_resources_warnings_witness :
  log (snd (update_resources (serving pj_example rg_example) pristine))
  = [Warning "Skipping malformed Resource: %s" ["<Resource>"]].
Proof.
  destruct (X11_update_resources_warnings
              (serving pj_example rg_example) pristine tt
              (snd (update_resources (serving pj_example rg_example) pristine))
              ltac:(vm_compute; reflexivity))
    as (root & Hroot & Hlog & _).
  vm_compute in Hroot. injection Hroot as <-. rewrite Hlog.
  vm_compute. reflexivity.
Defined.

(** X12: after [update_resources] has returned, every entry stands
    under its own key: the record at a name has that name, the record at
    an FQDN has that FQDN, every record in a group's list has that group's
    name; and all of them are records of the table. *)
Theorem X12_index_entries_match_their_keys env w u w' :
  update_resources env w = (Ret u, w') ->
  let s := self w' in
  (forall k r, Dict.get k (resinfo_by_name s) = Some r ->
               ResourceInfo.name r = k /\ In r (resinfo_table s))
  /\ (forall k r, Dict.get k (resinfo_by_fqdn s) = Some r ->
                  ResourceInfo.fqdn r = k /\ In r (resinfo_table s))
  /\ (forall k l r, Dict.get k (grouped_resinfo s) = Some l -> In r l ->
                    ResourceInfo.group_name r = k /\ In r (resinfo_table s)).
Proof.
  intros H s. subst s. apply update_resources_indices in H.
  destruct H as (root & _ & _ & Ht & Hg & Hn & Hf).
  rewrite Ht, Hg, Hn, Hf. unfold index_by, register_groups.
  split; [|split].
  - intros k r Hr. apply get_fill_inv in Hr.
    destruct Hr as [Hr|(x & Hx & Hk & ->)]; [discriminate|]. auto.
  - intros k r Hr. apply get_fill_inv in Hr.
    destruct Hr as [Hr|(x & Hx & Hk & ->)]; [discriminate|]. auto.
  - intros k l r Hl Hr. apply get_fill_inv in Hl.
    destruct Hl as [Hl|(g & Hg' & <- & <-)]; [discriminate|]. split.
    + unfold group_records in Hr. apply in_map_iff in Hr.
      now destruct Hr as (e & <- & _).
    + unfold document_records. apply in_flat_map. eauto.
Qed.

Lemma X12_index_entries_witness :
  Dict.get "ap1" (resinfo_by_name (self (loaded pj_example rg_example)))
  = Some (ResourceInfo.make "GroupA" "ap1" "ap1.example.net" ["109"] [])
  /\ In (ResourceInfo.make "GroupA" "ap1" "ap1.example.net" ["109"] [])
        (resinfo_table (self (loaded pj_example rg_example))).
Proof.
  assert (Hget : Dict.get "ap1" (resinfo_by_name (self (loaded pj_example rg_example)))
                 = Some (ResourceInfo.make "GroupA" "ap1" "ap1.example.net" ["109"] []))
    by (vm_compute; reflexivity).
  split; [exact Hget|].
  apply (proj1 (X12_index_entries_match_their_keys
                  (serving pj_example rg_example)
                  (snd (update_projects (serving pj_example rg_example)
                          {| self := blank; log := [] |}))
                  tt (loaded pj_example rg_example)
                  ltac:(vm_compute; reflexivity)) "ap1" _ Hget).
Defined.

(** X13: after [update_resources] has returned, the keys of [by_group]
    are pairwise distinct and are exactly the non-empty group names of the
    document: a named group is listed even when none of its resources is
    well-formed, a group without a name never.  When no group has a name,
    the table and the three indices are empty. *)
Theorem X13_by_group_keys_are_the_group_names env w u w' root :
  update_resources env w = (Ret u, w') ->
  resources (self w') = Some root ->
  NoDup (Dict.keys (grouped_resinfo (self w')))
  /\ (forall k, In k (Dict.keys (grouped_resinfo (self w')))
                <-> exists g, In g (resource_groups root)
                              /\ named_group g = true /\ group_name_of g = k)
  /\ ((forall g, In g (resource_groups root) -> named_group g = false) ->
      indices (self w') = ([], Dict.empty, Dict.empty, Dict.empty)).
Proof.
  intros H Hroot. apply update_resources_indices in H.
  destruct H as (root' & _ & Hroot' & Ht & Hg & Hn & Hf).
  rewrite Hroot in Hroot'. injection Hroot' as <-.
  split; [|split].
  - rewrite Hg. apply fill_NoDup. constructor.
  - intros k. rewrite Hg. unfold register_groups. rewrite in_keys_fill. simpl.
    split.
    + intros [(g & Hin & Hk)|Hbad]; [|inversion Hbad].
      apply filter_In in Hin. exists g. tauto.
    + intros (g & Hin & Hnamed & Hk). left. exists g. split; [|exact Hk].
      apply filter_In. auto.
  - intros Hnone.
    assert (E : filter named_group (resource_groups root) = []).
    { revert Hnone. generalize (resource_groups root). intros gs.
      induction gs as [|g gs IH]; intros Hnone; [reflexivity|].
      simpl. rewrite (Hnone g (or_introl eq_refl)). apply IH.
      intros g' Hg'. apply Hnone. now right. }
    unfold indices. rewrite Ht, Hg, Hn, Hf.
    unfold document_records, register_groups. rewrite E. reflexivity.
Qed.

Lemma X13_by_group_keys_witness :
  NoDup (Dict.keys (grouped_resinfo (self (loaded pj_example rg_one_name_twice))))
  /\ Dict.keys (grouped_resinfo (self (loaded pj_example rg_one_name_twice)))
     = ["GroupA"].
Proof.
  split; [|vm_compute; reflexivity].
  refine (proj1 (X13_by_group_keys_are_the_group_names
                   (serving pj_example rg_one_name_twice)
                   (snd (update_projects (serving pj_example rg_one_name_twice)
                           {| self := blank; log := [] |}))
                   tt (loaded pj_example rg_one_name_twice) rg_one_name_twice
                   _ _)).
  - vm_compute; reflexivity.
  - vm_compute; reflexivity.
Defined.

(** ** The lookup export *)

Lemma set_fresh {V} k (v : V) d :
  ~ In k (Dict.keys d) -> Dict.set k v d = d ++ [(k, v)].
Proof.
  unfold Dict.keys. induction d as [|[k0 v0] d IH]; simpl; intros H; [reflexivity|].
  destruct (String.eqb k k0) eqn:E.
  - apply String.eqb_eq in E. subst. elim H. now left.
  - rewrite IH; [reflexivity|]. intros Hin. apply H. now right.
Qed.

(** Assigning the entries of a dictionary one by one, each value
    transformed, gives the dictionary with every value transformed. *)
Lemma assign_each {V W} (f : V -> W) (d : dict V) :
  NoDup (Dict.keys d) ->
  fold_left (fun acc '(k, v) => Dict.set k (f v) acc) d Dict.empty
  = map (fun kv => (fst kv, f (snd kv))) d.
Proof.
  intros Hnd.
  assert (Hgen : forall acc,
             (forall k, In k (Dict.keys d) -> ~ In k (Dict.keys acc)) ->
             fold_left (fun acc '(k, v) => Dict.set k (f v) acc) d acc
             = acc ++ map (fun kv => (fst kv, f (snd kv))) d).
  { induction d as [|[k v] d IH]; intros acc Hdis; simpl.
    - now rewrite app_nil_r.
    - inversion Hnd as [|? ? Hk Hnd']; subst.
      rewrite set_fresh by (apply Hdis; now left).
      rewrite IH; [now rewrite <- app_assoc|assumption|].
      intros k' Hk' Hin. unfold Dict.keys in Hin. rewrite map_app in Hin.
      apply in_app_or in Hin. destruct Hin as [Hin|[<-|[]]].
      + apply (Hdis k'); [now right|exact Hin].
      + now apply Hk. }
  apply (Hgen []). intros k _ [].
Qed.

Lemma get_map_values {V W} (f : V -> W) k (d : dict V) :
  Dict.get k (map (fun kv => (fst kv, f (snd kv))) d)
  = option_map f (Dict.get k d).
Proof.
  induction d as [|[k0 v0] d IH]; simpl; [reflexivity|].
  now destruct (String.eqb k k0).
Qed.

Lemma keys_map_values {V W} (f : V -> W) (d : dict V) :
  Dict.keys (map (fun kv => (fst kv, f (snd kv))) d) = Dict.keys d.
Proof. unfold Dict.keys. rewrite map_map. reflexivity. Qed.

Lemma from_asdict_asdict r : from_asdict (_asdict r) = Some r.
Proof. now destruct r. Qed.

Lemma get_resource_info_lookups_run w :
  NoDup (Dict.keys (grouped_resinfo (self w))) ->
  NoDup (Dict.keys (resinfo_by_name (self w))) ->
  NoDup (Dict.keys (resinfo_by_fqdn (self w))) ->
  get_resource_info_lookups w
  = (Ret {| resource_lists_by_group :=
              map (fun kv => (fst kv, map _asdict (snd kv)))
                  (grouped_resinfo (self w));
            resources_by_name :=
              map (fun kv => (fst kv, _asdict (snd kv))) (resinfo_by_name (self w));
            resources_by_fqdn :=
              map (fun kv => (fst kv, _asdict (snd kv)))
                  (resinfo_by_fqdn (self w)) |},
     w).
Proof.
  intros Hg Hn Hf. unfold get_resource_info_lookups, bind, gets, ret. simpl.
  rewrite <- (assign_each (map _asdict) _ Hg), <- (assign_each _asdict _ Hn),
    <- (assign_each _asdict _ Hf).
  reflexivity.
Qed.

(** X14: on an object whose three indices have pairwise distinct keys,
    [get_resource_info_lookups] returns without touching the object or the
    log, and nothing is filtered or lost: each exported dictionary has the
    keys of its index in the same order, the entry of a key is the field
    dictionary of the indexed record (the list of field dictionaries of the
    indexed list), and a field dictionary reads back into its record. *)
Theorem X14_lookups_are_lossless w :
  NoDup (Dict.keys (grouped_resinfo (self w))) ->
  NoDup (Dict.keys (resinfo_by_name (self w))) ->
  NoDup (Dict.keys (resinfo_by_fqdn (self w))) ->
  exists lookups,
    get_resource_info_lookups w = (Ret lookups, w)
    /\ Dict.keys (resource_lists_by_group lookups)
       = Dict.keys (grouped_resinfo (self w))
    /\ Dict.keys (resources_by_name lookups) = Dict.keys (resinfo_by_name (self w))
    /\ Dict.keys (resources_by_fqdn lookups) = Dict.keys (resinfo_by_fqdn (self w))
    /\ (forall k, Dict.get k (resource_lists_by_group lookups)
                  = option_map (map _asdict) (Dict.get k (grouped_resinfo (self w))))
    /\ (forall k, Dict.get k (resources_by_name lookups)
                  = option_map _asdict (Dict.get k (resinfo_by_name (self w))))
    /\ (forall k, Dict.get k (resources_by_fqdn lookups)
                  = option_map _asdict (Dict.get k (resinfo_by_fqdn (self w))))
    /\ (forall r, from_asdict (_asdict r) = Some r).
Proof.
  intros Hg Hn Hf. eexists. split; [apply get_resource_info_lookups_run; assumption|].
  simpl. rewrite !keys_map_values.
  repeat split; intros; try apply get_map_values. apply from_asdict_asdict.
Qed.

Lemma loaded_example_distinct_keys :
  NoDup (Dict.keys (grouped_resinfo (self (loaded pj_example rg_example))))
  /\ NoDup (Dict.keys (resinfo_by_name (self (loaded pj_example rg_example))))
  /\ NoDup (Dict.keys (resinfo_by_fqdn (self (loaded pj_example rg_example)))).
Proof.
  vm_compute. repeat split; repeat constructor; simpl; intuition discriminate.
Qed.

Lemma X14_lookups_witness :
  exists lookups,
    get_resource_info_lookups (loaded pj_example rg_example)
    = (Ret lookups, loaded pj_example rg_example)
    /\ Dict.keys (resources_by_name lookups) = ["ce1.example.net"; "ap1"; "ce2"].
Proof.
  destruct loaded_example_distinct_keys as (Hg & Hn & Hf).
  destruct (X14_lookups_are_lossless (loaded pj_example rg_example) Hg Hn Hf)
    as (lookups & Hrun & _ & Hkeys & _).
  exists lookups. split; [exact Hrun|]. rewrite Hkeys. vm_compute. reflexivity.
Defined.

(** X15: after [update_resources] has returned, the export agrees with
    itself: in [resources_by_name] the entry of a key has that key as its
    ["name"], in [resources_by_fqdn] as its ["fqdn"], and every field
    dictionary in the list of a group has that group as its
    ["group_name"]. *)
Theorem X15_lookups_entries_carry_their_keys env w u w' :
  update_resources env w = (Ret u, w') ->
  exists lookups,
    get_resource_info_lookups w' = (Ret lookups, w')
    /\ (forall k d, Dict.get k (resources_by_name lookups) = Some d ->
                    Dict.get "name" d = Some (StrValue k))
    /\ (forall k d, Dict.get k (resources_by_fqdn lookups) = Some d ->
                    Dict.get "fqdn" d = Some (StrValue k))
    /\ (forall k l d, Dict.get k (resource_lists_by_group lookups) = Some l ->
                      In d l -> Dict.get "group_name" d = Some (StrValue k)).
Proof.
  intros H.
  assert (Hidx := update_resources_indices _ _ _ _ H).
  destruct Hidx as (root & _ & _ & Ht & Hg & Hn & Hf).
  assert (Hnd : NoDup (Dict.keys (grouped_resinfo (self w')))
                /\ NoDup (Dict.keys (resinfo_by_name (self w')))
                /\ NoDup (Dict.keys (resinfo_by_fqdn (self w')))).
  { rewrite Hg, Hn, Hf. unfold register_groups, index_by.
    repeat split; apply fill_NoDup; constructor. }
  destruct Hnd as (Hndg & Hndn & Hndf).
  eexists. split; [apply get_resource_info_lookups_run; assumption|].
  simpl. split; [|split].
  - intros k d Hd. rewrite get_map_values in Hd.
    destruct (Dict.get k (resinfo_by_name (self w'))) as [r|] eqn:Er; [|discriminate].
    injection Hd as <-. rewrite Hn in Er. unfold index_by in Er.
    apply get_fill_inv in Er. destruct Er as [Er|(x & _ & <- & ->)]; [discriminate|].
    reflexivity.
  - intros k d Hd. rewrite get_map_values in Hd.
    destruct (Dict.get k (resinfo_by_fqdn (self w'))) as [r|] eqn:Er; [|discriminate].
    injection Hd as <-. rewrite Hf in Er. unfold index_by in Er.
    apply get_fill_inv in Er. destruct Er as [Er|(x & _ & <- & ->)]; [discriminate|].
    reflexivity.
  - intros k l d Hl Hd. rewrite get_map_values in Hl.
    destruct (Dict.get k (grouped_resinfo (self w'))) as [rs|] eqn:Er; [|discriminate].
    injection Hl as <-. apply in_map_iff in Hd. destruct Hd as (r & <- & Hr).
    rewrite Hg in Er. unfold register_groups in Er.
    apply get_fill_inv in Er. destruct Er as [Er|(g & _ & <- & <-)]; [discriminate|].
    unfold group_records in Hr. apply in_map_iff in Hr.
    destruct Hr as (e & <- & _). reflexivity.
Qed.

Lemma X15_lookups_entries_witness :
  exists lookups,
    get_resource_info_lookups (loaded pj_example rg_example)
    = (Ret lookups, loaded pj_example rg_example)
    /\ forall k d, Dict.get k (resources_by_name lookups) = Some d ->
                   Dict.get "name" d = Some (StrValue k).
Proof.
  destruct (X15_lookups_entries_carry_their_keys
              (serving pj_example rg_example)
              (snd (update_projects (serving pj_example rg_example)
                      {| self := blank; log := [] |}))
              tt (loaded pj_example rg_example)
              ltac:(vm_compute; reflexivity))
    as (lookups & Hrun & Hname & _).
  exists lookups. auto.
Defined.

(** ** The join and the object *)

(** X16: however [get_project_resource_allocations] ends, the object is
    as it was; and the only exception it raises is [AttributeError]. *)
Theorem X16_join_leaves_the_object_alone env w :
  self (snd (get_project_resource_allocations env w)) = self w
  /\ forall e, fst (get_project_resource_allocations env w) = Raise e ->
               e = AttributeError.
Proof.
  split; [apply (keeps_object_join env w)|].
  intros e H.
  destruct (join_loaded_cases env w) as [(eP & eR & Hp & Hr & Tp & Tr)|Hrun].
  - pose proof (get_project_resource_allocations_decided env w eP eR Hp Hr Tp Tr)
      as Hdec.
    unfold decided in Hdec. destruct (readable_projects eP).
    + destruct Hdec as (out & w' & Hrun & _). rewrite Hrun in H. discriminate.
    + destruct Hdec as (w' & Hrun). rewrite Hrun in H. now injection H as <-.
  - rewrite Hrun in H. discriminate.
Qed.

Lemma X16_join_witness :
  fst (get_project_resource_allocations (serving pj_empty_type rg_example)
         (loaded pj_empty_type rg_example))
  = Raise AttributeError
  /\ self (snd (get_project_resource_allocations (serving pj_empty_type rg_example)
                  (loaded pj_empty_type rg_example)))
     = self (loaded pj_empty_type rg_example).
Proof.
  pose proof (X16_join_leaves_the_object_alone
                (serving pj_empty_type rg_example)
                (loaded pj_empty_type rg_example)) as [Hself Hexn].
  split; [|exact Hself].
  destruct (fst (get_project_resource_allocations (serving pj_empty_type rg_example)
                   (loaded pj_empty_type rg_example))) as [out|e] eqn:E.
  - vm_compute in E. discriminate.
  - now rewrite (Hexn e eq_refl).
Defined.

(** X17: with both documents loaded and not childless,
    [get_project_resource_allocations] returns exactly when every text it
    reads is there: the name of each project, of each named project the
    type of every allocation, and of each complete allocation every
    submit-resource reference and the group name and local allocation id
    of every execute-resource-group reference. *)
Theorem X17_join_returns_iff_readable env w eProjects eResources :
  projects (self w) = Some eProjects ->
  resources (self w) = Some eResources ->
  ET.truthy eProjects = true ->
  ET.truthy eResources = true ->
  ((exists out w', get_project_resource_allocations env w = (Ret out, w'))
   <-> readable_projects eProjects = true)
  /\ (readable_projects eProjects = false ->
      fst (get_project_resource_allocations env w) = Raise AttributeError).
Proof.
  intros Hp Hr Tp Tr.
  pose proof (get_project_resource_allocations_decided env w _ _ Hp Hr Tp Tr) as Hdec.
  unfold decided in Hdec. destruct (readable_projects eProjects).
  - destruct Hdec as (out & w' & Hrun & _). split; [|discriminate].
    split; [reflexivity|]. intros _. eauto.
  - destruct Hdec as (w' & Hrun). split.
    + split; [|discriminate]. intros (out & w'' & H). rewrite Hrun in H. discriminate.
    + intros _. now rewrite Hrun.
Qed.

Lemma X17_join_returns_witness :
  readable_projects pj_empty_type = false
  /\ fst (get_project_resource_allocations (serving pj_empty_type rg_example)
            (loaded pj_empty_type rg_example))
     = Raise AttributeError.
Proof.
  split; [reflexivity|].
  apply (proj2 (X17_join_returns_iff_readable
                  (serving pj_empty_type rg_example)
                  (loaded pj_empty_type rg_example)
                  pj_empty_type rg_example
                  ltac:(vm_compute; reflexivity) ltac:(vm_compute; reflexivity)
                  ltac:(vm_compute; reflexivity) ltac:(vm_compute; reflexivity))).
  reflexivity.
Defined.

(** X18: when the join of two loaded, not childless documents returns,
    the keys of the output are pairwise distinct and are exactly the
    non-empty project names of the document: a project without a name has
    no entry, a named project has one even when none of its allocations is
    complete. *)
Theorem X18_join_keys_are_the_project_names
    env w out w' eProjects eResources :
  get_project_resource_allocations env w = (Ret out, w') ->
  projects (self w) = Some eProjects ->
  resources (self w) = Some eResources ->
  ET.truthy eProjects = true ->
  ET.truthy eResources = true ->
  NoDup (Dict.keys out)
  /\ (forall k, In k (Dict.keys out)
                <-> exists p, In p (project_elements eProjects)
                              /\ named_project p = true /\ project_name_of p = k)
  /\ (forall k l, Dict.get k out = Some l ->
        exists p, In p (project_elements eProjects)
                  /\ project_name_of p = k /\ l = allocations_of (self w) p).
Proof.
  intros H Hp Hr Tp Tr.
  destruct (get_project_resource_allocations_Ret _ _ _ _ _ _ H Hp Hr Tp Tr) as [_ ->].
  unfold join_projects. split; [apply fill_NoDup; constructor|]. split.
  - intros k. rewrite in_keys_fill. split.
    + intros [(p & Hin & Hk)|Hbad]; [|inversion Hbad].
      apply filter_In in Hin. exists p. tauto.
    + intros (p & Hin & Hnamed & Hk). left. exists p. split; [|exact Hk].
      apply filter_In. auto.
  - intros k l Hl. apply get_fill_inv in Hl.
    destruct Hl as [Hl|(p & Hin & Hk & Hv)]; [discriminate|].
    apply filter_In in Hin. destruct Hin as [Hin _].
    exists p. split; [exact Hin|]. split; [exact Hk|]. symmetry. exact Hv.
Qed.

Lemma X18_join_keys_witness :
  NoDup (Dict.keys (joined pj_both_allocated rg_example))
  /\ Dict.keys (joined pj_both_allocated rg_example) = ["ProjA"].
Proof.
  split; [|vm_compute; reflexivity].
  refine (proj1 (X18_join_keys_are_the_project_names
                   (serving pj_both_allocated rg_example)
                   (loaded pj_both_allocated rg_example)
                   (joined pj_both_allocated rg_example) _
                   pj_both_allocated rg_example
                   loaded_both_allocated_returns _ _ _ _)).
  - vm_compute; reflexivity.
  - vm_compute; reflexivity.
  - vm_compute; reflexivity.
  - vm_compute; reflexivity.
Defined.

(** ** What the output refers to *)

Lemma truthy_nonempty s : PyStr.truthy s = true -> s <> "".
Proof. intros H ->. discriminate. Qed.

Lemma in_resolve_group s e g :
  In g (resolve_group s e) ->
  erg_group_name g <> "" /\ local_allocation_id g <> ""
  /\ exists x rest,
       Dict.get (erg_group_name g) (grouped_resinfo s) = Some (x :: rest)
       /\ ces g = map ce_view (filter ResourceInfo.is_ce (x :: rest)).
Proof.
  unfold resolve_group.
  destruct (PyStr.truthy (element_text (ET.find e ["GroupName"]))) eqn:Eg;
    [|intros []].
  destruct (PyStr.truthy (element_text (ET.find e ["LocalAllocationID"]))) eqn:Ei;
    [|intros []].
  simpl. destruct (Dict.get _ _) as [[|x rest]|] eqn:Eget; try (intros []; fail).
  intros [<-|[]]. simpl.
  split; [now apply truthy_nonempty|]. split; [now apply truthy_nonempty|].
  exists x, rest. auto.
Qed.

Lemma in_resolve_submit s e sr :
  In sr (resolve_submit s e) ->
  exists ri,
    Dict.get (element_text (Some e)) (resinfo_by_name s) = Some ri
    /\ sr = submit_view ri.
Proof.
  unfold resolve_submit. destruct (Dict.get _ _) as [ri|]; [|intros []].
  intros [<-|[]]. eauto.
Qed.

(** Every record of the output is the record of a complete allocation
    element. *)
Lemma join_output_records env w out w' n l a :
  get_project_resource_allocations env w = (Ret out, w') ->
  Dict.get n out = Some l ->
  In a l ->
  exists e, complete e = true /\ a = allocation_of (self w) e.
Proof.
  intros H Hn Ha.
  apply get_project_resource_allocations_cases in H.
  destruct H as [->|(eProjects & ->)]; [discriminate|].
  unfold join_projects in Hn. apply get_fill_inv in Hn.
  destruct Hn as [Hn|(p & _ & _ & <-)]; [discriminate|].
  unfold allocations_of in Ha. apply in_map_iff in Ha.
  destruct Ha as (e & <- & He). apply filter_In in He. exists e. tauto.
Qed.

(** X19: every allocation record of a returned output has a non-empty
    type; each of its submit resources is the view of an entry of
    [by_name]; each of its execute resource groups has a non-empty name
    and a non-empty local allocation id and names a group whose list in
    [by_group] is not empty. *)
Theorem X19_output_records_resolve env w out w' n l a :
  get_project_resource_allocations env w = (Ret out, w') ->
  Dict.get n out = Some l ->
  In a l ->
  type_ a <> ""
  /\ (forall sr, In sr (submit_resources a) ->
        exists k ri, Dict.get k (resinfo_by_name (self w)) = Some ri
                     /\ sr = submit_view ri)
  /\ (forall g, In g (execute_resource_groups a) ->
        erg_group_name g <> "" /\ local_allocation_id g <> ""
        /\ exists x rest,
             Dict.get (erg_group_name g) (grouped_resinfo (self w))
             = Some (x :: rest)).
Proof.
  intros H Hn Ha.
  destruct (join_output_records _ _ _ _ _ _ _ H Hn Ha) as (e & Hc & ->).
  simpl. split; [|split].
  - unfold complete in Hc. apply andb_prop in Hc. destruct Hc as [Hc _].
    apply andb_prop in Hc. destruct Hc as [Ht _]. now apply truthy_nonempty.
  - intros sr Hsr. apply in_flat_map in Hsr. destruct Hsr as (ref & _ & Hsr).
    apply in_resolve_submit in Hsr. destruct Hsr as (ri & Hget & ->). eauto.
  - intros g Hg. apply in_flat_map in Hg. destruct Hg as (ref & _ & Hg).
    apply in_resolve_group in Hg.
    destruct Hg as (Hname & Hid & x & rest & Hget & _). eauto 6.
Qed.

Lemma X19_output_records_witness :
  exists l a,
    Dict.get "ProjA" (joined pj_example rg_example) = Some l /\ In a l
    /\ type_ a = "Hosted Compute" /\ type_ a <> "".
Proof.
  pose (l := map (allocation_of (self (loaded pj_example rg_example)))
                 [hosted; unknown_submit]).
  pose (a := allocation_of (self (loaded pj_example rg_example)) hosted).
  assert (Hl : Dict.get "ProjA" (joined pj_example rg_example) = Some l)
    by (vm_compute; reflexivity).
  assert (Ha : In a l) by (left; reflexivity).
  exists l, a. split; [exact Hl|]. split; [exact Ha|].
  split; [vm_compute; reflexivity|].
  exact (proj1 (X19_output_records_resolve
                  (serving pj_example rg_example) (loaded pj_example rg_example)
                  (joined pj_example rg_example) _ "ProjA" l a
                  loaded_example_returns Hl Ha)).
Defined.

Lemma __init___Ret env b w u w' :
  __init__ env b w = (Ret u, w') ->
  exists w0, update_resources env w0 = (Ret u, w').
Proof.
  rewrite __init___start. intros H. apply bind_Ret in H.
  destruct H as (a & w0 & _ & H). eauto.
Qed.

(** X20: constructing the object and joining fit together.  When both
    return, every submit resource of the output can be looked up: its name
    is a key of [by_name], the entry there has its FQDN and its group, is
    in the table, and its group is a key of [by_group].  And every compute
    entrypoint of an execute resource group is the view of a record of the
    table that has service id ["1"] and belongs to that group, and its name
    is a key of [by_name]. *)
Theorem X20_output_names_can_be_looked_up env b w u w1 out w2 n l a :
  __init__ env b w = (Ret u, w1) ->
  get_project_resource_allocations env w1 = (Ret out, w2) ->
  Dict.get n out = Some l ->
  In a l ->
  (forall sr, In sr (submit_resources a) ->
     exists ri,
       Dict.get (sr_name sr) (resinfo_by_name (self w1)) = Some ri
       /\ sr = submit_view ri
       /\ In ri (resinfo_table (self w1))
       /\ In (sr_group_name sr) (Dict.keys (grouped_resinfo (self w1))))
  /\ (forall g ce, In g (execute_resource_groups a) -> In ce (ces g) ->
        exists x,
          In x (resinfo_table (self w1))
          /\ In "1" (ResourceInfo.service_ids x)
          /\ ResourceInfo.group_name x = erg_group_name g
          /\ ce = ce_view x
          /\ In (ce_name ce) (Dict.keys (resinfo_by_name (self w1)))).
Proof.
  intros Hinit H Hn Ha.
  apply __init___Ret in Hinit. destruct Hinit as (w0 & Hupd).
  apply update_resources_indices in Hupd.
  destruct Hupd as (root & _ & _ & Ht & Hg & Hnm & _).
  destruct (join_output_records _ _ _ _ _ _ _ H Hn Ha) as (e & _ & ->).
  simpl. split.
  - intros sr Hsr. apply in_flat_map in Hsr. destruct Hsr as (ref & _ & Hsr).
    apply in_resolve_submit in Hsr. destruct Hsr as (ri & Hget & ->).
    assert (Hri : ResourceInfo.name ri = element_text (Some ref)
                  /\ In ri (document_records root)).
    { rewrite Hnm in Hget. unfold index_by in Hget. apply get_fill_inv in Hget.
      destruct Hget as [Hget|(x & Hx & Hk & ->)]; [discriminate|]. auto. }
    destruct Hri as [Hname Hin]. exists ri. simpl.
    rewrite Hname. split; [exact Hget|]. split; [reflexivity|].
    rewrite Ht, Hg. split; [exact Hin|].
    unfold document_records in Hin. apply in_flat_map in Hin.
    destruct Hin as (grp & Hgrp & Hrec). unfold group_records in Hrec.
    apply in_map_iff in Hrec. destruct Hrec as (el & <- & _). simpl.
    unfold register_groups. apply in_keys_fill. left. eauto.
  - intros g ce Hg' Hce. apply in_flat_map in Hg'. destruct Hg' as (ref & _ & Hg').
    apply in_resolve_group in Hg'.
    destruct Hg' as (_ & _ & x0 & rest & Hget & Hces).
    rewrite Hces in Hce. apply in_map_iff in Hce. destruct Hce as (x & <- & Hx).
    apply filter_In in Hx. destruct Hx as [Hx Hce].
    rewrite Hg in Hget. unfold register_groups in Hget. apply get_fill_inv in Hget.
    destruct Hget as [Hget|(grp & Hgrp & Hk & Hv)]; [discriminate|].
    rewrite <- Hv in Hx.
    assert (Hin : In x (document_records root)).
    { unfold document_records. apply in_flat_map. eauto. }
    exists x. rewrite Ht, Hnm. split; [exact Hin|].
    split; [now apply is_ce_iff|]. split.
    + unfold group_records in Hx. apply in_map_iff in Hx.
      destruct Hx as (el & <- & _). exact Hk.
    + split; [reflexivity|]. simpl. unfold index_by. apply in_keys_fill.
      left. eauto.
Qed.

Lemma X20_output_names_witness :
  exists ri,
    Dict.get "ce1.example.net"
      (resinfo_by_name (self (loaded pj_example rg_example))) = Some ri
    /\ {| sr_fqdn := "ce1.example.net"; sr_group_name := "GroupA";
          sr_name := "ce1.example.net" |} = submit_view ri.
Proof.
  pose (l := map (allocation_of (self (loaded pj_example rg_example)))
                 [hosted; unknown_submit]).
  pose (a := allocation_of (self (loaded pj_example rg_example)) hosted).
  pose (sr := {| sr_fqdn := "ce1.example.net"; sr_group_name := "GroupA";
                 sr_name := "ce1.example.net" |}).
  assert (Hl : Dict.get "ProjA" (joined pj_example rg_example) = Some l)
    by (vm_compute; reflexivity).
  assert (Ha : In a l) by (left; reflexivity).
  assert (Hsr : In sr (submit_resources a)) by (vm_compute; auto).
  destruct (proj1 (X20_output_names_can_be_looked_up
                     (serving pj_example rg_example) TOPOLOGY pristine tt
                     (loaded pj_example rg_example)
                     (joined pj_example rg_example) _ "ProjA" l a
                     ltac:(vm_compute; reflexivity)
                     loaded_example_returns Hl Ha) sr Hsr)
    as (ri & Hget & Hview & _).
  exists ri. split; [exact Hget|exact Hview].
Defined.

(** ** What the join reads *)

Lemma fill_ext {X V} (key : X -> string) (val1 val2 : X -> V) l :
  (forall x, In x l -> val1 x = val2 x) ->
  forall d, Dict.fill key val1 l d = Dict.fill key val2 l d.
Proof.
  unfold Dict.fill. induction l as [|x l IH]; intros H d; simpl; [reflexivity|].
  rewrite (H x (or_introl eq_refl)). apply IH. intros y Hy. apply H. now right.
Qed.

Lemma allocation_of_ext s1 s2 a :
  resinfo_by_name s1 = resinfo_by_name s2 ->
  grouped_resinfo s1 = grouped_resinfo s2 ->
  allocation_of s1 a = allocation_of s2 a.
Proof.
  intros Hn Hg. unfold allocation_of. f_equal.
  - apply flat_map_ext. intros e. unfold resolve_submit. now rewrite Hn.
  - apply flat_map_ext. intros e. unfold resolve_group. now rewrite Hg.
Qed.

Lemma join_projects_ext s1 s2 ps d :
  resinfo_by_name s1 = resinfo_by_name s2 ->
  grouped_resinfo s1 = grouped_resinfo s2 ->
  join_projects s1 ps d = join_projects s2 ps d.
Proof.
  intros Hn Hg. unfold join_projects. apply fill_ext. intros p _.
  unfold allocations_of. apply map_ext. intros a. now apply allocation_of_ext.
Qed.

Lemma join_unloaded env w :
  match projects (self w), resources (self w) with
  | Some eProjects, Some eResources => ET.truthy eProjects && ET.truthy eResources
  | _, _ => false
  end = false ->
  get_project_resource_allocations env w = (Ret Dict.empty, w).
Proof.
  unfold get_project_resource_allocations, bind, gets, ret. cbn [self fst snd].
  destruct (projects (self w)) as [eProjects|]; [|reflexivity].
  destruct (resources (self w)) as [eResources|]; [|reflexivity].
  destruct (ET.truthy eProjects), (ET.truthy eResources); simpl;
    intros H; try reflexivity; discriminate.
Qed.

(** X21: what [get_project_resource_allocations] returns or raises is
    decided by the project document, by [by_name], by [by_group] and by
    whether the resource document is loaded and has children: two objects
    that agree on these give the same outcome, whatever their tables,
    their [by_fqdn], their base URLs, their logs and the collaborators. *)
Theorem X21_join_reads_two_indices env1 env2 w1 w2 :
  projects (self w1) = projects (self w2) ->
  option_map ET.truthy (resources (self w1))
  = option_map ET.truthy (resources (self w2)) ->
  resinfo_by_name (self w1) = resinfo_by_name (self w2) ->
  grouped_resinfo (self w1) = grouped_resinfo (self w2) ->
  fst (get_project_resource_allocations env1 w1)
  = fst (get_project_resource_allocations env2 w2).
Proof.
  intros Hp Hr Hn Hg.
  pose proof (join_unloaded env1 w1) as Hu1.
  pose proof (join_unloaded env2 w2) as Hu2.
  rewrite <- Hp in Hu2.
  destruct (projects (self w1)) as [eP|] eqn:Hp1;
    [|rewrite Hu1, Hu2; reflexivity].
  symmetry in Hp.
  destruct (resources (self w1)) as [eR1|] eqn:Hr1,
           (resources (self w2)) as [eR2|] eqn:Hr2;
    try discriminate; [|rewrite Hu1, Hu2; reflexivity].
  simpl in Hr. injection Hr as Hr. rewrite <- Hr in Hu2.
  destruct (ET.truthy eP) eqn:Tp; [|rewrite Hu1, Hu2; reflexivity].
  destruct (ET.truthy eR1) eqn:Tr1; [|rewrite Hu1, Hu2; reflexivity].
  clear Hu1 Hu2. symmetry in Hr.
  pose proof (get_project_resource_allocations_decided env1 w1 _ _ Hp1 Hr1 Tp Tr1)
    as Hd1.
  pose proof (get_project_resource_allocations_decided env2 w2 _ _ Hp Hr2 Tp Hr)
    as Hd2.
  unfold decided in Hd1, Hd2. destruct (readable_projects eP).
  - destruct Hd1 as (out1 & v1 & Hrun1 & _). destruct Hd2 as (out2 & v2 & Hrun2 & _).
    destruct (get_project_resource_allocations_Ret _ _ _ _ _ _ Hrun1 Hp1 Hr1 Tp Tr1)
      as [_ E1].
    destruct (get_project_resource_allocations_Ret _ _ _ _ _ _ Hrun2 Hp Hr2 Tp Hr)
      as [_ E2].
    rewrite Hrun1, Hrun2, E1, E2. cbn [fst]. f_equal.
    now apply join_projects_ext.
  - destruct Hd1 as (v1 & ->). destruct Hd2 as (v2 & ->). reflexivity.
Qed.

Lemma X21_join_reads_witness :
  fst (get_project_resource_allocations (serving pj_example rg_example)
         (loaded pj_example rg_example))
  = fst (get_project_resource_allocations unreachable
           {| self := set_resinfo_table []
                        (set_resinfo_by_fqdn Dict.empty
                           (self (loaded pj_example rg_example)));
              log := [] |}).
Proof.
  apply X21_join_reads_two_indices; vm_compute; reflexivity.
Defined.
